(** * A shallow embedding of the packet engine (session core, DHCPv4
      request handling, ICMPv6 senders) and the properties checked on it.

    Conventions used throughout:
    - a Go byte is a [Z]; a byte slice ([net.IP], [net.HardwareAddr],
      [[]byte]) is a [list Z]; the nil slice is the empty list;
    - [time.Time] and [time.Duration] are [Z] (nanoseconds), so
      [t.Add d] is [t + d] and [t.Before u] is [t <? u];
    - a Go map is a [gmap]; a pointer to a table row is the key of the row;
    - goroutines started by a function and writes to the socket are
      returned as a list of events, in program order. *)

From Stdlib Require Import ZArith List Bool Lia String.
From stdpp Require Import gmap list fin_maps.

Import ListNotations.
Local Open Scope Z_scope.

Abbreviation bytes := (list Z).

(** ** Package [net] of the Go standard library: the operations on
       [net.IP] that the engine calls. *)
Module Net.

Abbreviation IP := (list Z).
Abbreviation HardwareAddr := (list Z).

Definition IPv4len : nat := 4%nat.
Definition IPv6len : nat := 16%nat.

Definition v4InV6Prefix : list Z := [0; 0; 0; 0; 0; 0; 0; 0; 0; 0; 255; 255].

(** [net.IPv4(a, b, c, d)]: the 16-byte form of an IPv4 address. *)
Definition IPv4 (a b c d : Z) : IP := v4InV6Prefix ++ [a; b; c; d].

Definition IPv4zero : IP := IPv4 0 0 0 0.
Definition IPv4bcast : IP := IPv4 255 255 255 255.

Definition isZeros (p : list Z) : bool := forallb (Z.eqb 0) p.

Definition byteAt (p : list Z) (i : nat) : Z := nth i p 0.

(** [ip.To4()]: the 4-byte form, or nil when [ip] is not an IPv4 address. *)
Definition To4 (ip : IP) : IP :=
  if Nat.eqb (length ip) IPv4len then ip
  else if Nat.eqb (length ip) IPv6len
          && isZeros (take 10%nat ip)
          && Z.eqb (byteAt ip 10%nat) 255
          && Z.eqb (byteAt ip 11%nat) 255
       then drop 12%nat ip
       else [].

(** [bytes.Equal]. *)
Definition bytesEqual (a b : list Z) : bool := bool_decide (a = b).

(** [ip.Equal(x)]: an IPv4 address and its 16-byte form are equal. *)
Definition Equal (ip x : IP) : bool :=
  if Nat.eqb (length ip) (length x) then bytesEqual ip x
  else if Nat.eqb (length ip) IPv4len && Nat.eqb (length x) IPv6len
       then bytesEqual (take 12%nat x) v4InV6Prefix && bytesEqual ip (drop 12%nat x)
  else if Nat.eqb (length ip) IPv6len && Nat.eqb (length x) IPv4len
       then bytesEqual (take 12%nat ip) v4InV6Prefix && bytesEqual (drop 12%nat ip) x
  else false.

Definition IPv6unspecified : IP := [0; 0; 0; 0; 0; 0; 0; 0; 0; 0; 0; 0; 0; 0; 0; 0].

(** [ip.IsUnspecified()]. *)
Definition IsUnspecified (ip : IP) : bool :=
  Equal ip IPv4zero || Equal ip IPv6unspecified.

(** [ip.IsLinkLocalUnicast()]. *)
Definition IsLinkLocalUnicast (ip : IP) : bool :=
  match To4 ip with
  | _ :: _ as ip4 => Z.eqb (byteAt ip4 0%nat) 169 && Z.eqb (byteAt ip4 1%nat) 254
  | [] => Nat.eqb (length ip) IPv6len
          && Z.eqb (byteAt ip 0%nat) 254
          && Z.eqb (Z.land (byteAt ip 1%nat) 192) 128
  end.

(** [ip.IsLinkLocalMulticast()]. *)
Definition IsLinkLocalMulticast (ip : IP) : bool :=
  match To4 ip with
  | _ :: _ as ip4 =>
      Z.eqb (byteAt ip4 0%nat) 224 && Z.eqb (byteAt ip4 1%nat) 0 && Z.eqb (byteAt ip4 2%nat) 0
  | [] => Nat.eqb (length ip) IPv6len
          && Z.eqb (byteAt ip 0%nat) 255
          && Z.eqb (Z.land (byteAt ip 1%nat) 15) 2
  end.

Record IPNet := mkIPNet { net_IP : IP; net_Mask : list Z }.

(** [networkNumberAndMask(n)]; [None] stands for the pair of nils. *)
Definition networkNumberAndMask (n : IPNet) : option (IP * list Z) :=
  let ip := match To4 (net_IP n) with
            | [] => net_IP n
            | ip4 => ip4
            end in
  if negb (Nat.eqb (length ip) IPv4len) && negb (Nat.eqb (length ip) IPv6len)
  then None
  else
    let m := net_Mask n in
    if Nat.eqb (length m) IPv4len then
      if Nat.eqb (length ip) IPv4len then Some (ip, m) else None
    else if Nat.eqb (length m) IPv6len then
      if Nat.eqb (length ip) IPv4len then Some (ip, drop 12%nat m) else Some (ip, m)
    else None.

Fixpoint sameMasked (nn m ip : list Z) : bool :=
  match nn, m, ip with
  | a :: nn', k :: m', b :: ip' =>
      Z.eqb (Z.land a k) (Z.land b k) && sameMasked nn' m' ip'
  | _, _, _ => true
  end.

(** [n.Contains(ip)]. *)
Definition Contains (n : IPNet) (ip : IP) : bool :=
  let ip' := match To4 ip with [] => ip | x => x end in
  match networkNumberAndMask n with
  | None => Nat.eqb (length ip') 0%nat
  | Some (nn, m) =>
      if negb (Nat.eqb (length ip') (length nn)) then false
      else sameMasked nn m ip'
  end.

End Net.

(** ** Package [packet]: addresses, the MAC and host tables, the session. *)
Module Packet.
Import Net.

Record Addr := mkAddr { Addr_MAC : HardwareAddr; Addr_IP : IP; Addr_Port : Z }.

Definition EthBroadcast : HardwareAddr := [255; 255; 255; 255; 255; 255].

Inductive HuntStage := StageNormal | StageHunt | StageRedirected | StageNoChange.

(** Sentinel errors, and [fmt.Errorf("...: %w", err)]. *)
Inductive error :=
| ErrInvalidIP
| ErrNotFound
| ErrIsRouter
| ErrInvalidParam
| ErrParseMessage
| Errorf (msg : string) (value : Z) (wrapped : error).

(** [errors.Is]. *)
Fixpoint errorIs (e target : error) : bool :=
  match e, target with
  | ErrInvalidIP, ErrInvalidIP => true
  | ErrNotFound, ErrNotFound => true
  | ErrIsRouter, ErrIsRouter => true
  | ErrInvalidParam, ErrInvalidParam => true
  | ErrParseMessage, ErrParseMessage => true
  | Errorf _ _ w, _ => errorIs w target
  | _, _ => false
  end.

(** A row of the MAC table. [MACEntry_HostList] holds the keys (IPs) of
    the hosts owned by the MAC; the row lock is not modelled. *)
Record MACEntry := mkMACEntry {
  MACEntry_MAC : HardwareAddr;
  MACEntry_Captured : bool;
  MACEntry_IsRouter : bool;
  MACEntry_Online : bool;
  MACEntry_IP4Offer : IP;
  MACEntry_DHCP4Name : bytes;
  MACEntry_HostList : list IP
}.

(** A row of the host table. The [MACEntry] back pointer of the Go
    struct is the MAC-table row with key [Addr_MAC (Host_Addr h)]. *)
Record Host := mkHost {
  Host_Addr : Addr;
  Host_Online : bool;
  Host_LastSeen : Z;
  Host_HuntStage : HuntStage;
  Host_dirty : bool
}.

Record NICInfo := mkNICInfo {
  HostMAC : HardwareAddr;
  HostAddr4 : Addr;
  RouterAddr4 : Addr;
  HostLLA : IPNet
}.

(** The fields of [Session] that the modelled functions read or write.
    The connection, the mutex, the statistics and the channels are
    handles on the environment and are left out. *)
Record Session := mkSession {
  Session_NICInfo : NICInfo;
  ProbeDeadline : Z;
  OfflineDeadline : Z;
  PurgeDeadline : Z;
  HostTable : gmap (list Z) Host;
  MACTable : gmap (list Z) MACEntry
}.

Record Config := mkConfig {
  Config_NICInfo : NICInfo;
  Config_ProbeDeadline : Z;
  Config_OfflineDeadline : Z;
  Config_PurgeDeadline : Z
}.

Definition Second : Z := 1000000000.
Definition Minute : Z := 60 * Second.
Definition Hour : Z := 60 * Minute.

Definition DefaultProbeDeadline : Z := Minute * 2.
Definition DefaultOfflineDeadline : Z := Minute * 5.
Definition DefaultPurgeDeadline : Z := Minute * 61.

Definition setMACTable (t : gmap (list Z) MACEntry) (s : Session) : Session :=
  mkSession (Session_NICInfo s) (ProbeDeadline s) (OfflineDeadline s)
            (PurgeDeadline s) (HostTable s) t.

Definition setHostTable (t : gmap (list Z) Host) (s : Session) : Session :=
  mkSession (Session_NICInfo s) (ProbeDeadline s) (OfflineDeadline s)
            (PurgeDeadline s) t (MACTable s).

Definition setCaptured (b : bool) (e : MACEntry) : MACEntry :=
  mkMACEntry (MACEntry_MAC e) b (MACEntry_IsRouter e) (MACEntry_Online e)
             (MACEntry_IP4Offer e) (MACEntry_DHCP4Name e) (MACEntry_HostList e).

Definition setIsRouter (b : bool) (e : MACEntry) : MACEntry :=
  mkMACEntry (MACEntry_MAC e) (MACEntry_Captured e) b (MACEntry_Online e)
             (MACEntry_IP4Offer e) (MACEntry_DHCP4Name e) (MACEntry_HostList e).

Definition setMACOnline (b : bool) (e : MACEntry) : MACEntry :=
  mkMACEntry (MACEntry_MAC e) (MACEntry_Captured e) (MACEntry_IsRouter e) b
             (MACEntry_IP4Offer e) (MACEntry_DHCP4Name e) (MACEntry_HostList e).

Definition setHostList (l : list IP) (e : MACEntry) : MACEntry :=
  mkMACEntry (MACEntry_MAC e) (MACEntry_Captured e) (MACEntry_IsRouter e)
             (MACEntry_Online e) (MACEntry_IP4Offer e) (MACEntry_DHCP4Name e) l.

Definition setOnline (b : bool) (h : Host) : Host :=
  mkHost (Host_Addr h) b (Host_LastSeen h) (Host_HuntStage h) (Host_dirty h).

Definition setLastSeen (t : Z) (h : Host) : Host :=
  mkHost (Host_Addr h) (Host_Online h) t (Host_HuntStage h) (Host_dirty h).

(** Modelled from the spec: [MACTable.findMAC] is not among the sources.
    The spec keys the MAC table by MAC ("MACEntry (keyed by MAC)",
    "find_mac(mac) -> MACEntry?"). *)
Definition findMAC (t : gmap (list Z) MACEntry) (mac : HardwareAddr) : option MACEntry :=
  t !! mac.

(** Modelled from the spec: the row that [MACTable.findOrCreate] creates,
    with the zero value of every flag and no hosts. *)
Definition newMACEntry (mac : HardwareAddr) : MACEntry :=
  mkMACEntry mac false false false [] [] [].

(** Modelled from the spec: [MACTable.findOrCreate] is not among the
    sources. Per the spec an existing MACEntry is reused and otherwise
    one is created. The result is the table and the row. *)
Definition MACTable_findOrCreate (t : gmap (list Z) MACEntry) (mac : HardwareAddr)
  : gmap (list Z) MACEntry * MACEntry :=
  match findMAC t mac with
  | Some e => (t, e)
  | None => (<[mac := newMACEntry mac]> t, newMACEntry mac)
  end.

(** [Session.IsCaptured]. *)
Definition IsCaptured (h : Session) (mac : HardwareAddr) : bool :=
  match findMAC (MACTable h) mac with
  | Some e => MACEntry_Captured e
  | None => false
  end.

(** [Session.Capture]: the session after the call and the error
    ([None] is Go's nil). *)
Definition Capture (h : Session) (mac : HardwareAddr) : Session * option error :=
  let '(t, macEntry) := MACTable_findOrCreate (MACTable h) mac in
  if MACEntry_Captured macEntry then (setMACTable t h, None)
  else if MACEntry_IsRouter macEntry then (setMACTable t h, Some ErrIsRouter)
  else (setMACTable (<[mac := setCaptured true macEntry]> t) h, None).

(** [Session.Release]. *)
Definition Release (h : Session) (mac : HardwareAddr) : Session * option error :=
  match findMAC (MACTable h) mac with
  | Some macEntry => (setMACTable (<[mac := setCaptured false macEntry]> (MACTable h)) h, None)
  | None => (h, None)
  end.

(** Modelled from the spec: the host that [findOrCreateHostWithLock]
    creates. The spec does not give its [LastSeen]: it is the argument
    [seen]. A created host is not online, is in stage Normal and carries
    a copy of the address. *)
Definition newHost (seen : Z) (addr : Addr) : Host :=
  mkHost (mkAddr (Addr_MAC addr) (Addr_IP addr) 0) false seen StageNormal false.

(** Modelled from the spec: [findOrCreateHostWithLock] is not among the
    sources. Per the spec, "find_or_create(mac, ip)" returns an existing
    Host if the pair is already known, otherwise creates or reuses the
    MACEntry and adds a new Host; if the IP is all zeros no Host is
    created. The result is the session and the key of the host row
    ([None] is the nil pointer). *)
Definition findOrCreateHostWithLock (seen : Z) (s : Session) (addr : Addr)
  : Session * option IP :=
  let known :=
    match HostTable s !! Addr_IP addr with
    | Some host => bytesEqual (Addr_MAC (Host_Addr host)) (Addr_MAC addr)
    | None => false
    end in
  if known then (s, Some (Addr_IP addr))
  else
    let '(t, macEntry) := MACTable_findOrCreate (MACTable s) (Addr_MAC addr) in
    if IsUnspecified (Addr_IP addr) then (setMACTable t s, None)
    else
      let macEntry' := setHostList (MACEntry_HostList macEntry ++ [Addr_IP addr]) macEntry in
      (setHostTable (<[Addr_IP addr := newHost seen addr]> (HostTable s))
         (setMACTable (<[Addr_MAC addr := macEntry']> t) s),
       Some (Addr_IP addr)).

(** Writes through a [*Host]: the host row with key [ip], and the MAC
    row it points to. A write through a pointer whose row is gone does
    not change the tables. *)
Definition updHost (f : Host -> Host) (ip : IP) (s : Session) : Session :=
  match HostTable s !! ip with
  | Some host => setHostTable (<[ip := f host]> (HostTable s)) s
  | None => s
  end.

Definition updHostMACEntry (f : MACEntry -> MACEntry) (ip : IP) (s : Session) : Session :=
  match HostTable s !! ip with
  | Some host =>
      match MACTable s !! Addr_MAC (Host_Addr host) with
      | Some e => setMACTable (<[Addr_MAC (Host_Addr host) := f e]> (MACTable s)) s
      | None => s
      end
  | None => s
  end.

(** The goroutines that [NewSession] starts. *)
Inductive Goroutine := GoMonitorNIC | GoMinuteLoop.

Inductive NewSessionResult :=
| SessionOk (s : Session) (started : list Goroutine)
| SessionErr (e : error)
| SessionPanic.

Definition msgProbeDeadline : string := "invalid ProbeDeadline"%string.
Definition msgOfflineDeadline : string := "invalid OfflineDeadline"%string.
Definition msgPurgeDeadline : string := "invalid PurgeDeadline"%string.

(** "create the host entry manually because we don't process host
    packets": the first block after the goroutines. [None] is the nil
    dereference when no host was returned. *)
Definition createHostEntry (now seen : Z) (session : Session) : option Session :=
  match findOrCreateHostWithLock seen session (HostAddr4 (Session_NICInfo session)) with
  | (_, None) => None
  | (session, Some host) =>
      let session := updHost (setLastSeen (now + Hour * 24 * 365)) host session in
      let session := updHost (setOnline true) host session in
      let session := updHostMACEntry (setMACOnline true) host session in
      Some session
  end.

(** "create the router entry manually and set router flag": the
    second block. *)
Definition createRouterEntry (seen : Z) (session : Session) : option Session :=
  match findOrCreateHostWithLock seen session (RouterAddr4 (Session_NICInfo session)) with
  | (_, None) => None
  | (session, Some host) =>
      let session := updHostMACEntry (setIsRouter true) host session in
      let session := updHost (setOnline true) host session in
      let session := updHostMACEntry (setMACOnline true) host session in
      Some session
  end.

(** [Config.NewSession]. [now] is the value of [time.Now()] in the
    function, [seen] the stamp explained at [findOrCreateHostWithLock]. *)
Definition NewSession (now seen : Z) (config : Config) : NewSessionResult :=
  let session := mkSession (Config_NICInfo config) 0 0 0 ∅ ∅ in
  let session := mkSession (Session_NICInfo session) (Config_ProbeDeadline config)
                           (OfflineDeadline session) (PurgeDeadline session)
                           (HostTable session) (MACTable session) in
  if (ProbeDeadline session <? 0) || (Minute * 30 <? ProbeDeadline session)
  then SessionErr (Errorf msgProbeDeadline (ProbeDeadline session) ErrInvalidParam)
  else
  let session := mkSession (Session_NICInfo session) (ProbeDeadline session)
                           (Config_OfflineDeadline config) (PurgeDeadline session)
                           (HostTable session) (MACTable session) in
  if (OfflineDeadline session <? 0) || (Minute * 60 <? OfflineDeadline session)
     || (OfflineDeadline session <? ProbeDeadline session)
  then SessionErr (Errorf msgOfflineDeadline (OfflineDeadline session) ErrInvalidParam)
  else
  let session := mkSession (Session_NICInfo session) (ProbeDeadline session)
                           (OfflineDeadline session) (Config_PurgeDeadline config)
                           (HostTable session) (MACTable session) in
  if (PurgeDeadline session <? 0) || (Hour * 24 <? PurgeDeadline session)
  then SessionErr (Errorf msgPurgeDeadline (PurgeDeadline session) ErrInvalidParam)
  else
  match createHostEntry now seen session with
  | None => SessionPanic
  | Some session =>
      match createRouterEntry seen session with
      | None => SessionPanic
      | Some session => SessionOk session [GoMonitorNIC; GoMinuteLoop]
      end
  end.

(** The tests on the three deadlines that make [NewSession] return an
    error. *)
Definition invalidDeadlines (config : Config) : Prop :=
  Config_ProbeDeadline config < 0 \/ Minute * 30 < Config_ProbeDeadline config
  \/ Config_OfflineDeadline config < 0 \/ Minute * 60 < Config_OfflineDeadline config
  \/ Config_OfflineDeadline config < Config_ProbeDeadline config
  \/ Config_PurgeDeadline config < 0 \/ Hour * 24 < Config_PurgeDeadline config.

(** The session that [NewSession] holds once the deadlines are
    accepted, and the session after the block that creates the host
    entry. *)
Definition blankSession (config : Config) : Session :=
  mkSession (Config_NICInfo config) (Config_ProbeDeadline config)
            (Config_OfflineDeadline config) (Config_PurgeDeadline config) ∅ ∅.

Definition pinnedSession (now seen : Z) (config : Config) : Session :=
  let addr := HostAddr4 (Config_NICInfo config) in
  mkSession (Config_NICInfo config) (Config_ProbeDeadline config)
            (Config_OfflineDeadline config) (Config_PurgeDeadline config)
            (<[Addr_IP addr :=
                 mkHost (mkAddr (Addr_MAC addr) (Addr_IP addr) 0) true
                        (now + Hour * 24 * 365) StageNormal false]> ∅)
            (<[Addr_MAC addr :=
                 mkMACEntry (Addr_MAC addr) false false true [] [] [Addr_IP addr]]> ∅).

(** *** The minute pass [Session.purge]. *)

Record Notification := mkNotification {
  Notification_Addr : Addr;
  Notification_Online : bool;
  Notification_DHCPName : bytes
}.

(** What the probe goroutine writes to the network, in order. *)
Inductive Send :=
| ARPRequest (ip : IP)
| ICMP6SendNeighbourSolicitation (srcAddr dstAddr : Addr) (targetIP : IP)
| ICMP6SendEchoRequest (srcAddr dstAddr : Addr) (id seq : Z).

Inductive PurgeEvent :=
| GoProbe (sends : list Send)
| SendNotification (n : Notification).

(** The three lists that the loop over the table fills. [offline]
    holds host pointers, here the keys of the rows. *)
Record Scan := mkScan {
  scan_purge : list IP;
  scan_probe : list Addr;
  scan_offline : list IP
}.

Fixpoint purgeScan (probeCutoff offlineCutoff deleteCutoff : Z) (table : list Host) : Scan :=
  match table with
  | [] => mkScan [] [] []
  | e :: rest =>
      let r := purgeScan probeCutoff offlineCutoff deleteCutoff rest in
      if negb (Host_Online e) && (Host_LastSeen e <? deleteCutoff)
      then mkScan (Addr_IP (Host_Addr e) :: scan_purge r) (scan_probe r) (scan_offline r)
      else
        mkScan (scan_purge r)
               (if Host_Online e && (Host_LastSeen e <? probeCutoff)
                then Host_Addr e :: scan_probe r else scan_probe r)
               (if Host_Online e && (Host_LastSeen e <? offlineCutoff)
                then Addr_IP (Host_Addr e) :: scan_offline r else scan_offline r)
  end.

Definition isNil {A : Type} (b : list A) : bool :=
  match b with [] => true | _ => false end.

Section Purge.

(** [packet.IPv6SolicitedNode] is not among the sources. *)
Variable IPv6SolicitedNode : IP -> Addr.

(** The body of the probe goroutine. A [continue] goes on with the
    rest of the list, the [return] after the neighbour solicitation
    ends the goroutine. *)
Fixpoint probeLoop (nic : NICInfo) (now : Z) (probe : list Addr) : list Send :=
  match probe with
  | [] => []
  | addr :: rest =>
      if negb (isNil (To4 (Addr_IP addr))) then
        ARPRequest (Addr_IP addr) :: probeLoop nic now rest
      else if negb (isNil (net_IP (HostLLA nic))) then
        probeLoop nic now rest
      else
        let srcAddr := mkAddr (Addr_MAC (HostAddr4 nic)) (net_IP (HostLLA nic)) 0 in
        if IsLinkLocalUnicast (Addr_IP addr) then
          [ICMP6SendNeighbourSolicitation srcAddr (IPv6SolicitedNode (Addr_IP addr)) (Addr_IP addr)]
        else
          ICMP6SendEchoRequest srcAddr addr ((now mod Second) mod 65536) 0
            :: probeLoop nic now rest
  end.

(** Modelled from the spec: [toNotification] is not among the sources;
    a notification carries the address, the online flag and the DHCP
    name of the host. *)
Definition toNotification (s : Session) (host : Host) : Notification :=
  mkNotification (Host_Addr host) (Host_Online host)
    (match MACTable s !! Addr_MAC (Host_Addr host) with
     | Some e => MACEntry_DHCP4Name e
     | None => []
     end).

Definition hostOnline (s : Session) (ip : IP) : bool :=
  match HostTable s !! ip with
  | Some host => Host_Online host
  | None => false
  end.

(** [Session.notifyOffline]. *)
Definition notifyOffline (s : Session) (ip : IP) : Session * list PurgeEvent :=
  match HostTable s !! ip with
  | None => (s, [])
  | Some host =>
      let notification := toNotification s host in
      let s' := updHostMACEntry
                  (fun e => setMACOnline (existsb (hostOnline s) (MACEntry_HostList e)) e)
                  ip s in
      (s', [SendNotification notification])
  end.

Fixpoint notifyOfflineAll (s : Session) (offline : list IP) : Session * list PurgeEvent :=
  match offline with
  | [] => (s, [])
  | ip :: rest =>
      let '(s1, ev1) := notifyOffline s ip in
      let '(s2, ev2) := notifyOfflineAll s1 rest in
      (s2, ev1 ++ ev2)
  end.

(** Modelled from the spec: [deleteHost] is not among the sources.
    "delete_host(ip): removes from both maps; deletes the MACEntry
    when its HostList becomes empty." *)
Definition deleteHost (s : Session) (ip : IP) : Session :=
  match HostTable s !! ip with
  | None => s
  | Some host =>
      let mac := Addr_MAC (Host_Addr host) in
      let s1 := setHostTable (delete ip (HostTable s)) s in
      match MACTable s1 !! mac with
      | None => s1
      | Some e =>
          let l := filter (fun x => x <> ip) (MACEntry_HostList e) in
          if isNil l then setMACTable (delete mac (MACTable s1)) s1
          else setMACTable (<[mac := setHostList l e]> (MACTable s1)) s1
      end
  end.

(** Modelled from the spec: [GetHosts] is not among the sources; it
    returns the rows of the host table. *)
Definition GetHosts (s : Session) : list Host := (map_to_list (HostTable s)).*2.

Definition purgeOn (table : list Host) (h : Session) (now : Z) : Session * list PurgeEvent :=
  let probeCutoff := now + ProbeDeadline h * -1 in
  let offlineCutoff := now + OfflineDeadline h * -1 in
  let deleteCutoff := now + PurgeDeadline h * -1 in
  let r := purgeScan probeCutoff offlineCutoff deleteCutoff table in
  let goProbe :=
    if (0 <? Z.of_nat (length (scan_probe r)))
    then [GoProbe (probeLoop (Session_NICInfo h) now (scan_probe r))]
    else [] in
  let '(h1, notes) := notifyOfflineAll h (scan_offline r) in
  let h2 := if (0 <? Z.of_nat (length (scan_purge r)))
            then fold_left deleteHost (scan_purge r) h1 else h1 in
  (h2, goProbe ++ notes).

(** [Session.purge]. *)
Definition purge (h : Session) (now : Z) : Session * list PurgeEvent :=
  purgeOn (GetHosts h) h now.

End Purge.

(** *** The older minute pass [Handler.purge], which probes inside the
        loop over the table. *)

(** The calls on the ARP and ICMPv6 handlers. *)
Inductive CheckCall :=
| HandlerARP_CheckAddr (addr : Addr)
| HandlerICMP6_CheckAddr (addr : Addr).

Record HandlerScan := mkHandlerScan {
  hscan_purge : list IP;
  hscan_checks : list CheckCall;
  hscan_offline : list IP
}.

(** The probe of one host in [Handler.purge]; in that version a host
    row holds the IP, and the MAC is read from its MAC entry. *)
Definition checkOf (e : Host) : CheckCall :=
  match To4 (Addr_IP (Host_Addr e)) with
  | [] => HandlerICMP6_CheckAddr (mkAddr (Addr_MAC (Host_Addr e)) (Addr_IP (Host_Addr e)) 0)
  | ip => HandlerARP_CheckAddr (mkAddr (Addr_MAC (Host_Addr e)) ip 0)
  end.

(** The loop of [Handler.purge]. *)
Fixpoint Handler_purgeScan (probeCutoff offlineCutoff deleteCutoff : Z) (table : list Host)
  : HandlerScan :=
  match table with
  | [] => mkHandlerScan [] [] []
  | e :: rest =>
      let r := Handler_purgeScan probeCutoff offlineCutoff deleteCutoff rest in
      if negb (Host_Online e) && (Host_LastSeen e <? deleteCutoff)
      then mkHandlerScan (Addr_IP (Host_Addr e) :: hscan_purge r) (hscan_checks r)
                         (hscan_offline r)
      else
        mkHandlerScan (hscan_purge r)
          (if Host_Online e && (Host_LastSeen e <? probeCutoff)
           then checkOf e :: hscan_checks r
           else hscan_checks r)
          (if Host_Online e && (Host_LastSeen e <? offlineCutoff)
           then Addr_IP (Host_Addr e) :: hscan_offline r else hscan_offline r)
  end.

End Packet.

(** ** Package [dhcp4]: the REQUEST handler and the reply transport. *)
Module DHCP4.
Import Net.

(** Option codes (RFC 2132), as listed in the specification. *)
Definition OptionHostName : Z := 12.
Definition OptionRequestedIPAddress : Z := 50.
Definition OptionDHCPMessageType : Z := 53.
Definition OptionServerIdentifier : Z := 54.
Definition OptionParameterRequestList : Z := 55.
Definition OptionClientIdentifier : Z := 61.

Definition DHCP4ServerPort : Z := 67.
Definition DHCP4ClientPort : Z := 68.

Inductive MessageType :=
| Discover | Offer | Request | Decline | ACK | NAK | Release | Inform.

Inductive Operation := rebinding | selecting | renewing | rebooting.

Inductive Mode := ModePrimaryServer | ModeSecondaryServer | ModeSecondaryServerNice.

Inductive State := StateFree | StateDiscover | StateAllocated.

Definition State_eqb (a b : State) : bool :=
  match a, b with
  | StateFree, StateFree | StateDiscover, StateDiscover
  | StateAllocated, StateAllocated => true
  | _, _ => false
  end.

Definition Mode_eqb (a b : Mode) : bool :=
  match a, b with
  | ModePrimaryServer, ModePrimaryServer
  | ModeSecondaryServer, ModeSecondaryServer
  | ModeSecondaryServerNice, ModeSecondaryServerNice => true
  | _, _ => false
  end.

(** [Options] is [map[OptionCode][]byte]. *)
Abbreviation Options := (gmap Z (list Z)).

(** The fields of a DHCP frame that the handlers read through the
    accessors of [DHCP4]. *)
Record DHCP4 := mkDHCP4 {
  XId : bytes;
  CIAddr : IP;
  YIAddr : IP;
  CHAddr : HardwareAddr;
  Broadcast : bool
}.

Record dhcpSubnet := mkSubnet {
  LAN : IPNet;
  DefaultGW : IP;
  DHCPServer : IP;
  DNSServer : IP;
  Duration : Z;
  FirstIP : IP;
  LastIP : IP;
  Stage : Packet.HuntStage;
  subnet_options : Options
}.

(** A lease points to one of the two subnets of the handler. *)
Inductive SubnetRef := Net1 | Net2.

Record Lease := mkLease {
  ClientID : bytes;
  Lease_Addr : Packet.Addr;
  Lease_XID : bytes;
  Lease_State : State;
  IPOffer : IP;
  DHCPExpiry : Z;
  Count : Z;
  Lease_Name : bytes;
  Lease_subnet : SubnetRef
}.

Record Handler := mkHandler {
  session : Packet.Session;
  mode : Mode;
  filename : string;
  table : gmap (list Z) Lease;
  net1 : dhcpSubnet;
  net2 : dhcpSubnet
}.

Definition deref (h : Handler) (r : SubnetRef) : dhcpSubnet :=
  match r with Net1 => net1 h | Net2 => net2 h end.

(** [packet.Result], with the fields that the handler sets. *)
Record Result := mkResult {
  Update : bool;
  IsRouter : bool;
  FrameAddr : Packet.Addr;
  NameEntry_Name : bytes;
  HuntStage : Packet.HuntStage
}.

(** [ReplyPacket] is not among the sources: a reply is the record of
    the arguments of the call that builds it. *)
Record Reply := ReplyPacket {
  Reply_req : DHCP4;
  Reply_mt : MessageType;
  Reply_serverID : IP;
  Reply_yiAddr : IP;
  Reply_leaseDuration : Z;
  Reply_options : list (Z * list Z)
}.

(** What the handler starts or writes besides its results. *)
Inductive Effect :=
| GoForceDecline (clientID : bytes) (serverIP : IP) (mac : HardwareAddr) (ip : IP) (xid : bytes)
| SaveConfig (fname : string).

(** The outcome of [handleRequest]: the handler after the call, the
    final content of the lease that [findOrCreate] returned ([None]
    when the handler returned before looking it up), the two results
    of the Go function and the effects in program order. *)
Record Outcome := mkOutcome {
  out_handler : Handler;
  out_lease : option Lease;
  out_result : Result;
  out_reply : option Reply;
  out_effects : list Effect
}.

Definition getClientID (p : DHCP4) (options : Options) : bytes :=
  match options !! OptionClientIdentifier with
  | Some clientID => clientID
  | None => CHAddr p
  end.

Definition setLeaseState (st : State) (l : Lease) : Lease :=
  mkLease (ClientID l) (Lease_Addr l) (Lease_XID l) st (IPOffer l)
          (DHCPExpiry l) (Count l) (Lease_Name l) (Lease_subnet l).

Definition setLeaseIP (ip : IP) (l : Lease) : Lease :=
  mkLease (ClientID l)
          (Packet.mkAddr (Packet.Addr_MAC (Lease_Addr l)) ip (Packet.Addr_Port (Lease_Addr l)))
          (Lease_XID l) (Lease_State l) (IPOffer l)
          (DHCPExpiry l) (Count l) (Lease_Name l) (Lease_subnet l).

Definition setIPOffer (ip : IP) (l : Lease) : Lease :=
  mkLease (ClientID l) (Lease_Addr l) (Lease_XID l) (Lease_State l) ip
          (DHCPExpiry l) (Count l) (Lease_Name l) (Lease_subnet l).

Definition setLeaseName (n : bytes) (l : Lease) : Lease :=
  mkLease (ClientID l) (Lease_Addr l) (Lease_XID l) (Lease_State l) (IPOffer l)
          (DHCPExpiry l) (Count l) n (Lease_subnet l).

Definition setExpiryCount (t c : Z) (l : Lease) : Lease :=
  mkLease (ClientID l) (Lease_Addr l) (Lease_XID l) (Lease_State l) (IPOffer l)
          t c (Lease_Name l) (Lease_subnet l).

(** [if tmp, ok := options[code]; ok { ip = net.IP(tmp).To4() }] on a
    variable that starts as [net.IPv4zero]. *)
Definition optionIP (options : Options) (code : Z) : IP :=
  match options !! code with
  | Some tmp => To4 tmp
  | None => IPv4zero
  end.

(** The [switch] that names the operation; the second component is
    [reqIP] after the switch. *)
Definition requestOperation (serverIP reqIP senderIP ciaddr : IP) : Operation * IP :=
  if negb (Equal serverIP IPv4zero) then (selecting, reqIP)
  else if Equal reqIP IPv4zero && negb (Equal senderIP IPv4bcast) then (renewing, ciaddr)
  else if Equal reqIP IPv4zero && Equal senderIP IPv4bcast then (rebinding, ciaddr)
  else (rebooting, reqIP).

(** The operation and the request IP that [handleRequest] works with
    for a frame, its options and the sender IP of the datagram. *)
Definition operationOf (p : DHCP4) (options : Options) (senderIP : IP) : Operation :=
  fst (requestOperation (optionIP options OptionServerIdentifier)
         (optionIP options OptionRequestedIPAddress) senderIP (CIAddr p)).

Definition requestIPOf (p : DHCP4) (options : Options) (senderIP : IP) : IP :=
  snd (requestOperation (optionIP options OptionServerIdentifier)
         (optionIP options OptionRequestedIPAddress) senderIP (CIAddr p)).

(** [h.mode == ModeSecondaryServer || (h.mode == ModeSecondaryServerNice && captured)]. *)
Definition attacks (h : Handler) (captured : bool) : bool :=
  Mode_eqb (mode h) ModeSecondaryServer
  || (Mode_eqb (mode h) ModeSecondaryServerNice && captured).

(** The test of the Selecting branch that leads to a NAK. *)
Definition selectInvalid (lease : Lease) (p : DHCP4) (reqIP : IP) : bool :=
  negb (bytesEqual (Packet.Addr_MAC (Lease_Addr lease)) (CHAddr p))
  || (State_eqb (Lease_State lease) StateDiscover
      && (negb (bytesEqual (Lease_XID lease) (XId p))
          || negb (Equal (IPOffer lease) reqIP)))
  || (State_eqb (Lease_State lease) StateAllocated
      && negb (Equal (Packet.Addr_IP (Lease_Addr lease)) reqIP)).

Section Request.

(** Not among the sources: the lease lookup [h.findOrCreate], which
    may add a lease to the table, the option selection
    [SelectOrderOrAll], and the zero value of [packet.Result]'s hunt
    stage. *)
Variable findOrCreate : Handler -> bytes -> HardwareAddr -> bytes -> Lease * Handler.
Variable SelectOrderOrAll : Options -> list Z -> list (Z * list Z).
Variable zeroStage : Packet.HuntStage.

Definition zeroResult : Result :=
  mkResult false false (Packet.mkAddr [] [] 0) [] zeroStage.

(** The tail of [handleRequest] after the main switch. *)
Definition successfulRequest (h : Handler) (now : Z) (p : DHCP4) (options : Options)
           (name : bytes) (lease : Lease) : Outcome :=
  let lease := setLeaseName name lease in
  let lease := if State_eqb (Lease_State lease) StateDiscover
               then setIPOffer [] (setLeaseIP (IPOffer lease) lease)
               else lease in
  let lease := setLeaseState StateAllocated lease in
  let lease := setExpiryCount (now + Duration (deref h (Lease_subnet lease))) 0 lease in
  let lease := match options !! OptionHostName with
               | Some tmp => setLeaseName tmp lease
               | None => lease
               end in
  let opts := SelectOrderOrAll (subnet_options (deref h (Lease_subnet lease)))
                (default [] (options !! OptionParameterRequestList)) in
  let ret := ReplyPacket p ACK (DHCPServer (deref h (Lease_subnet lease)))
               (Packet.Addr_IP (Lease_Addr lease))
               (Duration (deref h (Lease_subnet lease))) opts in
  mkOutcome h (Some lease)
    (mkResult true true (Lease_Addr lease) (Lease_Name lease)
              (Stage (deref h (Lease_subnet lease))))
    (Some ret) [SaveConfig (filename h)].

(** [Handler.handleRequest]. [now] is the value of [time.Now()]. *)
Definition handleRequest (h : Handler) (now : Z) (host : option Packet.Host)
           (p : DHCP4) (options : Options) (senderIP : IP) : Outcome :=
  let clientID := getClientID p options in
  let reqIP := optionIP options OptionRequestedIPAddress in
  let serverIP := optionIP options OptionServerIdentifier in
  let name := default [] (options !! OptionHostName) in
  let result :=
    match host with
    | Some _ =>
        if negb (Packet.isNil name)
        then mkResult true (IsRouter zeroResult) (FrameAddr zeroResult) name
                      (HuntStage zeroResult)
        else zeroResult
    | None => zeroResult
    end in
  let '(operation, reqIP) := requestOperation serverIP reqIP senderIP (CIAddr p) in
  (* reqIP must always be filled in *)
  if Equal reqIP IPv4zero then mkOutcome h None result None []
  else
    let captured := Packet.IsCaptured (session h) (CHAddr p) in
    let subnet := if captured then net2 h else net1 h in
    let '(lease, h) := findOrCreate h clientID (CHAddr p) name in
    let newHost :=
      mkResult true true (Packet.mkAddr (CHAddr p) reqIP 0) name Packet.StageNoChange in
    let nak serverID := ReplyPacket p NAK serverID IPv4zero 0 [] in
    let forceDecline :=
      GoForceDecline clientID (DefaultGW (net1 h)) (CHAddr p) reqIP (XId p) in
    match operation with
    | selecting =>
        if negb (Equal serverIP (DHCPServer subnet)) then
          (* selecting for another server *)
          let lease := if negb (State_eqb (Lease_State lease) StateDiscover)
                       then setLeaseIP [] (setLeaseState StateFree lease)
                       else lease in
          if attacks h captured
          then mkOutcome h (Some lease) newHost (Some (nak (DHCPServer subnet))) []
          else mkOutcome h (Some lease) newHost None []
        else if negb (bytesEqual (Packet.Addr_MAC (Lease_Addr lease)) (CHAddr p))
                || (State_eqb (Lease_State lease) StateDiscover
                    && (negb (bytesEqual (Lease_XID lease) (XId p))
                        || negb (Equal (IPOffer lease) reqIP)))
                || (State_eqb (Lease_State lease) StateAllocated
                    && negb (Equal (Packet.Addr_IP (Lease_Addr lease)) reqIP))
        then mkOutcome h (Some lease) zeroResult (Some (nak (DHCPServer subnet))) []
        else successfulRequest h now p options name lease
    | renewing =>
        if negb (State_eqb (Lease_State lease) StateAllocated)
           || negb (Equal (Packet.Addr_IP (Lease_Addr lease)) reqIP)
           || negb (bytesEqual (Packet.Addr_MAC (Lease_Addr lease)) (CHAddr p))
           || (DHCPExpiry lease <? now)
        then mkOutcome h (Some lease) zeroResult (Some (nak (DHCPServer subnet))) []
        else successfulRequest h now p options name lease
    | rebooting | rebinding =>
        if State_eqb (Lease_State lease) StateFree && attacks h captured
        then mkOutcome h (Some lease) newHost (Some (nak (DefaultGW (net1 h))))
                       [forceDecline]
        else if negb (State_eqb (Lease_State lease) StateAllocated)
                || negb (Equal (Packet.Addr_IP (Lease_Addr lease)) reqIP)
                || negb (bytesEqual (Packet.Addr_MAC (Lease_Addr lease)) (CHAddr p))
                || negb (Contains (LAN subnet) (Packet.Addr_IP (Lease_Addr lease)))
        then mkOutcome h (Some lease) newHost (Some (nak (DHCPServer subnet)))
                       (if attacks h captured then [forceDecline] else [])
        else successfulRequest h now p options name lease
    end.

End Request.

(** *** [Handler.ProcessPacket]: validation, dispatch, reply transport. *)

(** The numeric message types of RFC 2131. *)
Definition MessageType_of_Z (t : Z) : option MessageType :=
  if t =? 1 then Some Discover else if t =? 2 then Some Offer
  else if t =? 3 then Some Request else if t =? 4 then Some Decline
  else if t =? 5 then Some ACK else if t =? 6 then Some NAK
  else if t =? 7 then Some Release else if t =? 8 then Some Inform
  else None.

(** What the frame accessors ([Ether], [IP4], [UDP], [DHCP4]) return
    on the received buffer. *)
Record Frame := mkFrame {
  ether_Src : HardwareAddr;
  ip4_IsValid : bool;
  ip4_Src : IP;
  udp_IsValid : bool;
  udp_PayloadLen : Z;
  udp_DstPort : Z;
  dhcp_IsValid : bool;
  dhcpFrame : DHCP4;
  dhcp_ParseOptions : Options
}.

Section ProcessPacket.

(** The handler state [St], the replies [Resp] and the per-message
    handlers are parameters; [sendDHCP4Packet] gives the error of
    the write. *)
Variables St Resp HostRef : Type.
Variable handleDiscover : St -> DHCP4 -> Options -> St * Result * option Resp.
Variable handleRequest3 :
  St -> option HostRef -> DHCP4 -> Options -> IP -> St * option HostRef * Result * option Resp.
Variable handleDecline : St -> DHCP4 -> Options -> St * option Resp.
Variable handleRelease : St -> DHCP4 -> Options -> St * option Resp.
Variable processClientPacket : St -> option HostRef -> DHCP4 -> St * option Packet.error.
Variable sendDHCP4Packet : Packet.Addr -> Packet.Addr -> Resp -> option Packet.error.
Variable zeroResult3 : Result.
Variable HostMAC : HardwareAddr.
Variable HostIP4 : IPNet.

Record Processed := mkProcessed {
  pp_state : St;
  pp_host : option HostRef;
  pp_result : Result;
  pp_err : option Packet.error;
  pp_sent : list (Packet.Addr * Packet.Addr * Resp)
}.

Definition ProcessPacket (h : St) (host : option HostRef) (f : Frame) : Processed :=
  if negb (ip4_IsValid f)
  then mkProcessed h host zeroResult3 (Some Packet.ErrInvalidIP) []
  else if negb (udp_IsValid f) || (udp_PayloadLen f <? 240)
  then mkProcessed h host zeroResult3 (Some Packet.ErrInvalidIP) []
  else if negb (dhcp_IsValid f)
  then mkProcessed h host zeroResult3 (Some Packet.ErrParseMessage) []
  else if udp_DstPort f =? DHCP4ClientPort
  then let '(h, err) := processClientPacket h host (dhcpFrame f) in
       mkProcessed h host zeroResult3 err []
  else
    let options := dhcp_ParseOptions f in
    match default [] (options !! OptionDHCPMessageType) with
    | [t] =>
        match MessageType_of_Z t with
        | None => mkProcessed h host zeroResult3 (Some Packet.ErrParseMessage) []
        | Some reqType =>
            let '(h, host, result, response) :=
              match reqType with
              | Discover =>
                  let '(h, result, response) := handleDiscover h (dhcpFrame f) options in
                  (h, host, result, response)
              | Request => handleRequest3 h host (dhcpFrame f) options (ip4_Src f)
              | Decline =>
                  let '(h, response) := handleDecline h (dhcpFrame f) options in
                  (h, host, zeroResult3, response)
              | Release =>
                  let '(h, response) := handleRelease h (dhcpFrame f) options in
                  (h, host, zeroResult3, response)
              | _ => (h, host, zeroResult3, None)
              end in
            match response with
            | Some response =>
                let dstAddr :=
                  if Equal (ip4_Src f) IPv4zero || Broadcast (dhcpFrame f)
                  then Packet.mkAddr Packet.EthBroadcast IPv4bcast DHCP4ClientPort
                  else Packet.mkAddr (ether_Src f) (ip4_Src f) DHCP4ClientPort in
                let srcAddr := Packet.mkAddr HostMAC (net_IP HostIP4) DHCP4ServerPort in
                match sendDHCP4Packet srcAddr dstAddr response with
                | Some err =>
                    mkProcessed h host zeroResult3 (Some err) [(srcAddr, dstAddr, response)]
                | None =>
                    mkProcessed h host result None [(srcAddr, dstAddr, response)]
                end
            | None => mkProcessed h host result None []
            end
        end
    | _ => mkProcessed h host zeroResult3 (Some Packet.ErrParseMessage) []
    end.

End ProcessPacket.

End DHCP4.

(** ** The two ICMPv6 senders: package [icmp] ([Handler6.sendPacket]) and
       package [icmp6] ([ICMP6Handler.sendPacket]). *)
Module ICMP.
Import Net.

Definition ETH_P_IPV6 : Z := 34525.
Definition IPPROTO_ICMPV6 : Z := 58.

(** The marshalling functions of package [packet] are not among the
    sources: a frame is the structure of the arguments given to
    [EtherMarshalBinary], [IP6MarshalBinary], [AppendPayload] and
    [SetChecksum]. *)
Record ICMPPayload := mkICMP {
  ICMP_bytes : bytes;
  ICMP_checksum : Z
}.

Record IP6 := mkIP6 {
  IP6_HopLimit : Z;
  IP6_Src : IP;
  IP6_Dst : IP;
  IP6_NextHeader : Z;
  IP6_Payload : ICMPPayload
}.

Record Ether := mkEther {
  Ether_EtherType : Z;
  Ether_Src : HardwareAddr;
  Ether_Dst : HardwareAddr;
  Ether_Payload : IP6
}.

(** [Conn.WriteTo(ether, addr)]. *)
Record Write := mkWrite {
  Write_frame : Ether;
  Write_to : Packet.Addr
}.

(** [copy(psh[i:i+16], x)] into a zeroed buffer. *)
Definition copy16 (x : bytes) : bytes :=
  take 16%nat (x ++ repeat 0 16%nat).

(** [binary.BigEndian.PutUint32] of [uint32(n)]. *)
Definition PutUint32 (n : Z) : bytes :=
  let v := n mod 4294967296 in
  [Z.shiftr v 24; Z.land (Z.shiftr v 16) 255; Z.land (Z.shiftr v 8) 255; Z.land v 255].

(** The pseudo header followed by the payload. *)
Definition pseudoHeader (src dst : IP) (b : bytes) : bytes :=
  copy16 src ++ copy16 dst ++ PutUint32 (Z.of_nat (length b)) ++ [0; 0; 0; 58] ++ b.

Section Send.

Variable Checksum : bytes -> Z.

(** Package [icmp]: [Handler6.sendPacket]. *)
Definition Handler6_sendPacket (nic : Packet.NICInfo)
           (srcAddr dstAddr : Packet.Addr) (b : bytes) : Write :=
  let hopLimit :=
    if IsLinkLocalUnicast (Packet.Addr_IP dstAddr)
       || IsLinkLocalMulticast (Packet.Addr_IP dstAddr)
    then 255 else 64 in
  let ip6Src := Packet.Addr_IP srcAddr in
  let ip6Dst := Packet.Addr_IP dstAddr in
  let psh := pseudoHeader ip6Src ip6Dst b in
  let ip6 := mkIP6 hopLimit ip6Src ip6Dst IPPROTO_ICMPV6 (mkICMP b (Checksum psh)) in
  let ether := mkEther ETH_P_IPV6 (Packet.HostMAC nic) (Packet.Addr_MAC dstAddr) ip6 in
  mkWrite ether dstAddr.

(** Package [icmp6]: [ICMP6Handler.sendPacket]. *)
Definition ICMP6Handler_sendPacket (srcAddr dstAddr : Packet.Addr) (b : bytes) : Write :=
  let hopLimit :=
    if IsLinkLocalUnicast (Packet.Addr_IP dstAddr)
       || IsLinkLocalMulticast (Packet.Addr_IP dstAddr)
    then 1 else 64 in
  let ip6Src := Packet.Addr_IP srcAddr in
  let ip6Dst := Packet.Addr_IP dstAddr in
  let psh := pseudoHeader ip6Src ip6Dst b in
  let ip6 := mkIP6 hopLimit ip6Src ip6Dst IPPROTO_ICMPV6 (mkICMP b (Checksum psh)) in
  let ether := mkEther ETH_P_IPV6 (Packet.Addr_MAC srcAddr) (Packet.Addr_MAC dstAddr) ip6 in
  mkWrite ether (Packet.mkAddr (Packet.Addr_MAC dstAddr) [] 0).

End Send.

(** Package [icmp]: what [Handler6.CheckAddr] sends for an address. *)
Inductive Check :=
| SendNeighbourSolicitation (srcAddr dstAddr : Packet.Addr) (targetIP : IP)
| Ping (srcAddr dstAddr : Packet.Addr) (timeout : Z).

Definition Handler6_CheckAddr (IPv6SolicitedNode : IP -> Packet.Addr)
           (nic : Packet.NICInfo) (addr : Packet.Addr) : list Check :=
  if Packet.isNil (net_IP (Packet.HostLLA nic)) then []
  else
    let srcAddr := Packet.mkAddr (Packet.HostMAC nic) (net_IP (Packet.HostLLA nic)) 0 in
    if IsLinkLocalUnicast (Packet.Addr_IP addr)
    then [SendNeighbourSolicitation srcAddr (IPv6SolicitedNode (Packet.Addr_IP addr))
            (Packet.Addr_IP addr)]
    else [Ping srcAddr addr (Packet.Second * 2)].

End ICMP.

(** ** Concrete values: the addresses of the test setup and of the
       scenarios of the specification. *)
Module Fixtures.
Import Net.

Definition hostMAC : HardwareAddr := [0; 85; 85; 85; 85; 85].
Definition hostIP4 : IP := [192; 168; 0; 129].
Definition routerMAC : HardwareAddr := [0; 102; 102; 102; 102; 102].
Definition routerIP4 : IP := [192; 168; 0; 11].
Definition homeLAN : IPNet := mkIPNet (IPv4 192 168 0 0) [255; 255; 255; 0].
Definition netfilterLAN : IPNet := mkIPNet [192; 168; 1; 0] [255; 255; 255; 0].
Definition netfilterGW : IP := [192; 168; 1; 129].

Definition mac1 : HardwareAddr := [0; 2; 3; 4; 5; 1].
Definition mac2 : HardwareAddr := [0; 2; 3; 4; 5; 2].
Definition mac3 : HardwareAddr := [0; 2; 3; 4; 5; 3].

Definition ip6LLAHost : IP := [254; 128; 0; 0; 0; 0; 0; 0; 0; 0; 0; 0; 0; 0; 16; 16].
Definition ip6LLA2 : IP := [254; 128; 0; 0; 0; 0; 0; 0; 0; 0; 0; 0; 0; 0; 0; 2].
Definition ip6GUA1 : IP := [32; 1; 0; 0; 0; 0; 0; 0; 0; 0; 0; 0; 0; 0; 0; 1].
Definition mask64 : list Z := [255; 255; 255; 255; 255; 255; 255; 255; 0; 0; 0; 0; 0; 0; 0; 0].

Definition hostAddr : Packet.Addr := Packet.mkAddr hostMAC hostIP4 0.
Definition routerAddr : Packet.Addr := Packet.mkAddr routerMAC routerIP4 0.

(** A NIC with an IPv6 link-local address, and one without. *)
Definition nicInfo : Packet.NICInfo :=
  Packet.mkNICInfo hostMAC hostAddr routerAddr (mkIPNet ip6LLAHost mask64).
Definition nicInfo4 : Packet.NICInfo :=
  Packet.mkNICInfo hostMAC hostAddr routerAddr (mkIPNet [] []).

Definition defaultConfig : Packet.Config :=
  Packet.mkConfig nicInfo Packet.DefaultProbeDeadline Packet.DefaultOfflineDeadline
                  Packet.DefaultPurgeDeadline.

Definition emptySession : Packet.Session :=
  Packet.mkSession nicInfo Packet.DefaultProbeDeadline Packet.DefaultOfflineDeadline
                   Packet.DefaultPurgeDeadline ∅ ∅.

(** Three hosts that are online and were last seen at time 0: a
    link-local IPv6 host, an IPv4 host and a global IPv6 host. *)
Definition hostLLA2 : Packet.Host :=
  Packet.mkHost (Packet.mkAddr mac1 ip6LLA2 0) true 0 Packet.StageNormal false.
Definition host200 : Packet.Host :=
  Packet.mkHost (Packet.mkAddr mac3 [192; 168; 0; 200] 0) true 0 Packet.StageNormal false.
Definition hostGUA1 : Packet.Host :=
  Packet.mkHost (Packet.mkAddr mac1 ip6GUA1 0) true 0 Packet.StageNormal false.

Definition staleHosts : gmap (list Z) Packet.Host :=
  <[ip6LLA2 := hostLLA2]> (<[[192; 168; 0; 200] := host200]> {[ip6GUA1 := hostGUA1]}).

Definition staleMACs : gmap (list Z) Packet.MACEntry :=
  <[mac1 := Packet.mkMACEntry mac1 false false true [] [] [ip6LLA2; ip6GUA1]]>
    {[mac3 := Packet.mkMACEntry mac3 false false true [] [] [[192; 168; 0; 200]]]}.

(** The session of a NIC with an IPv6 link-local address, and of one
    without, holding the three hosts. *)
Definition staleSession : Packet.Session :=
  Packet.mkSession nicInfo Packet.DefaultProbeDeadline Packet.DefaultOfflineDeadline
                   Packet.DefaultPurgeDeadline staleHosts staleMACs.
Definition staleSession4 : Packet.Session :=
  Packet.mkSession nicInfo4 Packet.DefaultProbeDeadline Packet.DefaultOfflineDeadline
                   Packet.DefaultPurgeDeadline staleHosts staleMACs.

Definition homeSubnet : DHCP4.dhcpSubnet :=
  DHCP4.mkSubnet homeLAN routerIP4 hostIP4 routerIP4 (Packet.Hour * 4)
                 [192; 168; 0; 1] [192; 168; 0; 254] Packet.StageNormal ∅.

Definition netfilterSubnet : DHCP4.dhcpSubnet :=
  DHCP4.mkSubnet netfilterLAN netfilterGW hostIP4 [1; 1; 1; 3] (Packet.Hour * 4)
                 [192; 168; 1; 10] [192; 168; 1; 254] Packet.StageRedirected ∅.

(** Modelled from the spec: the lease lookup used in the evaluations.
    "If a lease exists, return it"; a lease that does not exist yet is
    created free, for the given client id and MAC, in the home subnet. *)
Definition findOrCreate (h : DHCP4.Handler) (clientID : bytes) (mac : HardwareAddr)
           (name : bytes) : DHCP4.Lease * DHCP4.Handler :=
  match DHCP4.table h !! clientID with
  | Some lease => (lease, h)
  | None =>
      let lease := DHCP4.mkLease clientID (Packet.mkAddr mac [] 0) [] DHCP4.StateFree
                                 [] 0 0 name DHCP4.Net1 in
      (lease,
       DHCP4.mkHandler (DHCP4.session h) (DHCP4.mode h) (DHCP4.filename h)
                       (<[clientID := lease]> (DHCP4.table h))
                       (DHCP4.net1 h) (DHCP4.net2 h))
  end.

Definition SelectOrderOrAll (opts : gmap Z (list Z)) (prl : list Z) : list (Z * list Z) :=
  map_to_list opts.

Definition handler (m : DHCP4.Mode) (s : Packet.Session) (t : gmap (list Z) DHCP4.Lease)
  : DHCP4.Handler :=
  DHCP4.mkHandler s m "leases.yaml"%string t homeSubnet netfilterSubnet.

(** A session in which [mac2] is captured. *)
Definition capturedSession : Packet.Session :=
  Packet.mkSession nicInfo Packet.DefaultProbeDeadline Packet.DefaultOfflineDeadline
                   Packet.DefaultPurgeDeadline ∅
                   {[mac2 := Packet.mkMACEntry mac2 true false true [] [] []]}.

(** A lease of [mac1] that was freed: no IP, no offer. *)
Definition freeLease1 : DHCP4.Lease :=
  DHCP4.mkLease mac1 (Packet.mkAddr mac1 [] 0) [9; 9; 9; 9] DHCP4.StateFree
                [] 0 0 [] DHCP4.Net1.

Definition xid1 : bytes := [1; 1; 1; 1].

Definition reqIP50 : IP := [192; 168; 0; 50].

(** Selecting REQUEST of [mac1] for this server, RequestedIP
    192.168.0.50, sent from 0.0.0.0. *)
Definition selectOptions : gmap Z (list Z) :=
  <[DHCP4.OptionRequestedIPAddress := reqIP50]>
    {[DHCP4.OptionServerIdentifier := hostIP4]}.

(** Scenario S2: [mac2] is captured and asks for 192.168.0.50 without
    a ServerIdentifier, from 255.255.255.255. *)
Definition rebootOptions : gmap Z (list Z) :=
  {[DHCP4.OptionRequestedIPAddress := reqIP50]}.

Definition handlerS2 : DHCP4.Handler :=
  DHCP4.mkHandler capturedSession DHCP4.ModeSecondaryServerNice "leases.yaml"%string ∅
                  homeSubnet netfilterSubnet.

Definition handlerFree1 : DHCP4.Handler :=
  DHCP4.mkHandler emptySession DHCP4.ModeSecondaryServerNice "leases.yaml"%string
                  {[mac1 := freeLease1]} homeSubnet netfilterSubnet.

(** A REQUEST frame from [mac] with the given ciaddr. *)
Definition requestFrom (mac : HardwareAddr) (ciaddr : IP) : DHCP4.DHCP4 :=
  DHCP4.mkDHCP4 xid1 ciaddr [0; 0; 0; 0] mac false.

(** A dispatcher whose REQUEST handler answers every frame with a NAK,
    and a REQUEST frame sent from 0.0.0.0 to the server port. *)
Definition noResult : DHCP4.Result :=
  DHCP4.mkResult false false (Packet.mkAddr [] [] 0) [] Packet.StageNormal.

Definition nakReply (p : DHCP4.DHCP4) : DHCP4.Reply :=
  DHCP4.ReplyPacket p DHCP4.NAK hostIP4 IPv4zero 0 [].

Definition quietDiscover (h : unit) (p : DHCP4.DHCP4) (o : gmap Z (list Z))
  : unit * DHCP4.Result * option DHCP4.Reply := (h, noResult, None).

Definition nakRequest (h : unit) (host : option unit) (p : DHCP4.DHCP4)
           (o : gmap Z (list Z)) (senderIP : IP)
  : unit * option unit * DHCP4.Result * option DHCP4.Reply :=
  (h, host, noResult, Some (nakReply p)).

Definition quietHandler (h : unit) (p : DHCP4.DHCP4) (o : gmap Z (list Z))
  : unit * option DHCP4.Reply := (h, None).

Definition quietClient (h : unit) (host : option unit) (p : DHCP4.DHCP4)
  : unit * option Packet.error := (h, None).

Definition sendOk (src dst : Packet.Addr) (r : DHCP4.Reply) : option Packet.error := None.

Definition requestFrame : DHCP4.Frame :=
  DHCP4.mkFrame mac1 true [0; 0; 0; 0] true 300 DHCP4.DHCP4ServerPort true
                (requestFrom mac1 [0; 0; 0; 0])
                (<[DHCP4.OptionDHCPMessageType := [3]]> selectOptions).

(** An ICMPv6 echo request body, and a sender that is not the host. *)
Definition echoBody : bytes := [128; 0; 0; 0; 0; 1; 0; 1].
Definition spoofedSrc : Packet.Addr := Packet.mkAddr mac1 ip6LLAHost 0.
Definition globalDst : Packet.Addr := Packet.mkAddr mac2 ip6GUA1 0.
Definition linkLocalDst : Packet.Addr := Packet.mkAddr mac2 ip6LLA2 0.

(** A stand-in for [packet.Checksum]: the 16-bit sum of the bytes. *)
Definition byteSum (b : bytes) : Z := fold_right Z.add 0 b mod 65536.

(** A session in which the MAC of the router is already captured. *)
Definition capturedRouterSession : Packet.Session :=
  Packet.mkSession nicInfo Packet.DefaultProbeDeadline Packet.DefaultOfflineDeadline
                   Packet.DefaultPurgeDeadline ∅
                   {[routerMAC := Packet.mkMACEntry routerMAC true true true [] [] []]}.

(** A source address that carries the host MAC. *)
Definition hostSrc : Packet.Addr := Packet.mkAddr hostMAC ip6LLAHost 0.

End Fixtures.

(** ** The statements of the specification that are compared with the code. *)
Module Spec.
Import Net.

Definition isZero (ip : IP) : Prop := Equal ip IPv4zero = true.
Definition isSet (ip : IP) : Prop := Equal ip IPv4zero = false.

(** The classification table of REQUEST, one row per operation; a
    unicast sender is one that is not the broadcast address. *)
Definition tableRow (op : DHCP4.Operation) (serverIP reqIP ciaddr senderIP : IP) : Prop :=
  match op with
  | DHCP4.selecting => isSet serverIP /\ isSet reqIP /\ isZero ciaddr /\ isZero senderIP
  | DHCP4.renewing =>
      isZero serverIP /\ isZero reqIP /\ isSet ciaddr /\ Equal senderIP IPv4bcast = false
  | DHCP4.rebinding =>
      isZero serverIP /\ isZero reqIP /\ isSet ciaddr /\ Equal senderIP IPv4bcast = true
  | DHCP4.rebooting => isZero serverIP /\ isSet reqIP /\ isZero ciaddr
  end.

(** The constraints on the three deadlines: probe <= offline <= purge,
    probe in (0, 30 min], offline in (probe, 60 min], purge in
    (offline, 24 h]. *)
Definition deadlinesValid (c : Packet.Config) : Prop :=
  let probe := Packet.Config_ProbeDeadline c in
  let offline := Packet.Config_OfflineDeadline c in
  let purge := Packet.Config_PurgeDeadline c in
  probe <= offline <= purge
  /\ 0 < probe <= Packet.Minute * 30
  /\ probe < offline <= Packet.Minute * 60
  /\ offline < purge <= Packet.Hour * 24.

End Spec.

(** ** Package [packet]: the remaining methods of [Session] on the MAC
       table (DHCP offer, address list, DHCP update). *)
Module SessionOps.
Import Net Packet.

Definition setIP4Offer (ip : IP) (name : bytes) (e : MACEntry) : MACEntry :=
  mkMACEntry (MACEntry_MAC e) (MACEntry_Captured e) (MACEntry_IsRouter e)
             (MACEntry_Online e) ip name (MACEntry_HostList e).

(** [Session.SetDHCPv4IPOffer]; [CopyIP] gives a slice with the same
    bytes. *)
Definition SetDHCPv4IPOffer (h : Session) (mac : HardwareAddr) (ip : IP) (name : bytes)
  : Session :=
  let '(t, entry) := MACTable_findOrCreate (MACTable h) mac in
  setMACTable (<[mac := setIP4Offer ip name entry]> t) h.

(** [Session.DHCPv4IPOffer]. *)
Definition DHCPv4IPOffer (h : Session) (mac : HardwareAddr) : IP :=
  match findMAC (MACTable h) mac with
  | Some entry => MACEntry_IP4Offer entry
  | None => []
  end.

(** [Session.FindMACEntry]. *)
Definition FindMACEntry (h : Session) (mac : HardwareAddr) : option MACEntry :=
  findMAC (MACTable h) mac.

(** The zero value of [Addr]. *)
Definition zeroAddr : Addr := mkAddr [] [] 0.

(** [Session.IPAddrs]: [make([]Addr, len(e.HostList))] gives a slice of
    that LENGTH, and the loop appends to it. The hosts of the list are
    read through their keys in the host table. *)
Definition IPAddrs (h : Session) (mac : HardwareAddr) : list Addr :=
  match findMAC (MACTable h) mac with
  | None => []
  | Some e =>
      let lst := repeat zeroAddr (length (MACEntry_HostList e)) in
      fold_left
        (fun lst key =>
           match HostTable h !! key with
           | Some host => lst ++ [Host_Addr host]
           | None => lst
           end)
        (MACEntry_HostList e) lst
  end.

Inductive UpdateResult :=
| UpdateReturns (e : option error)
| UpdatePanics.

Section Update.

(** Not among the sources: [Host.UpdateDHCP4Name] and
    [Session.onlineTransition], both applied to a host row. *)
Variable UpdateDHCP4Name : Session -> IP -> bytes -> Session.
Variable onlineTransition : Session -> IP -> Session.

(** [Session.DHCPUpdate]; [seen] is the stamp of a host created by
    [findOrCreateHostWithLock]. A nil host cannot be updated. *)
Definition DHCPUpdate (seen : Z) (h : Session) (mac : HardwareAddr) (ip : IP) (name : bytes)
  : Session * UpdateResult :=
  if isNil ip || IsUnspecified ip then (h, UpdateReturns (Some ErrInvalidIP))
  else
    match findOrCreateHostWithLock seen h (mkAddr mac ip 0) with
    | (h, None) => (h, UpdatePanics)
    | (h, Some host) =>
        let h := UpdateDHCP4Name h host name in
        let h := if negb (hostOnline h host) then onlineTransition h host else h in
        (h, UpdateReturns None)
    end.

End Update.

End SessionOps.

(** ** Package [packet], the engine of the older [Handler]: capture,
       release and the start and stop of the hunt on the plugins. *)
Module Engine.
Import Net Packet.

(** The two tables of [Handler]. *)
Record Handler := mkHandler {
  Handler_MACTable : gmap (list Z) MACEntry;
  Handler_LANHosts : gmap (list Z) Host
}.

Definition setHandlerMACTable (t : gmap (list Z) MACEntry) (h : Handler) : Handler :=
  mkHandler t (Handler_LANHosts h).

Definition setHandlerLANHosts (t : gmap (list Z) Host) (h : Handler) : Handler :=
  mkHandler (Handler_MACTable h) t.

Definition setHuntStage (st : HuntStage) (host : Host) : Host :=
  mkHost (Host_Addr host) (Host_Online host) (Host_LastSeen host) st (Host_dirty host).

Definition HuntStage_eqb (a b : HuntStage) : bool :=
  match a, b with
  | StageNormal, StageNormal | StageHunt, StageHunt
  | StageRedirected, StageRedirected | StageNoChange, StageNoChange => true
  | _, _ => false
  end.

(** Modelled from the spec: [FindIPNoLock] is not among the sources;
    the host table is keyed by IP ("find_ip(ip) -> Host?"). *)
Definition FindIPNoLock (h : Handler) (ip : IP) : option Host :=
  Handler_LANHosts h !! ip.

(** [Addr{IP: v.IP, MAC: v.MACEntry.MAC}] for a host row [v]. *)
Definition addrOf (v : Host) : Addr :=
  mkAddr (Addr_MAC (Host_Addr v)) (Addr_IP (Host_Addr v)) 0.

(** The hosts of a MAC entry, read through their keys. *)
Definition hostsOf (h : Handler) (e : MACEntry) : list Host :=
  omap (fun key => Handler_LANHosts h !! key) (MACEntry_HostList e).

(** The calls made on the plugins, in program order. *)
Inductive Call :=
| ICMP4_HuntStage (addr : Addr)
| ARP_StartHunt (ip : IP)
| ICMP4_StartHunt (ip : IP)
| DHCP4_StartHunt (ip : IP)
| ICMP6_StartHunt (ip : IP)
| DHCP4_StopHunt (ip : IP)
| ICMP4_StopHunt (ip : IP)
| ARP_StopHunt (ip : IP)
| ICMP6_StopHunt (ip : IP).

(** [if err := f(); err != nil { return err }] for a sequence of
    calls: the calls made and the error returned. *)
Fixpoint untilError (calls : list (Call * option error)) : list Call * option error :=
  match calls with
  | [] => ([], None)
  | (c, Some err) :: _ => ([c], Some err)
  | (c, None) :: rest =>
      let '(made, err) := untilError rest in (c :: made, err)
  end.

Record Hunt := mkHunt {
  hunt_handler : Handler;
  hunt_calls : list Call;
  hunt_err : option error
}.

(** What [Capture] returns: the handler, the error and the addresses
    handed to the goroutine it starts ([None]: no goroutine). *)
Record Captured := mkCaptured {
  cap_handler : Handler;
  cap_err : option error;
  cap_go : option (list Addr)
}.

Section Plugins.

(** The plugins [HandlerARP], [HandlerICMP4], [HandlerICMP6] and
    [HandlerDHCP4] are interfaces: the answer of each method is a
    parameter. *)
Variable icmp4HuntStage : Addr -> HuntStage.
Variables arpStartHunt icmp4StartHunt dhcp4StartHunt icmp6StartHunt : IP -> option error.
Variables dhcp4StopHunt icmp4StopHunt arpStopHunt icmp6StopHunt : IP -> option error.

(** [Handler.lockAndStartHunt]. *)
Definition lockAndStartHunt (h : Handler) (addr : Addr) : Hunt :=
  let ip := Addr_IP addr in
  let ip4 := negb (isNil (To4 ip)) in
  if ip4 && HuntStage_eqb (icmp4HuntStage addr) StageRedirected
  then mkHunt h [ICMP4_HuntStage addr] None
  else
    let asked := if ip4 then [ICMP4_HuntStage addr] else [] in
    match FindIPNoLock h ip with
    | None => mkHunt h asked (Some ErrInvalidIP)
    | Some host =>
        let h := setHandlerLANHosts
                   (<[ip := setHuntStage StageHunt host]> (Handler_LANHosts h)) h in
        let '(made, err) :=
          if ip4
          then untilError [(ARP_StartHunt ip, arpStartHunt ip);
                           (ICMP4_StartHunt ip, icmp4StartHunt ip);
                           (DHCP4_StartHunt ip, dhcp4StartHunt ip)]
          else untilError [(ICMP6_StartHunt ip, icmp6StartHunt ip)] in
        mkHunt h (asked ++ made) err
    end.

(** [Handler.lockAndStopHunt]. *)
Definition lockAndStopHunt (h : Handler) (ip : IP) : Hunt :=
  match FindIPNoLock h ip with
  | None => mkHunt h [] (Some ErrInvalidIP)
  | Some host =>
      let h := setHandlerLANHosts
                 (<[ip := setHuntStage StageNormal host]> (Handler_LANHosts h)) h in
      let '(made, err) :=
        if negb (isNil (To4 ip))
        then untilError [(DHCP4_StopHunt ip, dhcp4StopHunt ip);
                         (ICMP4_StopHunt ip, icmp4StopHunt ip);
                         (ARP_StopHunt ip, arpStopHunt ip)]
        else untilError [(ICMP6_StopHunt ip, icmp6StopHunt ip)] in
      mkHunt h made err
  end.

(** Modelled from the spec: this version of [MACTable.findMAC] is not
    among the sources; the MAC table is keyed by MAC. *)
Definition Handler_findMAC (h : Handler) (mac : HardwareAddr) : option MACEntry :=
  Handler_MACTable h !! mac.

(** [Handler.Capture]. *)
Definition Capture (h : Handler) (mac : HardwareAddr) : Captured :=
  match Handler_findMAC h mac with
  | None => mkCaptured h None None
  | Some macEntry =>
      let lst := map addrOf (hostsOf h macEntry) in
      let h := setHandlerMACTable (<[mac := setCaptured true macEntry]> (Handler_MACTable h)) h in
      mkCaptured h None (Some lst)
  end.

(** The body of the goroutine of [Capture]: an error is printed and
    the loop goes on. *)
Fixpoint startHunts (h : Handler) (lst : list Addr) : Handler * list Call :=
  match lst with
  | [] => (h, [])
  | addr :: rest =>
      let r := lockAndStartHunt h addr in
      let '(h', made) := startHunts (hunt_handler r) rest in
      (h', hunt_calls r ++ made)
  end.

(** The loop of [Release]: it returns at the first error. *)
Fixpoint stopHunts (h : Handler) (lst : list IP) : Hunt :=
  match lst with
  | [] => mkHunt h [] None
  | ip :: rest =>
      let r := lockAndStopHunt h ip in
      match hunt_err r with
      | Some _ => r
      | None =>
          let r' := stopHunts (hunt_handler r) rest in
          mkHunt (hunt_handler r') (hunt_calls r ++ hunt_calls r') (hunt_err r')
      end
  end.

(** [Handler.Release]. *)
Definition Release (h : Handler) (mac : HardwareAddr) : Hunt :=
  match Handler_findMAC h mac with
  | None => mkHunt h [] None
  | Some macEntry =>
      let lst := map (fun v => Addr_IP (Host_Addr v)) (hostsOf h macEntry) in
      let h := setHandlerMACTable (<[mac := setCaptured false macEntry]> (Handler_MACTable h)) h in
      stopHunts h lst
  end.

(** [Handler.IsCaptured]. *)
Definition IsCaptured (h : Handler) (mac : HardwareAddr) : bool :=
  match Handler_findMAC h mac with
  | Some e => MACEntry_Captured e
  | None => false
  end.

End Plugins.

End Engine.

(** ** What an outcome of [handleRequest] commits to. *)
Module Outcomes.
Import Net DHCP4.

(** What holds of an outcome whose reply is an ACK: the lease is
    committed and the table is saved. *)
Definition committed (now : Z) (o : Outcome) (r : Reply) : Prop :=
  exists l,
    out_lease o = Some l
    /\ Lease_State l = StateAllocated
    /\ DHCPExpiry l = now + Duration (deref (out_handler o) (Lease_subnet l))
    /\ Count l = 0
    /\ out_effects o = [SaveConfig (filename (out_handler o))]
    /\ Reply_yiAddr r = Packet.Addr_IP (Lease_Addr l)
    /\ Reply_serverID r = DHCPServer (deref (out_handler o) (Lease_subnet l))
    /\ Reply_leaseDuration r = Duration (deref (out_handler o) (Lease_subnet l))
    /\ out_result o = mkResult true true (Lease_Addr l) (Lease_Name l)
                               (Stage (deref (out_handler o) (Lease_subnet l))).

(** What holds of an outcome whose reply is a NAK: an empty reply,
    nothing saved, no lease allocated by the call. *)
Definition refused (o : Outcome) (r : Reply) : Prop :=
  Reply_yiAddr r = IPv4zero
  /\ Reply_leaseDuration r = 0
  /\ Reply_options r = []
  /\ (forall fname, ~ In (SaveConfig fname) (out_effects o)).

End Outcomes.

(** ** Package [dhcp4]: the construction of the handler, [Config.New],
       up to the comparison with the stored configuration. *)
Module DHCP4Config.
Import Net DHCP4.

(** [configChanged]. A [SubnetConfig] is held in the record of the
    subnet that embeds it; its options play no role here. *)
Definition configChanged (config current : dhcpSubnet) : bool :=
  negb (Equal (net_IP (LAN config)) (net_IP (LAN current)))
  || negb (Equal (DefaultGW config) (DefaultGW current))
  || negb (Equal (DNSServer config) (DNSServer current))
  || negb (Equal (DHCPServer config) (DHCPServer current))
  || (negb (Duration config =? 0) && negb (Duration config =? Duration current))
  || (negb (Packet.isNil (FirstIP config)) && negb (Equal (FirstIP config) (FirstIP current)))
  || (negb (Packet.isNil (LastIP config)) && negb (Equal (LastIP config) (LastIP current))).

(** The fields of [NICInfo] that [New] reads. *)
Record NICInfo := mkNICInfo {
  HomeLAN4 : IPNet;
  HostIP4 : IPNet;
  RouterIP4 : IPNet
}.

Definition allFF (b : list Z) : bool := forallb (Z.eqb 255) b.

(** [ip.Mask(mask)] of package [net]. *)
Definition Mask (ip : IP) (mask : list Z) : IP :=
  let mask := if Nat.eqb (length mask) IPv6len && Nat.eqb (length ip) IPv4len
                 && allFF (take 12%nat mask)
              then drop 12%nat mask else mask in
  let ip := if Nat.eqb (length mask) IPv4len && Nat.eqb (length ip) IPv6len
               && bytesEqual (take 12%nat ip) v4InV6Prefix
            then drop 12%nat ip else ip in
  if negb (Nat.eqb (length ip) (length mask)) then []
  else zip_with Z.land ip mask.

(** "validate networks": the test that makes [New] return
    ErrInvalidIP. *)
Definition invalidNetworks (nic : NICInfo) (netfilterIP : IPNet) : bool :=
  negb (Contains (HomeLAN4 nic) (net_IP netfilterIP))
  || Contains netfilterIP (net_IP (HomeLAN4 nic)).

(** "Segment network": the two configurations that [New] compares
    with the stored ones. *)
Definition homeSubnet (nic : NICInfo) (dnsServer : IP) : dhcpSubnet :=
  let dnsServer := if Packet.isNil dnsServer then net_IP (RouterIP4 nic) else dnsServer in
  mkSubnet (HomeLAN4 nic) (To4 (net_IP (RouterIP4 nic))) (To4 (net_IP (HostIP4 nic)))
           (To4 dnsServer) 0 [] [] Packet.StageNormal ∅.

Definition CloudFlareFamilyDNS1 : IP := IPv4 1 1 1 3.

Definition netfilterSubnet (nic : NICInfo) (netfilterIP : IPNet) : dhcpSubnet :=
  mkSubnet (mkIPNet (Mask (net_IP netfilterIP) (net_Mask netfilterIP)) (net_Mask netfilterIP))
           (To4 (net_IP netfilterIP)) (net_IP (HostIP4 nic)) CloudFlareFamilyDNS1
           0 [] [] Packet.StageRedirected ∅.

(** [New] up to the call of [loadConfig]: the error of the
    validation, or the two configurations. *)
Inductive Segmented :=
| Invalid (e : Packet.error)
| Subnets (home netfilter : dhcpSubnet).

Definition New_segment (nic : NICInfo) (netfilterIP : IPNet) (dnsServer : IP) : Segmented :=
  if invalidNetworks nic netfilterIP then Invalid Packet.ErrInvalidIP
  else Subnets (homeSubnet nic dnsServer) (netfilterSubnet nic netfilterIP).

(** [loadConfig], [newSubnet] and [saveConfig] are not among the
    sources: [New_resets] tells whether [New] discards the stored leases,
    given what [loadConfig] returned. *)
Definition New_resets (home netfilter : dhcpSubnet) (loadFailed : bool)
           (net1 net2 : option dhcpSubnet) (table : option (gmap (list Z) Lease)) : bool :=
  match loadFailed, net1, net2, table with
  | false, Some net1, Some net2, Some _ =>
      configChanged home net1 || configChanged netfilter net2
  | _, _, _, _ => true
  end.

End DHCP4Config.

(** ** Package [arp]: the ARP frame, the configuration of the handler
       and the announcement.

    A slice is modelled with a capacity equal to its length, so that a
    slice expression [s[i:j]] with [j] beyond the length panics. *)
Module ARP.
Import Net.

Definition OperationRequest : Z := 1.
Definition OperationReply : Z := 2.

Definition ETH_P_IP : Z := 2048.

(** [arpLen = 8 + 2*6 + 2*4]. *)
Definition arpLen : nat := (8 + 2 * 6 + 2 * 4)%nat.

(** [binary.BigEndian.Uint16] and [PutUint16] on a [uint16]. *)
Definition Uint16 (b : bytes) : Z :=
  Z.lor (byteAt b 1%nat) (Z.shiftl (byteAt b 0%nat) 8).

Definition PutUint16 (v : Z) : bytes :=
  let v := v mod 65536 in
  [Z.shiftr v 8; Z.land v 255].

(** [b[lo:hi]]; [None] is the panic of a slice out of range. *)
Definition slice (b : bytes) (lo hi : nat) : option bytes :=
  if (hi <=? length b)%nat then Some (take (hi - lo) (drop lo b)) else None.

(** [copy(b[off:off+len(src)], src)] for [src] not longer than the
    rest of [b]. *)
Definition copyAt (b : bytes) (off : nat) (src : bytes) : bytes :=
  take off b ++ src ++ drop (off + length src) b.

Definition HType (b : bytes) : option Z := Uint16 <$> slice b 0 2.
Definition Proto (b : bytes) : option Z := Uint16 <$> slice b 2 4.
Definition HLen (b : bytes) : option Z := b !! 4%nat.
Definition PLen (b : bytes) : option Z := b !! 5%nat.
Definition Operation (b : bytes) : option Z := Uint16 <$> slice b 6 8.
Definition SrcMAC (b : bytes) : option HardwareAddr := slice b 8 14.
Definition SrcIP (b : bytes) : option IP := slice b 14 18.
Definition DstMAC (b : bytes) : option HardwareAddr := slice b 18 24.
Definition DstIP (b : bytes) : option IP := slice b 24 28.

(** [ARP.IsValid]. *)
Definition IsValid (b : bytes) : bool :=
  if (length b <? arpLen)%nat then false
  else if negb (bool_decide (HType b = Some 1)) then false
  else if negb (bool_decide (Proto b = Some ETH_P_IP)) then false
  else if negb (bool_decide (HLen b = Some 6)) then false
  else if negb (bool_decide (PLen b = Some 4)) then false
  else true.

Inductive Marshalled :=
| Frame (b : bytes)
| MarshalError
| MarshalPanic.

(** [MarshalBinary]; the buffer [None] is the nil slice. *)
Definition MarshalBinary (b : option bytes) (operation : Z) (srcAddr dstAddr : Packet.Addr)
  : Marshalled :=
  let b := match b with None => repeat 0 arpLen | Some b => b end in
  if (length b <? arpLen)%nat then MarshalError
  else
    let b := take arpLen b in
    let b := copyAt b 0 (PutUint16 1) in
    let b := copyAt b 2 (PutUint16 ETH_P_IP) in
    let b := copyAt b 4 [6] in
    let b := copyAt b 5 [4] in
    let b := copyAt b 6 (PutUint16 operation) in
    match slice (Packet.Addr_MAC srcAddr) 0 6 with
    | None => MarshalPanic
    | Some srcMAC =>
        let b := copyAt b 8 srcMAC in
        match slice (Packet.Addr_IP srcAddr) 0 4 with
        | None => MarshalPanic
        | Some srcIP =>
            let b := copyAt b 14 srcIP in
            match slice (Packet.Addr_MAC dstAddr) 0 6 with
            | None => MarshalPanic
            | Some dstMAC =>
                let b := copyAt b 18 dstMAC in
                match slice (Packet.Addr_IP dstAddr) 0 4 with
                | None => MarshalPanic
                | Some dstIP => Frame (copyAt b 24 dstIP)
                end
            end
        end
    end.

(** The 28 bytes of an ARP frame in wire order: the fixed header, the
    operation, then the sender and the target. *)
Definition wireFrame (operation : Z) (srcAddr dstAddr : Packet.Addr) : bytes :=
  [0; 1; 8; 0; 6; 4] ++ PutUint16 operation
  ++ take 6%nat (Packet.Addr_MAC srcAddr) ++ take 4%nat (Packet.Addr_IP srcAddr)
  ++ take 6%nat (Packet.Addr_MAC dstAddr) ++ take 4%nat (Packet.Addr_IP dstAddr).

(** *** The configuration kept by [newHandler]. *)

Record Config := mkConfig {
  NIC : string;
  HostMAC : HardwareAddr;
  HostIP : IP;
  RouterIP : IP;
  HomeLAN : IPNet;
  FullNetworkScanInterval : Z;
  ProbeInterval : Z;
  OfflineDeadline : Z;
  PurgeDeadline : Z
}.

(** [newHandler]: the configuration of the handler it returns. *)
Definition newHandler (config : Config) : Config :=
  let scan := FullNetworkScanInterval config in
  let probe := ProbeInterval config in
  let offline := OfflineDeadline config in
  let purge := PurgeDeadline config in
  let scan := if (scan <=? 0) || (Packet.Hour * 12 <? scan) then Packet.Minute * 60 else scan in
  let probe := if (probe <=? 0) || (Packet.Minute * 10 <? probe)
               then Packet.Minute * 2 else probe in
  let offline := if offline <=? probe then probe * 2 else offline in
  let purge := if purge <=? offline then Packet.Minute * 61 else purge in
  mkConfig (NIC config) (HostMAC config) (To4 (HostIP config)) (To4 (RouterIP config))
           (HomeLAN config) scan probe offline purge.

(** The goroutines that [Begin] starts, in program order. *)
Inductive Goroutine :=
| GoScanLoop (interval : Z)
| GoProbeOnlineLoop (interval : Z)
| GoPurgeLoop (offline purge : Z)
| GoScanNetwork (lan : IPNet).

(** [Handler.Begin] up to [wg.Wait()]; [deadlineErr] is the error of
    [SetReadDeadline]. *)
Definition Begin (config : Config) (deadlineErr : option Packet.error)
  : option Packet.error * list Goroutine :=
  match deadlineErr with
  | Some err => (Some (Packet.Errorf "ARP error in socket" 0 err), [])
  | None =>
      (None,
       (if negb (FullNetworkScanInterval config =? 0)
        then [GoScanLoop (FullNetworkScanInterval config)] else [])
       ++ [GoProbeOnlineLoop (ProbeInterval config);
           GoPurgeLoop (OfflineDeadline config) (PurgeDeadline config)]
       ++ (if negb (FullNetworkScanInterval config =? 0)
           then [GoScanNetwork (HomeLAN config)] else []))
  end.

(** *** The announcement. *)

(** A call of [requestWithDstEthernet]. *)
Record RequestCall := mkRequestCall {
  req_dstEther : HardwareAddr;
  req_srcHwAddr : HardwareAddr;
  req_srcIP : IP;
  req_dstHwAddr : HardwareAddr;
  req_dstIP : IP
}.

(** The loop [for i := 1; i < repeats; i++] of the goroutine of
    [announce]; [fuel] bounds the number of turns. *)
Fixpoint announceLoop (fuel : nat) (i repeats : Z) (call : RequestCall) : list RequestCall :=
  match fuel with
  | O => []
  | S fuel' =>
      if i <? repeats then call :: announceLoop fuel' (i + 1) repeats call else []
  end.

(** [Handler.announce]: the call made before it returns, whose error
    it returns, and the calls of its goroutine. [repeats] is an [int],
    so that its value as a natural number is enough fuel. *)
Definition announce (requestErr : RequestCall -> option Packet.error)
           (dstEther mac : HardwareAddr) (ip : IP) (targetMac : HardwareAddr) (repeats : Z)
  : option Packet.error * RequestCall * list RequestCall :=
  let call := mkRequestCall dstEther mac ip targetMac ip in
  (requestErr call, call, announceLoop (Z.to_nat repeats) 1 repeats call).

End ARP.

(** ** Package [icmp6]: the table of routers and the start of the
       router advertisement service. *)
Module NDP.
Import Net.

(** The fields of [PrefixInformation] and [RecursiveDNSServer] that
    the sources set. *)
Record PrefixInformation := mkPrefixInformation {
  PrefixLength : Z;
  Prefix : IP;
  AutonomousAddressConfiguration : bool;
  ValidLifetime : Z;
  PreferredLifetime : Z
}.

Record RecursiveDNSServer := mkRecursiveDNSServer {
  RDNSS_Lifetime : Z;
  Servers : list IP
}.

(** The options of a router advertisement, with the fields that the
    handlers read. *)
Record RAOptions := mkRAOptions {
  SourceLLA_MAC : HardwareAddr;
  FirstPrefix : IP;
  Options_Prefixes : list PrefixInformation
}.

Record Router := mkRouter {
  Router_Addr : Packet.Addr;
  enableRADVS : bool;
  ManagedFlag : bool;
  OtherCondigFlag : bool;
  Preference : Z;
  MTU : Z;
  ReacheableTime : Z;
  RetransTimer : Z;
  CurHopLimit : Z;
  DefaultLifetime : Z;
  Prefixes : list PrefixInformation;
  RDNSS : option RecursiveDNSServer;
  Router_Options : RAOptions
}.

(** [&Router{Addr: packet.Addr{MAC: CopyMAC(mac), IP: CopyIP(ip)}}]. *)
Definition newRouter (mac : HardwareAddr) (ip : IP) : Router :=
  mkRouter (Packet.mkAddr mac ip 0) false false false 0 0 0 0 0 0 [] None
           (mkRAOptions [] [] []).

(** [Handler.findOrCreateRouter]; the map is keyed by [string(ip)],
    the bytes of the address. The result is the map after the call, the
    router and [found]. *)
Definition findOrCreateRouter (LANRouters : gmap (list Z) Router) (mac : HardwareAddr) (ip : IP)
  : gmap (list Z) Router * Router * bool :=
  match LANRouters !! ip with
  | Some r => (LANRouters, r, true)
  | None => (<[ip := newRouter mac ip]> LANRouters, newRouter mac ip, false)
  end.

Inductive Goroutine := GoSendAdvertistementLoop (router : IP).

(** [Handler.startRADVS]; [mtu] is [NICInfo.IFI.MTU]. The result is
    the map after the call, the router of the service and the goroutine
    started. *)
Definition startRADVS (nic : Packet.NICInfo) (mtu : Z) (LANRouters : gmap (list Z) Router)
           (managed other : bool) (prefixes : list PrefixInformation)
           (rdnss : option RecursiveDNSServer)
  : gmap (list Z) Router * Router * list Goroutine :=
  let ip := net_IP (Packet.HostLLA nic) in
  let '(LANRouters, router, _) := findOrCreateRouter LANRouters (Packet.HostMAC nic) ip in
  let router :=
    mkRouter (Router_Addr router) true managed other (Preference router)
             (mtu mod 4294967296)
             (Packet.Minute * 10 / 1000000) (Packet.Minute * 2 / 1000000) 1
             (Packet.Minute * 30) prefixes rdnss (Router_Options router) in
  (<[ip := router]> LANRouters, router, [GoSendAdvertistementLoop ip]).

End NDP.

(** ** Package [icmp]: [Handler6.ProcessPacket]. *)
Module Handler6.
Import Net NDP.

(** More of package [net]. *)
Definition IPv6loopback : IP := [0; 0; 0; 0; 0; 0; 0; 0; 0; 0; 0; 0; 0; 0; 0; 1].

Definition IsLoopback (ip : IP) : bool :=
  match To4 ip with
  | _ :: _ as ip4 => Z.eqb (byteAt ip4 0%nat) 127
  | [] => Equal ip IPv6loopback
  end.

Definition IsMulticast (ip : IP) : bool :=
  match To4 ip with
  | _ :: _ as ip4 => Z.eqb (Z.land (byteAt ip4 0%nat) 240) 224
  | [] => Nat.eqb (length ip) IPv6len && Z.eqb (byteAt ip 0%nat) 255
  end.

Definition IsGlobalUnicast (ip : IP) : bool :=
  (Nat.eqb (length ip) IPv4len || Nat.eqb (length ip) IPv6len)
  && negb (Equal ip IPv4bcast)
  && negb (IsUnspecified ip)
  && negb (IsLoopback ip)
  && negb (IsMulticast ip)
  && negb (IsLinkLocalUnicast ip).

(** The errors that [ProcessPacket] returns. *)
Inductive error :=
| errParseMessage
| ErrParseFrame
| ErrInvalidMAC
| ErrHostNil
| ErrOptions (code : Z)
| ErrEcho (len : Z)
| ErrRedirect (len : Z)
| ErrUnrecognized (t : Z).

(** What the accessors of the typed frames return on the ICMPv6
    message, by type. *)
Inductive Message :=
| NeighborAdvertisement (valid override solicited : bool) (targetLLA : HardwareAddr)
                        (targetAddress : IP)
| NeighborSolicitation (valid : bool) (targetAddress : IP)
| RouterAdvertisement (valid : bool) (options : error + RAOptions)
                      (managed other : bool)
                      (preference curHopLimit lifetime reachable retransmit : Z)
| RouterSolicitation (invalid : option error)
| EchoReply (valid : bool) (echoID : Z)
| EchoRequest
| MulticastListenerReport
| Version2MulticastListenerReport
| MulticastListenerQuery
| Redirect (valid : bool)
| DestinationUnreachable
| OtherType (t : Z).

(** The received frame: the Ethernet and IPv6 addresses, whether the
    ICMPv6 header is valid, its length and the message. *)
Record Packet6 := mkPacket6 {
  ether_Src : HardwareAddr;
  ether_Dst : HardwareAddr;
  ip6_Src : IP;
  ip6_Dst : IP;
  icmp_IsValid : bool;
  icmp_len : Z;
  icmp_msg : Message
}.

(** [packet.Result], with the fields set here. *)
Record Result := mkResult {
  Update : bool;
  IsRouter : bool;
  FrameAddr : Packet.Addr
}.

Definition zeroResult : Result := mkResult false false (Packet.mkAddr [] [] 0).

(** The state that [ProcessPacket] reads and writes: the routers, the
    number of addresses hunted and the package variable [repeat]. *)
Record State := mkState {
  LANRouters : gmap (list Z) Router;
  huntListLen : nat;
  repeat_ : Z
}.

Inductive Event :=
| WakeSpoofers
| SendNeighbourSolicitation (srcAddr dstAddr : Packet.Addr) (targetIP : IP)
| EchoNotify (id : Z).

Record Processed := mkProcessed {
  pp_state : State;
  pp_result : Result;
  pp_err : option error;
  pp_events : list Event
}.

(** [repeat++] on an [int] of 64 bits. *)
Definition incr (n : Z) : Z :=
  (n + 1 + 9223372036854775808) mod 18446744073709551616 - 9223372036854775808.

Section Process.

(** [ethAddrLen] is not among the sources. *)
Variable ethAddrLen : nat.

(** The update of a router from an advertisement. *)
Definition advertised (router : Router) (options : RAOptions) (managed other : bool)
           (preference curHopLimit lifetime reachable retransmit : Z) : Router :=
  mkRouter (Router_Addr router) (enableRADVS router) managed other preference (MTU router)
           reachable retransmit curHopLimit (lifetime * Packet.Second)
           (Options_Prefixes options) (RDNSS router) options.

(** [Handler6.ProcessPacket]; [hostNil] tells whether the host given
    is nil. *)
Definition ProcessPacket (nic : Packet.NICInfo) (h : State) (hostNil : bool) (p : Packet6)
  : Processed :=
  if negb (icmp_IsValid p) then mkProcessed h zeroResult (Some errParseMessage) []
  else
    match icmp_msg p with
    | NeighborAdvertisement valid override solicited targetLLA targetAddress =>
        if negb valid then mkProcessed h zeroResult (Some ErrParseFrame) []
        else if override && negb solicited then
          if Packet.isNil targetLLA then mkProcessed h zeroResult (Some ErrInvalidMAC) []
          else mkProcessed h (mkResult true false (Packet.mkAddr targetLLA targetAddress 0))
                           None []
        else mkProcessed h zeroResult None []
    | NeighborSolicitation valid targetAddress =>
        if negb valid then mkProcessed h zeroResult (Some ErrParseFrame) []
        else if IsUnspecified (ip6_Src p) then
          mkProcessed h (mkResult true false (Packet.mkAddr (ether_Src p) targetAddress 0))
                      None []
        else if IsGlobalUnicast targetAddress then
          let srcAddr := Packet.mkAddr (Packet.HostMAC nic) (net_IP (Packet.HostLLA nic)) 0 in
          let dstAddr := Packet.mkAddr (ether_Dst p) (ip6_Dst p) 0 in
          mkProcessed h zeroResult None [SendNeighbourSolicitation srcAddr dstAddr targetAddress]
        else mkProcessed h zeroResult None []
    | RouterAdvertisement valid options managed other preference curHopLimit lifetime
                          reachable retransmit =>
        if negb valid then mkProcessed h zeroResult (Some ErrParseFrame) []
        else
          let wake := if (0 <? huntListLen h)%nat then [WakeSpoofers] else [] in
          let h := mkState (LANRouters h) (huntListLen h) (incr (repeat_ h)) in
          if negb (Z.rem (repeat_ h) 4 =? 0) then mkProcessed h zeroResult None wake
          else if hostNil then mkProcessed h zeroResult (Some ErrHostNil) wake
          else
            match options with
            | inl err => mkProcessed h zeroResult (Some err) wake
            | inr options =>
                let mac := SourceLLA_MAC options in
                let mac := if Packet.isNil mac || negb (Nat.eqb (length mac) ethAddrLen)
                           then ether_Src p else mac in
                let '(routers, router, found) :=
                  findOrCreateRouter (LANRouters h) mac (ip6_Src p) in
                let curPrefix := FirstPrefix (Router_Options router) in
                let router := advertised router options managed other preference curHopLimit
                                         lifetime reachable retransmit in
                let h := mkState (<[ip6_Src p := router]> routers) (huntListLen h)
                                 (repeat_ h) in
                let result :=
                  if negb found || negb (Equal curPrefix (FirstPrefix (Router_Options router)))
                  then mkResult true true (Packet.mkAddr [] [] 0) else zeroResult in
                mkProcessed h result None wake
            end
    | RouterSolicitation invalid =>
        match invalid with
        | Some err => mkProcessed h zeroResult (Some err) []
        | None => mkProcessed h zeroResult None []
        end
    | EchoReply valid echoID =>
        if negb valid then mkProcessed h zeroResult (Some (ErrEcho (icmp_len p))) []
        else mkProcessed h zeroResult None [EchoNotify echoID]
    | EchoRequest | MulticastListenerReport | Version2MulticastListenerReport
    | MulticastListenerQuery | DestinationUnreachable => mkProcessed h zeroResult None []
    | Redirect valid =>
        if negb valid then mkProcessed h zeroResult (Some (ErrRedirect (icmp_len p))) []
        else mkProcessed h zeroResult None []
    | OtherType t => mkProcessed h zeroResult (Some (ErrUnrecognized t)) []
    end.

(** The frames of a list handled one after the other, as the read
    loop does; the hosts given are not nil. *)
Fixpoint processAll (nic : Packet.NICInfo) (h : State) (frames : list Packet6) : State :=
  match frames with
  | [] => h
  | p :: rest => processAll nic (pp_state (ProcessPacket nic h false p)) rest
  end.

End Process.

(** A valid router advertisement whose options can be parsed. *)
Definition isAdvertisement (p : Packet6) : Prop :=
  icmp_IsValid p = true
  /\ match icmp_msg p with
     | RouterAdvertisement true (inr _) _ _ _ _ _ _ _ => True
     | _ => False
     end.

(** The state of the handler that [New6] returns when the program
    starts: no router, and [repeat] at its initial value -1. *)
Definition New6 : State := mkState ∅ 0 (-1).

End Handler6.

(** ** More concrete values, for the evaluations of the second part. *)
Module Samples.
Import Net.

(** A lease of [mac1] for 192.168.0.50 in the home subnet, Allocated,
    with expiry at time 0. *)
Definition allocatedLease1 : DHCP4.Lease :=
  DHCP4.mkLease Fixtures.mac1 (Packet.mkAddr Fixtures.mac1 Fixtures.reqIP50 0) Fixtures.xid1
                DHCP4.StateAllocated [] 0 0 [] DHCP4.Net1.

Definition handlerAllocated1 : DHCP4.Handler :=
  DHCP4.mkHandler Fixtures.emptySession DHCP4.ModeSecondaryServerNice "leases.yaml"%string
                  {[Fixtures.mac1 := allocatedLease1]}
                  Fixtures.homeSubnet Fixtures.netfilterSubnet.

(** A Selecting REQUEST that names the home router as its server. *)
Definition selectRouterOptions : gmap Z (list Z) :=
  <[DHCP4.OptionRequestedIPAddress := Fixtures.reqIP50]>
    {[DHCP4.OptionServerIdentifier := Fixtures.routerIP4]}.

(** The tables of the older engine, with the three hosts of
    [staleHosts], and plugins that always succeed or always fail. *)
Definition engine : Engine.Handler := Engine.mkHandler Fixtures.staleMACs Fixtures.staleHosts.

Definition stageNormal (addr : Packet.Addr) : Packet.HuntStage := Packet.StageNormal.
Definition huntOk (ip : IP) : option Packet.error := None.
Definition huntFails (ip : IP) : option Packet.error := Some Packet.ErrNotFound.

(** The NIC of the scenarios: home LAN 192.168.0.0/24, host
    192.168.0.129, router 192.168.0.11. *)
Definition nic24 : DHCP4Config.NICInfo :=
  DHCP4Config.mkNICInfo (mkIPNet [192; 168; 0; 0] [255; 255; 255; 0])
                        (mkIPNet Fixtures.hostIP4 [255; 255; 255; 0])
                        (mkIPNet Fixtures.routerIP4 [255; 255; 255; 0]).

(** A frame whose UDP header is not valid, and a socket that fails. *)
Definition badUDPFrame : DHCP4.Frame :=
  DHCP4.mkFrame Fixtures.mac1 true [0; 0; 0; 0] false 300 DHCP4.DHCP4ServerPort true
                (Fixtures.requestFrom Fixtures.mac1 [0; 0; 0; 0]) ∅.

Definition sendFails (src dst : Packet.Addr) (r : DHCP4.Reply) : option Packet.error :=
  Some Packet.ErrNotFound.

(** The host asking for 192.168.0.200, as an ARP request on the wire. *)
Definition arpSrc : Packet.Addr := Packet.mkAddr Fixtures.hostMAC Fixtures.hostIP4 0.
Definition arpDst : Packet.Addr := Packet.mkAddr Packet.EthBroadcast [192; 168; 0; 200] 0.

Definition arpRequest : bytes :=
  [0; 1; 8; 0; 6; 4; 0; 1;
   0; 85; 85; 85; 85; 85; 192; 168; 0; 129;
   255; 255; 255; 255; 255; 255; 192; 168; 0; 200].

(** Router advertisements of two routers, fe80::2 and fe80::1010. *)
Definition raFrom (mac : HardwareAddr) (src : IP) : Handler6.Packet6 :=
  Handler6.mkPacket6 mac [51; 51; 0; 0; 0; 1] src
    [255; 2; 0; 0; 0; 0; 0; 0; 0; 0; 0; 0; 0; 0; 0; 1] true 64
    (Handler6.RouterAdvertisement true (inr (NDP.mkRAOptions mac Fixtures.ip6GUA1 []))
       false false 0 64 1800 0 0).

Definition raA : Handler6.Packet6 := raFrom Fixtures.mac1 Fixtures.ip6LLA2.
Definition raB : Handler6.Packet6 := raFrom Fixtures.mac2 Fixtures.ip6LLAHost.

End Samples.

(** * Properties *)

Section NetFacts.
Import Net.

Lemma Equal_IPv4zero_4 : Equal [0; 0; 0; 0] IPv4zero = true.
Proof. reflexivity. Qed.

Lemma To4_IPv4 a b c d : To4 (IPv4 a b c d) = [a; b; c; d].
Proof. reflexivity. Qed.

End NetFacts.

(** ** The REQUEST handler *)
Section RequestFacts.
Import Net DHCP4.

(** The operation depends on three tests only. *)
Lemma requestOperation_cases serverIP reqIP senderIP ciaddr :
  requestOperation serverIP reqIP senderIP ciaddr =
    match Equal serverIP IPv4zero, Equal reqIP IPv4zero, Equal senderIP IPv4bcast with
    | false, _, _ => (selecting, reqIP)
    | true, true, false => (renewing, ciaddr)
    | true, true, true => (rebinding, ciaddr)
    | true, false, _ => (rebooting, reqIP)
    end.
Proof.
  unfold requestOperation.
  destruct (Equal serverIP IPv4zero), (Equal reqIP IPv4zero),
    (Equal senderIP IPv4bcast); reflexivity.
Qed.

Lemma operationOf_cases p options senderIP :
  operationOf p options senderIP =
    match Equal (optionIP options OptionServerIdentifier) IPv4zero,
          Equal (optionIP options OptionRequestedIPAddress) IPv4zero,
          Equal senderIP IPv4bcast with
    | false, _, _ => selecting
    | true, true, false => renewing
    | true, true, true => rebinding
    | true, false, _ => rebooting
    end.
Proof.
  unfold operationOf. rewrite requestOperation_cases.
  destruct (Equal (optionIP options OptionServerIdentifier) IPv4zero),
    (Equal (optionIP options OptionRequestedIPAddress) IPv4zero),
    (Equal senderIP IPv4bcast); reflexivity.
Qed.

(** C1 (as the code has it): [handleRequest] names the operation from the
    ServerIdentifier, the RequestedIP and the test "sender is the
    broadcast address" alone. Selecting iff ServerIdentifier is not
    zero; Renewing iff ServerIdentifier and RequestedIP are zero and the
    sender is not the broadcast address; Rebinding iff both are zero and
    the sender is the broadcast address; Rebooting iff ServerIdentifier
    is zero and RequestedIP is not. CIAddr plays no part. Every row of
    the table of the specification is classified as the table says. *)
Theorem C1_operation_classification (p : DHCP4) (options : Options) (senderIP : IP) :
  let serverIP := optionIP options OptionServerIdentifier in
  let reqIP := optionIP options OptionRequestedIPAddress in
  (operationOf p options senderIP = selecting <-> Equal serverIP IPv4zero = false)
  /\ (operationOf p options senderIP = renewing <->
      Equal serverIP IPv4zero = true /\ Equal reqIP IPv4zero = true
      /\ Equal senderIP IPv4bcast = false)
  /\ (operationOf p options senderIP = rebinding <->
      Equal serverIP IPv4zero = true /\ Equal reqIP IPv4zero = true
      /\ Equal senderIP IPv4bcast = true)
  /\ (operationOf p options senderIP = rebooting <->
      Equal serverIP IPv4zero = true /\ Equal reqIP IPv4zero = false)
  /\ (forall op, Spec.tableRow op serverIP reqIP (CIAddr p) senderIP ->
                 operationOf p options senderIP = op).
Proof.
  intros serverIP reqIP. rewrite operationOf_cases.
  fold serverIP reqIP.
  destruct (Equal serverIP IPv4zero) eqn:Hs, (Equal reqIP IPv4zero) eqn:Hr,
    (Equal senderIP IPv4bcast) eqn:Hb;
    repeat split; try congruence; try tauto;
    try (intros op; destruct op; unfold Spec.tableRow, Spec.isZero, Spec.isSet;
         intros; intuition congruence).
Qed.

End RequestFacts.

Section RequestDrops.
Import Net DHCP4.

Variable findOrCreate : Handler -> bytes -> HardwareAddr -> bytes -> Lease * Handler.
Variable SelectOrderOrAll : Options -> list Z -> list (Z * list Z).
Variable zeroStage : Packet.HuntStage.

Lemma optionIP_absent_or_zero (options : Options) (code : Z) :
  (options !! code = None
   \/ exists v, options !! code = Some v /\ Equal (To4 v) IPv4zero = true) ->
  Equal (optionIP options code) IPv4zero = true.
Proof.
  unfold optionIP. intros [H | (v & H & Hv)]; rewrite H; [reflexivity | exact Hv].
Qed.

(** C9: a REQUEST whose RequestedIPAddress option is absent or zero and
    whose CIAddr is zero gets no reply frame; the handler returns before
    the lease lookup, so the lease table is as before and nothing is
    started. *)
Theorem C9_zero_request_ip_dropped (h : Handler) (now : Z) (host : option Packet.Host)
        (p : DHCP4) (options : Options) (senderIP : IP) :
  (options !! OptionRequestedIPAddress = None
   \/ exists v, options !! OptionRequestedIPAddress = Some v
                /\ Equal (To4 v) IPv4zero = true) ->
  Equal (CIAddr p) IPv4zero = true ->
  let o := handleRequest findOrCreate SelectOrderOrAll zeroStage h now host p options senderIP in
  out_reply o = None /\ out_handler o = h /\ out_lease o = None /\ out_effects o = [].
Proof.
  intros Hopt Hci. apply optionIP_absent_or_zero in Hopt.
  unfold handleRequest. rewrite requestOperation_cases, Hopt.
  destruct (Equal (optionIP options OptionServerIdentifier) IPv4zero),
    (Equal senderIP IPv4bcast); cbn zeta; rewrite ?Hopt, ?Hci; cbn; auto.
Qed.

End RequestDrops.

(** C1 (counterexample): a REQUEST with ServerIdentifier 192.168.0.129,
    no RequestedIP, CIAddr 192.168.0.50, sent from 192.168.0.50, is
    handled as Selecting although the Selecting row of the table asks for
    a RequestedIP, a zero CIAddr and a zero sender. *)
Lemma C1_selecting_outside_table_row :
  let options : gmap Z (list Z) := {[DHCP4.OptionServerIdentifier := Fixtures.hostIP4]} in
  let p := Fixtures.requestFrom Fixtures.mac1 [192; 168; 0; 50] in
  let senderIP := [192; 168; 0; 50] in
  DHCP4.operationOf p options senderIP = DHCP4.selecting
  /\ ~ Spec.tableRow DHCP4.selecting
        (DHCP4.optionIP options DHCP4.OptionServerIdentifier)
        (DHCP4.optionIP options DHCP4.OptionRequestedIPAddress)
        (DHCP4.CIAddr p) senderIP.
Proof.
  split.
  - vm_compute. reflexivity.
  - unfold Spec.tableRow, Spec.isSet, Spec.isZero. vm_compute.
    intros (_ & H & _). discriminate H.
Qed.

(** C9 (instance): a broadcast REQUEST from mac1 without options and with
    a zero CIAddr. *)
Lemma C9_zero_request_ip_dropped_witness :
  let o := DHCP4.handleRequest Fixtures.findOrCreate Fixtures.SelectOrderOrAll Packet.StageNormal
             (Fixtures.handler DHCP4.ModeSecondaryServerNice Fixtures.emptySession ∅) 0 None
             (Fixtures.requestFrom Fixtures.mac1 [0; 0; 0; 0]) ∅ Net.IPv4bcast in
  DHCP4.out_reply o = None
  /\ DHCP4.out_handler o = Fixtures.handler DHCP4.ModeSecondaryServerNice Fixtures.emptySession ∅
  /\ DHCP4.out_lease o = None /\ DHCP4.out_effects o = [].
Proof.
  apply (C9_zero_request_ip_dropped Fixtures.findOrCreate Fixtures.SelectOrderOrAll
           Packet.StageNormal).
  - left. reflexivity.
  - reflexivity.
Defined.

Section RequestReplies.
Import Net DHCP4.

Variable findOrCreate : Handler -> bytes -> HardwareAddr -> bytes -> Lease * Handler.
Variable SelectOrderOrAll : Options -> list Z -> list (Z * list Z).
Variable zeroStage : Packet.HuntStage.

(** Selecting for this server: NAK when [selectInvalid], else the
    successful tail. *)
Lemma handleRequest_selecting_for_us (h : Handler) (now : Z) (host : option Packet.Host)
      (p : DHCP4) (options : Options) (senderIP : IP) (lease : Lease) (h' : Handler) :
  let serverIP := optionIP options OptionServerIdentifier in
  let reqIP := optionIP options OptionRequestedIPAddress in
  let subnet := if Packet.IsCaptured (session h) (CHAddr p) then net2 h else net1 h in
  Equal serverIP IPv4zero = false ->
  Equal reqIP IPv4zero = false ->
  Equal serverIP (DHCPServer subnet) = true ->
  findOrCreate h (getClientID p options) (CHAddr p) (default [] (options !! OptionHostName))
    = (lease, h') ->
  handleRequest findOrCreate SelectOrderOrAll zeroStage h now host p options senderIP =
    if selectInvalid lease p reqIP
    then mkOutcome h' (Some lease) (zeroResult zeroStage)
                   (Some (ReplyPacket p NAK (DHCPServer subnet) IPv4zero 0 [])) []
    else successfulRequest SelectOrderOrAll h' now p options
                           (default [] (options !! OptionHostName)) lease.
Proof.
  intros serverIP reqIP subnet Hs Hr Hus Hf.
  unfold handleRequest. rewrite requestOperation_cases.
  fold serverIP reqIP. rewrite Hs. cbn zeta. rewrite Hr, Hf.
  fold subnet. rewrite Hus. reflexivity.
Qed.

(** C2 (what the code does): a Selecting REQUEST for this
    server whose lease is Free and carries the MAC of the frame is
    answered with an ACK, although the lease is neither in state
    Discover nor Allocated; the ACK carries the IP stored in the free
    lease and the lease becomes Allocated. *)
Theorem C2_selecting_free_lease_acknowledged (h : Handler) (now : Z)
        (host : option Packet.Host) (p : DHCP4) (options : Options) (senderIP : IP)
        (lease : Lease) (h' : Handler) :
  let serverIP := optionIP options OptionServerIdentifier in
  let reqIP := optionIP options OptionRequestedIPAddress in
  let subnet := if Packet.IsCaptured (session h) (CHAddr p) then net2 h else net1 h in
  Equal serverIP IPv4zero = false ->
  Equal reqIP IPv4zero = false ->
  Equal serverIP (DHCPServer subnet) = true ->
  findOrCreate h (getClientID p options) (CHAddr p) (default [] (options !! OptionHostName))
    = (lease, h') ->
  Lease_State lease = StateFree ->
  bytesEqual (Packet.Addr_MAC (Lease_Addr lease)) (CHAddr p) = true ->
  let o := handleRequest findOrCreate SelectOrderOrAll zeroStage h now host p options senderIP in
  operationOf p options senderIP = selecting
  /\ (exists r, out_reply o = Some r /\ Reply_mt r = ACK
                /\ Reply_yiAddr r = Packet.Addr_IP (Lease_Addr lease))
  /\ (exists l, out_lease o = Some l /\ Lease_State l = StateAllocated
                /\ Packet.Addr_IP (Lease_Addr l) = Packet.Addr_IP (Lease_Addr lease)).
Proof.
  intros serverIP reqIP subnet Hs Hr Hus Hf Hst Hmac o.
  split.
  { rewrite operationOf_cases. fold serverIP. rewrite Hs. reflexivity. }
  subst o.
  rewrite (handleRequest_selecting_for_us h now host p options senderIP lease h'
             Hs Hr Hus Hf).
  unfold selectInvalid. rewrite Hmac, Hst. cbn [negb orb andb State_eqb].
  unfold successfulRequest. cbn [setLeaseName Lease_State State_eqb]. rewrite Hst.
  cbn [State_eqb].
  destruct (options !! OptionHostName); cbn; split; eexists; eauto.
Qed.

(** C3 (as the code has it): a Rebooting or Rebinding REQUEST with a non-zero
    request IP whose lease is Free, in mode SecondaryServer or in mode
    SecondaryServerNice with the MAC captured, starts a forged DECLINE
    towards the home gateway for the same request IP and returns a NAK
    whose ServerIdentifier is the home gateway, [net1.DefaultGW]. *)
Theorem C3_free_lease_decline_and_nak (h : Handler) (now : Z)
        (host : option Packet.Host) (p : DHCP4) (options : Options) (senderIP : IP)
        (lease : Lease) (h' : Handler) :
  operationOf p options senderIP = rebooting
  \/ operationOf p options senderIP = rebinding ->
  Equal (requestIPOf p options senderIP) IPv4zero = false ->
  findOrCreate h (getClientID p options) (CHAddr p) (default [] (options !! OptionHostName))
    = (lease, h') ->
  Lease_State lease = StateFree ->
  attacks h' (Packet.IsCaptured (session h) (CHAddr p)) = true ->
  let o := handleRequest findOrCreate SelectOrderOrAll zeroStage h now host p options senderIP in
  out_effects o =
    [GoForceDecline (getClientID p options) (DefaultGW (net1 h')) (CHAddr p)
                    (requestIPOf p options senderIP) (XId p)]
  /\ out_reply o = Some (ReplyPacket p NAK (DefaultGW (net1 h')) IPv4zero 0 []).
Proof.
  unfold operationOf, requestIPOf, handleRequest.
  destruct (requestOperation _ _ _ _) as [op ip]. cbn [fst snd].
  intros Hop Hip Hf Hst Hatt. rewrite Hip, Hf, Hst, Hatt.
  destruct Hop as [-> | ->]; cbn; auto.
Qed.

End RequestReplies.

(** C2 (instance): [mac1] holds a lease that was freed
    (state Free, no IP) and sends a Selecting REQUEST for this server with
    RequestedIP 192.168.0.50: the answer is an ACK with an empty yiaddr. *)
Lemma C2_selecting_free_lease_acknowledged_witness :
  let o := DHCP4.handleRequest Fixtures.findOrCreate Fixtures.SelectOrderOrAll Packet.StageNormal
             Fixtures.handlerFree1 0 None (Fixtures.requestFrom Fixtures.mac1 [0; 0; 0; 0])
             Fixtures.selectOptions [0; 0; 0; 0] in
  DHCP4.operationOf (Fixtures.requestFrom Fixtures.mac1 [0; 0; 0; 0])
                    Fixtures.selectOptions [0; 0; 0; 0] = DHCP4.selecting
  /\ (exists r, DHCP4.out_reply o = Some r /\ DHCP4.Reply_mt r = DHCP4.ACK
                /\ DHCP4.Reply_yiAddr r = [])
  /\ (exists l, DHCP4.out_lease o = Some l /\ DHCP4.Lease_State l = DHCP4.StateAllocated
                /\ Packet.Addr_IP (DHCP4.Lease_Addr l) = []).
Proof.
  apply (C2_selecting_free_lease_acknowledged Fixtures.findOrCreate Fixtures.SelectOrderOrAll
           Packet.StageNormal Fixtures.handlerFree1 0 None
           (Fixtures.requestFrom Fixtures.mac1 [0; 0; 0; 0]) Fixtures.selectOptions
           [0; 0; 0; 0] Fixtures.freeLease1 Fixtures.handlerFree1);
    vm_compute; reflexivity.
Defined.

(** C3 (counterexample): in scenario S2 the NAK carries the home gateway
    192.168.0.11 as ServerIdentifier, not the DHCPServer address
    192.168.0.129 of the handler's subnets. *)
Lemma C3_nak_server_identifier_is_gateway :
  let p := Fixtures.requestFrom Fixtures.mac2 [0; 0; 0; 0] in
  let o := DHCP4.handleRequest Fixtures.findOrCreate Fixtures.SelectOrderOrAll Packet.StageNormal
             Fixtures.handlerS2 0 None p Fixtures.rebootOptions Net.IPv4bcast in
  DHCP4.operationOf p Fixtures.rebootOptions Net.IPv4bcast = DHCP4.rebooting
  /\ (exists l, DHCP4.out_lease o = Some l /\ DHCP4.Lease_State l = DHCP4.StateFree)
  /\ DHCP4.attacks Fixtures.handlerS2
       (Packet.IsCaptured (DHCP4.session Fixtures.handlerS2) (DHCP4.CHAddr p)) = true
  /\ exists r, DHCP4.out_reply o = Some r /\ DHCP4.Reply_mt r = DHCP4.NAK
               /\ DHCP4.Reply_serverID r = Fixtures.routerIP4
               /\ DHCP4.Reply_serverID r <> DHCP4.DHCPServer (DHCP4.net1 Fixtures.handlerS2)
               /\ DHCP4.Reply_serverID r <> DHCP4.DHCPServer (DHCP4.net2 Fixtures.handlerS2).
Proof.
  vm_compute. repeat split; try (eexists; repeat split; try reflexivity); discriminate.
Qed.

(** C3 (instance): scenario S2. *)
Lemma C3_free_lease_decline_and_nak_witness :
  let p := Fixtures.requestFrom Fixtures.mac2 [0; 0; 0; 0] in
  let o := DHCP4.handleRequest Fixtures.findOrCreate Fixtures.SelectOrderOrAll Packet.StageNormal
             Fixtures.handlerS2 0 None p Fixtures.rebootOptions Net.IPv4bcast in
  DHCP4.out_effects o =
    [DHCP4.GoForceDecline Fixtures.mac2 Fixtures.routerIP4 Fixtures.mac2 Fixtures.reqIP50
                          Fixtures.xid1]
  /\ DHCP4.out_reply o = Some (DHCP4.ReplyPacket p DHCP4.NAK Fixtures.routerIP4 Net.IPv4zero 0 []).
Proof.
  apply (C3_free_lease_decline_and_nak Fixtures.findOrCreate Fixtures.SelectOrderOrAll
           Packet.StageNormal Fixtures.handlerS2 0 None
           (Fixtures.requestFrom Fixtures.mac2 [0; 0; 0; 0]) Fixtures.rebootOptions
           Net.IPv4bcast
           (fst (Fixtures.findOrCreate Fixtures.handlerS2 Fixtures.mac2 Fixtures.mac2 []))
           (snd (Fixtures.findOrCreate Fixtures.handlerS2 Fixtures.mac2 Fixtures.mac2 [])));
    try (left; vm_compute; reflexivity); vm_compute; reflexivity.
Defined.

(** ** The minute pass *)
Section PurgeFacts.
Import Net Packet.

Variable IPv6SolicitedNode : IP -> Addr.

(** With an IPv6 link-local address on the NIC, the probe goroutine
    sends ARP requests only: every IPv6 address is skipped. *)
Lemma probeLoop_with_host_lla (nic : NICInfo) (now : Z) (probe : list Addr) :
  isNil (net_IP (HostLLA nic)) = false ->
  probeLoop IPv6SolicitedNode nic now probe =
    map (fun a => ARPRequest (Addr_IP a))
        (List.filter (fun a => negb (isNil (To4 (Addr_IP a)))) probe).
Proof.
  intros Hlla. induction probe as [| a rest IH]; [reflexivity |].
  cbn [probeLoop List.filter]. rewrite Hlla. cbn [negb].
  destruct (negb (isNil (To4 (Addr_IP a)))); cbn [map]; rewrite IH; reflexivity.
Qed.

(** Without one, the goroutine ends at the first link-local unicast
    IPv6 address: the addresses after it get no probe. *)
Lemma probeLoop_ends_at_link_local (nic : NICInfo) (now : Z) (a : Addr) (rest : list Addr) :
  isNil (net_IP (HostLLA nic)) = true ->
  isNil (To4 (Addr_IP a)) = true ->
  IsLinkLocalUnicast (Addr_IP a) = true ->
  probeLoop IPv6SolicitedNode nic now (a :: rest) =
    [ICMP6SendNeighbourSolicitation
       (mkAddr (Addr_MAC (HostAddr4 nic)) (net_IP (HostLLA nic)) 0)
       (IPv6SolicitedNode (Addr_IP a)) (Addr_IP a)].
Proof.
  intros Hlla H4 Hll. cbn [probeLoop]. rewrite H4, Hlla, Hll. reflexivity.
Qed.

(** The older pass [Handler.purge] checks every host that is online and
    was last seen before the probe cutoff. *)
Lemma Handler_purgeScan_checks_all (probeCutoff offlineCutoff deleteCutoff : Z)
      (table : list Host) (e : Host) :
  In e table ->
  Host_Online e = true ->
  Host_LastSeen e < probeCutoff ->
  In (checkOf e) (hscan_checks (Handler_purgeScan probeCutoff offlineCutoff deleteCutoff table)).
Proof.
  intros Hin Hon Hseen. induction table as [| x rest IH]; [destruct Hin |].
  cbn [Handler_purgeScan].
  destruct Hin as [-> | Hin].
  - rewrite Hon. cbn [negb andb hscan_checks].
    destruct (Z.ltb_spec (Host_LastSeen e) probeCutoff); [| lia].
    left. reflexivity.
  - specialize (IH Hin).
    destruct (negb (Host_Online x) && (Host_LastSeen x <? deleteCutoff));
      cbn [hscan_checks]; [exact IH |].
    destruct (Host_Online x && (Host_LastSeen x <? probeCutoff)); [right |]; exact IH.
Qed.

(** [Handler6.CheckAddr] of package icmp, on a NIC that has an IPv6
    link-local address: a neighbour solicitation for a link-local
    address, a ping for any other. *)
Lemma Handler6_CheckAddr_with_host_lla (nic : NICInfo) (addr : Addr) :
  isNil (net_IP (HostLLA nic)) = false ->
  ICMP.Handler6_CheckAddr IPv6SolicitedNode nic addr =
    let srcAddr := mkAddr (HostMAC nic) (net_IP (HostLLA nic)) 0 in
    if IsLinkLocalUnicast (Addr_IP addr)
    then [ICMP.SendNeighbourSolicitation srcAddr (IPv6SolicitedNode (Addr_IP addr))
            (Addr_IP addr)]
    else [ICMP.Ping srcAddr addr (Second * 2)].
Proof.
  intros Hlla. unfold ICMP.Handler6_CheckAddr. rewrite Hlla. reflexivity.
Qed.

(** C4 (what the code does): three hosts are online and
    were last seen three minutes before the pass, so all three qualify
    for a probe. On a NIC that has an IPv6 link-local address the pass
    sends the ARP request for the IPv4 host and nothing for the two IPv6
    hosts. On a NIC without one, and with the link-local host first in
    the table, the pass sends the neighbour solicitation and nothing
    for the two hosts after it. *)
Theorem C4_purge_skips_qualifying_hosts :
  let now := Minute * 3 in
  snd (purge IPv6SolicitedNode Fixtures.staleSession now)
    = [GoProbe [ARPRequest [192; 168; 0; 200]]]
  /\ snd (purgeOn IPv6SolicitedNode
             [Fixtures.hostLLA2; Fixtures.host200; Fixtures.hostGUA1]
             Fixtures.staleSession4 now)
     = [GoProbe [ICMP6SendNeighbourSolicitation
                   (mkAddr Fixtures.hostMAC [] 0)
                   (IPv6SolicitedNode Fixtures.ip6LLA2) Fixtures.ip6LLA2]].
Proof.
  split; vm_compute; reflexivity.
Qed.

End PurgeFacts.

(** ** Session construction *)
Section NewSessionFacts.
Import Net Packet.

Lemma NewSession_checks (now seen : Z) (config : Config) :
  (invalidDeadlines config /\ exists e, NewSession now seen config = SessionErr e
                                       /\ errorIs e ErrInvalidParam = true)
  \/ (~ invalidDeadlines config
      /\ NewSession now seen config =
         match createHostEntry now seen (blankSession config) with
         | None => SessionPanic
         | Some session =>
             match createRouterEntry seen session with
             | None => SessionPanic
             | Some session => SessionOk session [GoMonitorNIC; GoMinuteLoop]
             end
         end).
Proof.
  unfold NewSession, invalidDeadlines, blankSession. cbn [ProbeDeadline OfflineDeadline PurgeDeadline Session_NICInfo HostTable MACTable].
  destruct (Z.ltb_spec (Config_ProbeDeadline config) 0);
    [left; split; [lia | eexists; split; reflexivity] |].
  destruct (Z.ltb_spec (Minute * 30) (Config_ProbeDeadline config));
    [left; split; [lia | eexists; split; reflexivity] |].
  cbn [orb].
  destruct (Z.ltb_spec (Config_OfflineDeadline config) 0);
    [left; split; [lia | eexists; split; reflexivity] |].
  destruct (Z.ltb_spec (Minute * 60) (Config_OfflineDeadline config));
    [left; split; [lia | eexists; split; reflexivity] |].
  destruct (Z.ltb_spec (Config_OfflineDeadline config) (Config_ProbeDeadline config));
    [left; split; [lia | eexists; split; reflexivity] |].
  cbn [orb].
  destruct (Z.ltb_spec (Config_PurgeDeadline config) 0);
    [left; split; [lia | eexists; split; reflexivity] |].
  destruct (Z.ltb_spec (Hour * 24) (Config_PurgeDeadline config));
    [left; split; [lia | eexists; split; reflexivity] |].
  cbn [orb]. right. split; [lia | reflexivity].
Qed.

Lemma updHost_hit (f : Host -> Host) (ip : IP) (s : Session) (host : Host) :
  HostTable s !! ip = Some host ->
  updHost f ip s = setHostTable (<[ip := f host]> (HostTable s)) s.
Proof. intros H. unfold updHost. rewrite H. reflexivity. Qed.

Lemma updHostMACEntry_hit (f : MACEntry -> MACEntry) (ip : IP) (s : Session)
      (host : Host) (e : MACEntry) :
  HostTable s !! ip = Some host ->
  MACTable s !! Addr_MAC (Host_Addr host) = Some e ->
  updHostMACEntry f ip s =
    setMACTable (<[Addr_MAC (Host_Addr host) := f e]> (MACTable s)) s.
Proof. intros H He. unfold updHostMACEntry. rewrite H, He. reflexivity. Qed.

Ltac session_step :=
  unfold setHostTable, setMACTable;
  cbn [HostTable MACTable Session_NICInfo ProbeDeadline OfflineDeadline PurgeDeadline];
  rewrite ?insert_insert_eq.

Ltac host_hit := session_step; apply lookup_insert_eq.

Lemma findOrCreateHostWithLock_fresh (seen : Z) (s : Session) (addr : Addr) :
  HostTable s !! Addr_IP addr = None ->
  IsUnspecified (Addr_IP addr) = false ->
  findOrCreateHostWithLock seen s addr =
    (setHostTable (<[Addr_IP addr := newHost seen addr]> (HostTable s))
       (setMACTable
          (<[Addr_MAC addr :=
               let e := default (newMACEntry (Addr_MAC addr)) (MACTable s !! Addr_MAC addr) in
               setHostList (MACEntry_HostList e ++ [Addr_IP addr]) e]> (MACTable s)) s),
     Some (Addr_IP addr)).
Proof.
  intros Hnone Hspec. unfold findOrCreateHostWithLock, MACTable_findOrCreate, findMAC.
  rewrite Hnone, Hspec.
  destruct (MACTable s !! Addr_MAC addr) as [e |] eqn:He; cbn [default].
  - reflexivity.
  - rewrite insert_insert_eq. reflexivity.
Qed.

Lemma findOrCreateHostWithLock_unspecified (seen : Z) (s : Session) (addr : Addr) :
  HostTable s !! Addr_IP addr = None ->
  IsUnspecified (Addr_IP addr) = true ->
  snd (findOrCreateHostWithLock seen s addr) = None.
Proof.
  intros Hnone Hspec. unfold findOrCreateHostWithLock, MACTable_findOrCreate, findMAC.
  rewrite Hnone, Hspec.
  destruct (MACTable s !! Addr_MAC addr); reflexivity.
Qed.

(** A host that is online and was seen after the probe and offline
    cutoffs adds nothing to the three lists of the pass. *)
Lemma purgeScan_skips_fresh_host (probeCutoff offlineCutoff deleteCutoff : Z)
      (e : Host) (l1 l2 : list Host) :
  Host_Online e = true ->
  probeCutoff <= Host_LastSeen e ->
  offlineCutoff <= Host_LastSeen e ->
  purgeScan probeCutoff offlineCutoff deleteCutoff (l1 ++ e :: l2) =
  purgeScan probeCutoff offlineCutoff deleteCutoff (l1 ++ l2).
Proof.
  intros Hon Hp Ho. induction l1 as [| x l1 IH]; cbn [app purgeScan].
  - rewrite Hon. cbn [negb andb].
    destruct (Z.ltb_spec (Host_LastSeen e) probeCutoff); [lia |].
    destruct (Z.ltb_spec (Host_LastSeen e) offlineCutoff); [lia |].
    destruct (purgeScan probeCutoff offlineCutoff deleteCutoff l2); reflexivity.
  - rewrite IH. reflexivity.
Qed.

Lemma createHostEntry_blank (now seen : Z) (config : Config) :
  createHostEntry now seen (blankSession config) =
    if IsUnspecified (Addr_IP (HostAddr4 (Config_NICInfo config)))
    then None else Some (pinnedSession now seen config).
Proof.
  unfold createHostEntry, blankSession. cbn [Session_NICInfo].
  destruct (IsUnspecified (Addr_IP (HostAddr4 (Config_NICInfo config)))) eqn:Hu.
  - pose proof (findOrCreateHostWithLock_unspecified seen (blankSession config)
                  (HostAddr4 (Config_NICInfo config)) (lookup_empty _) Hu) as Hn.
    unfold blankSession in Hn.
    destruct (findOrCreateHostWithLock _ _ _) as [? [?|]]; cbn in Hn; congruence.
  - pose proof (findOrCreateHostWithLock_fresh seen (blankSession config) _
                  (lookup_empty _) Hu) as Hf.
    unfold blankSession in Hf. rewrite Hf. clear Hf. cbv zeta.
    erewrite (updHost_hit (setLastSeen _)) by host_hit. session_step.
    erewrite (updHost_hit (setOnline true)) by host_hit. session_step.
    erewrite (updHostMACEntry_hit (setMACOnline true)); [| host_hit | host_hit].
    session_step. rewrite lookup_empty. reflexivity.
Qed.

Lemma createRouterEntry_pinned (now seen : Z) (config : Config) (s : Session) :
  let hostAddr := HostAddr4 (Config_NICInfo config) in
  let routerAddr := RouterAddr4 (Config_NICInfo config) in
  Addr_IP hostAddr <> Addr_IP routerAddr ->
  createRouterEntry seen (pinnedSession now seen config) = Some s ->
  ProbeDeadline s = Config_ProbeDeadline config
  /\ OfflineDeadline s = Config_OfflineDeadline config
  /\ PurgeDeadline s = Config_PurgeDeadline config
  /\ HostTable s !! Addr_IP hostAddr =
       Some (mkHost (mkAddr (Addr_MAC hostAddr) (Addr_IP hostAddr) 0) true
                    (now + Hour * 24 * 365) StageNormal false)
  /\ HostTable s !! Addr_IP routerAddr =
       Some (mkHost (mkAddr (Addr_MAC routerAddr) (Addr_IP routerAddr) 0) true
                    seen StageNormal false)
  /\ (exists e, MACTable s !! Addr_MAC hostAddr = Some e /\ MACEntry_Online e = true)
  /\ (exists e, MACTable s !! Addr_MAC routerAddr = Some e /\ MACEntry_Online e = true
                /\ MACEntry_IsRouter e = true).
Proof.
  intros hostAddr routerAddr Hne. unfold createRouterEntry.
  assert (Hnone : HostTable (pinnedSession now seen config) !! Addr_IP routerAddr = None).
  { unfold pinnedSession. cbn [HostTable]. rewrite lookup_insert_ne by exact Hne.
    apply lookup_empty. }
  change (Session_NICInfo (pinnedSession now seen config)) with (Config_NICInfo config).
  fold routerAddr.
  destruct (IsUnspecified (Addr_IP routerAddr)) eqn:Hu.
  { pose proof (findOrCreateHostWithLock_unspecified seen _ routerAddr Hnone Hu) as Hn.
    destruct (findOrCreateHostWithLock _ _ _) as [? [?|]]; cbn [snd] in Hn;
      [discriminate Hn | intros; discriminate]. }
  rewrite (findOrCreateHostWithLock_fresh seen _ routerAddr Hnone Hu).
  unfold pinnedSession. fold hostAddr. cbv zeta. session_step.
  erewrite (updHostMACEntry_hit (setIsRouter true)); [| host_hit | host_hit].
  session_step.
  erewrite (updHost_hit (setOnline true)) by host_hit. session_step.
  erewrite (updHostMACEntry_hit (setMACOnline true)); [| host_hit | host_hit].
  session_step.
  cbn [newHost Host_Addr Addr_MAC Addr_IP setOnline Host_Online Host_LastSeen
       Host_HuntStage Host_dirty].
  intros [= <-]. cbn [HostTable MACTable ProbeDeadline OfflineDeadline PurgeDeadline].
  repeat split.
  - rewrite lookup_insert_ne by (intros E; apply Hne; symmetry; exact E).
    apply lookup_insert_eq.
  - apply lookup_insert_eq.
  - destruct (decide (Addr_MAC routerAddr = Addr_MAC hostAddr)) as [Heq | Hmac].
    + rewrite Heq, lookup_insert_eq. eexists; split; reflexivity.
    + rewrite lookup_insert_ne by exact Hmac. rewrite lookup_insert_eq.
      eexists; split; reflexivity.
  - rewrite lookup_insert_eq. eexists; repeat split; reflexivity.
Qed.

(** C5 (as the code has it): after a successful [NewSession] on a NIC whose
    own IPv4 address differs from the gateway's, both host records
    exist, are online and have an online MAC entry. Only the record of
    the interface's own address is pinned with LastSeen one year after
    the start: a minute pass that runs no later than that leaves it
    out of its probe, offline and purge lists. The gateway record has
    the router flag on its MAC entry and keeps the LastSeen that its
    creation gave it. *)
Theorem C5_host_record_pinned (now seen : Z) (config : Config) (s : Session)
        (started : list Goroutine) :
  let hostIP := Addr_IP (HostAddr4 (Config_NICInfo config)) in
  let routerIP := Addr_IP (RouterAddr4 (Config_NICInfo config)) in
  NewSession now seen config = SessionOk s started ->
  hostIP <> routerIP ->
  (exists host e,
      HostTable s !! hostIP = Some host
      /\ Host_Online host = true
      /\ Host_LastSeen host = now + Hour * 24 * 365
      /\ MACTable s !! Addr_MAC (Host_Addr host) = Some e
      /\ MACEntry_Online e = true
      /\ forall now' l1 l2,
          now' <= now + Hour * 24 * 365 ->
          purgeScan (now' + ProbeDeadline s * -1) (now' + OfflineDeadline s * -1)
                    (now' + PurgeDeadline s * -1) (l1 ++ host :: l2)
          = purgeScan (now' + ProbeDeadline s * -1) (now' + OfflineDeadline s * -1)
                      (now' + PurgeDeadline s * -1) (l1 ++ l2))
  /\ (exists router e,
        HostTable s !! routerIP = Some router
        /\ Host_Online router = true
        /\ Host_LastSeen router = seen
        /\ MACTable s !! Addr_MAC (Host_Addr router) = Some e
        /\ MACEntry_Online e = true
        /\ MACEntry_IsRouter e = true).
Proof.
  intros hostIP routerIP Hok Hne.
  destruct (NewSession_checks now seen config) as [(_ & e & He & _) | (Hvalid & Heq)];
    [congruence |].
  rewrite Heq, createHostEntry_blank in Hok. clear Heq.
  destruct (IsUnspecified _); [discriminate |].
  destruct (createRouterEntry seen (pinnedSession now seen config)) as [s' |] eqn:Hr;
    [| discriminate].
  injection Hok as -> _.
  destruct (createRouterEntry_pinned now seen config s Hne Hr)
    as (Hp & Ho & Hg & Hh & Hrt & (eh & Heh & Hon) & (er & Her & Hron & Hrr)).
  split.
  - eexists _, eh. split; [exact Hh |].
    cbn [Host_Online Host_LastSeen Host_Addr Addr_MAC].
    repeat split; try assumption.
    intros now' l1 l2 Hnow. apply purgeScan_skips_fresh_host; cbn [Host_Online Host_LastSeen].
    + reflexivity.
    + unfold invalidDeadlines in Hvalid. lia.
    + unfold invalidDeadlines in Hvalid. lia.
  - eexists _, er. split; [exact Hrt |].
    cbn [Host_Online Host_LastSeen Host_Addr Addr_MAC].
    repeat split; assumption.
Qed.

(** C7 (as the code has it): [NewSession] returns an error exactly when the
    probe deadline is negative or above 30 minutes, or the offline
    deadline is negative, above 60 minutes or below the probe deadline,
    or the purge deadline is negative or above 24 hours; every such
    error wraps [ErrInvalidParam]. A configuration that meets the
    constraints of the specification is never rejected. *)
Theorem C7_new_session_deadline_checks (now seen : Z) (config : Config) :
  ((exists e, NewSession now seen config = SessionErr e) <-> invalidDeadlines config)
  /\ (forall e, NewSession now seen config = SessionErr e ->
                errorIs e ErrInvalidParam = true)
  /\ (Spec.deadlinesValid config -> ~ invalidDeadlines config).
Proof.
  destruct (NewSession_checks now seen config) as [(Hinv & e & He & Hw) | (Hvalid & Heq)].
  - repeat split.
    + intros _. exact Hinv.
    + intros _. exists e. exact He.
    + intros e' He'. congruence.
    + unfold Spec.deadlinesValid, invalidDeadlines. lia.
  - assert (Hno : forall e, NewSession now seen config <> SessionErr e).
    { intros e. rewrite Heq.
      destruct (createHostEntry now seen (blankSession config)) as [s1 |];
        [| discriminate].
      destruct (createRouterEntry seen s1); discriminate. }
    repeat split.
    + intros [e He]. destruct (Hno e He).
    + intros Hinv. contradiction.
    + intros e He. destruct (Hno e He).
    + unfold Spec.deadlinesValid, invalidDeadlines. lia.
Qed.

End NewSessionFacts.

(** C5 (counterexample): with the default deadlines, host 192.168.0.129
    and gateway 192.168.0.11, the gateway record keeps the LastSeen of
    its creation, and the minute pass six minutes later lists it as
    offline. *)
Lemma C5_router_record_not_pinned :
  exists s started router,
    Packet.NewSession 0 0 Fixtures.defaultConfig = Packet.SessionOk s started
    /\ Packet.HostTable s !! Fixtures.routerIP4 = Some router
    /\ Packet.Host_LastSeen router <> 0 + Packet.Hour * 24 * 365
    /\ In Fixtures.routerIP4
         (Packet.scan_offline
            (Packet.purgeScan (Packet.Minute * 6 + Packet.ProbeDeadline s * -1)
                              (Packet.Minute * 6 + Packet.OfflineDeadline s * -1)
                              (Packet.Minute * 6 + Packet.PurgeDeadline s * -1)
                              (Packet.GetHosts s))).
Proof.
  eexists _, _, _. split; [vm_compute; reflexivity |].
  split; [vm_compute; reflexivity |].
  split; [vm_compute; discriminate |].
  vm_compute. auto.
Qed.

(** C5 (instance): the default configuration of the test setup. *)
Lemma C5_host_record_pinned_witness :
  exists s started,
    Packet.NewSession 0 0 Fixtures.defaultConfig = Packet.SessionOk s started
    /\ (exists host e,
          Packet.HostTable s !! Fixtures.hostIP4 = Some host
          /\ Packet.Host_Online host = true
          /\ Packet.Host_LastSeen host = 0 + Packet.Hour * 24 * 365
          /\ Packet.MACTable s !! Packet.Addr_MAC (Packet.Host_Addr host) = Some e
          /\ Packet.MACEntry_Online e = true
          /\ forall now' l1 l2,
              now' <= 0 + Packet.Hour * 24 * 365 ->
              Packet.purgeScan (now' + Packet.ProbeDeadline s * -1)
                               (now' + Packet.OfflineDeadline s * -1)
                               (now' + Packet.PurgeDeadline s * -1) (l1 ++ host :: l2)
              = Packet.purgeScan (now' + Packet.ProbeDeadline s * -1)
                                 (now' + Packet.OfflineDeadline s * -1)
                                 (now' + Packet.PurgeDeadline s * -1) (l1 ++ l2)).
Proof.
  eexists _, _. split; [vm_compute; reflexivity |].
  eapply (C5_host_record_pinned 0 0 Fixtures.defaultConfig).
  - vm_compute. reflexivity.
  - discriminate.
Defined.

(** C7 (counterexample): a probe deadline of zero and a purge deadline
    of one minute below an offline deadline of five minutes break the
    constraints of the specification, and the session is created. *)
Lemma C7_zero_probe_and_short_purge_accepted :
  let config := Packet.mkConfig Fixtures.nicInfo 0 (Packet.Minute * 5) (Packet.Minute * 1) in
  ~ Spec.deadlinesValid config
  /\ exists s started, Packet.NewSession 0 0 config = Packet.SessionOk s started.
Proof.
  split.
  - unfold Spec.deadlinesValid. cbn. lia.
  - eexists _, _. vm_compute. reflexivity.
Qed.

(** ** Capture *)
Section CaptureFacts.
Import Net Packet.

Lemma setMACTable_same (h : Session) : setMACTable (MACTable h) h = h.
Proof. destruct h; reflexivity. Qed.

(** C10: [Session.Capture] on a MAC whose entry is already captured
    returns nil and leaves the session as it was, whatever the router
    flag of the entry; it returns [ErrIsRouter] exactly when the entry
    exists, is not captured and has the router flag; it returns no other
    error; and whenever it returns nil the entry of the MAC is captured
    afterwards. *)
Theorem C10_capture_results (h : Session) (mac : HardwareAddr) :
  (forall e, findMAC (MACTable h) mac = Some e -> MACEntry_Captured e = true ->
             Capture h mac = (h, None))
  /\ (snd (Capture h mac) = Some ErrIsRouter <->
      exists e, findMAC (MACTable h) mac = Some e
                /\ MACEntry_Captured e = false /\ MACEntry_IsRouter e = true)
  /\ (forall err, snd (Capture h mac) = Some err -> err = ErrIsRouter)
  /\ (snd (Capture h mac) = None ->
      exists e, findMAC (MACTable (fst (Capture h mac))) mac = Some e
                /\ MACEntry_Captured e = true).
Proof.
  unfold Capture, MACTable_findOrCreate, findMAC.
  destruct (MACTable h !! mac) as [e |] eqn:He.
  - destruct (MACEntry_Captured e) eqn:Hc; [| destruct (MACEntry_IsRouter e) eqn:Hr];
      cbn [fst snd]; repeat split.
    + intros e' [= <-] _. rewrite setMACTable_same. reflexivity.
    + discriminate.
    + intros (e' & [= <-] & Hc' & _). congruence.
    + discriminate.
    + intros _. exists e. rewrite setMACTable_same. auto.
    + intros e' [= <-] Hc'. congruence.
    + intros _. exists e. auto.
    + intros err [= <-]. reflexivity.
    + discriminate.
    + intros e' [= <-] Hc'. congruence.
    + discriminate.
    + intros (e' & [= <-] & _ & Hr'). congruence.
    + discriminate.
    + intros _. eexists. cbn [setMACTable MACTable]. rewrite lookup_insert_eq.
      split; reflexivity.
  - cbn [newMACEntry MACEntry_Captured MACEntry_IsRouter fst snd]. repeat split.
    + discriminate.
    + discriminate.
    + intros (e' & He' & _). discriminate.
    + discriminate.
    + intros _. eexists. cbn [setMACTable MACTable].
      rewrite insert_insert_eq, lookup_insert_eq. split; reflexivity.
Qed.

End CaptureFacts.

(** ** Reply transport *)
Section TransportFacts.
Import Net DHCP4.

Variables St Resp HostRef : Type.
Variable handleDiscover : St -> DHCP4 -> Options -> St * Result * option Resp.
Variable handleRequest3 :
  St -> option HostRef -> DHCP4 -> Options -> IP -> St * option HostRef * Result * option Resp.
Variable handleDecline : St -> DHCP4 -> Options -> St * option Resp.
Variable handleRelease : St -> DHCP4 -> Options -> St * option Resp.
Variable processClientPacket : St -> option HostRef -> DHCP4 -> St * option Packet.error.
Variable sendDHCP4Packet : Packet.Addr -> Packet.Addr -> Resp -> option Packet.error.
Variable zeroResult3 : Result.
Variable HostMAC : HardwareAddr.
Variable HostIP4 : IPNet.


End TransportFacts.


(** ** The two ICMPv6 senders *)
Section SendFacts.
Import Net ICMP.

Variable Checksum : bytes -> Z.

(** C8 (as the code has it): for a link-local unicast or multicast destination
    [Handler6.sendPacket] of package icmp uses hop limit 255 and
    [ICMP6Handler.sendPacket] of package icmp6 uses hop limit 1; for
    every other destination both use 64. The two frames agree on the
    EtherType, the destination MAC, the IPv6 source and destination,
    the next header, the payload and its checksum. They differ in the
    Ethernet source, the host MAC in package icmp and the MAC of the
    source address in package icmp6, and in the address given to the
    write, the whole destination address in package icmp and its MAC
    alone in package icmp6. So the frames are equal when the
    destination is not link-local and the source MAC is the host MAC. *)
Theorem C8_send_packet_differences (nic : Packet.NICInfo)
        (srcAddr dstAddr : Packet.Addr) (b : bytes) :
  let w := Handler6_sendPacket Checksum nic srcAddr dstAddr b in
  let w6 := ICMP6Handler_sendPacket Checksum srcAddr dstAddr b in
  let linkLocal := IsLinkLocalUnicast (Packet.Addr_IP dstAddr)
                   || IsLinkLocalMulticast (Packet.Addr_IP dstAddr) in
  IP6_HopLimit (Ether_Payload (Write_frame w)) = (if linkLocal then 255 else 64)
  /\ IP6_HopLimit (Ether_Payload (Write_frame w6)) = (if linkLocal then 1 else 64)
  /\ Ether_EtherType (Write_frame w) = Ether_EtherType (Write_frame w6)
  /\ Ether_Dst (Write_frame w) = Ether_Dst (Write_frame w6)
  /\ IP6_Src (Ether_Payload (Write_frame w)) = IP6_Src (Ether_Payload (Write_frame w6))
  /\ IP6_Dst (Ether_Payload (Write_frame w)) = IP6_Dst (Ether_Payload (Write_frame w6))
  /\ IP6_NextHeader (Ether_Payload (Write_frame w))
     = IP6_NextHeader (Ether_Payload (Write_frame w6))
  /\ IP6_Payload (Ether_Payload (Write_frame w))
     = IP6_Payload (Ether_Payload (Write_frame w6))
  /\ Ether_Src (Write_frame w) = Packet.HostMAC nic
  /\ Ether_Src (Write_frame w6) = Packet.Addr_MAC srcAddr
  /\ Write_to w = dstAddr
  /\ Write_to w6 = Packet.mkAddr (Packet.Addr_MAC dstAddr) [] 0
  /\ (linkLocal = false -> Packet.Addr_MAC srcAddr = Packet.HostMAC nic ->
      Write_frame w = Write_frame w6).
Proof.
  intros w w6 linkLocal. subst w w6.
  unfold Handler6_sendPacket, ICMP6Handler_sendPacket. cbv zeta.
  cbn [Write_frame Write_to Ether_Payload Ether_EtherType Ether_Src Ether_Dst
       IP6_HopLimit IP6_Src IP6_Dst IP6_NextHeader IP6_Payload].
  fold linkLocal.
  repeat split.
  intros Hll Hmac. rewrite Hll, Hmac. reflexivity.
Qed.

End SendFacts.

(** C8 (counterexample): an echo request to the global address 2001::1
    from a source address whose MAC is not the host MAC. Both senders
    use hop limit 64, and the two frames differ in the Ethernet source. *)
Lemma C8_frames_differ_in_ethernet_source :
  let w := ICMP.Handler6_sendPacket Fixtures.byteSum Fixtures.nicInfo Fixtures.spoofedSrc
             Fixtures.globalDst Fixtures.echoBody in
  let w6 := ICMP.ICMP6Handler_sendPacket Fixtures.byteSum Fixtures.spoofedSrc
              Fixtures.globalDst Fixtures.echoBody in
  Net.IsLinkLocalUnicast (Packet.Addr_IP Fixtures.globalDst)
    || Net.IsLinkLocalMulticast (Packet.Addr_IP Fixtures.globalDst) = false
  /\ ICMP.IP6_HopLimit (ICMP.Ether_Payload (ICMP.Write_frame w)) = 64
  /\ ICMP.IP6_HopLimit (ICMP.Ether_Payload (ICMP.Write_frame w6)) = 64
  /\ ICMP.Ether_Src (ICMP.Write_frame w) = Fixtures.hostMAC
  /\ ICMP.Ether_Src (ICMP.Write_frame w6) = Fixtures.mac1
  /\ ICMP.Write_frame w <> ICMP.Write_frame w6.
Proof.
  vm_compute. repeat split. discriminate.
Qed.

(** Hop limits for the link-local destination fe80::2: 255 in package
    icmp, 1 in package icmp6. *)
Example sendPacket_link_local_hop_limits :
  ICMP.IP6_HopLimit
    (ICMP.Ether_Payload
       (ICMP.Write_frame
          (ICMP.Handler6_sendPacket Fixtures.byteSum Fixtures.nicInfo Fixtures.hostSrc
             Fixtures.linkLocalDst Fixtures.echoBody))) = 255
  /\ ICMP.IP6_HopLimit
       (ICMP.Ether_Payload
          (ICMP.Write_frame
             (ICMP.ICMP6Handler_sendPacket Fixtures.byteSum Fixtures.hostSrc
                Fixtures.linkLocalDst Fixtures.echoBody))) = 1.
Proof. split; reflexivity. Qed.

(** C8 (instance): an echo request to the global address 2001::1 from
    the host's own MAC gives the same frame in both packages. *)
Lemma C8_send_packet_differences_witness :
  ICMP.Write_frame
    (ICMP.Handler6_sendPacket Fixtures.byteSum Fixtures.nicInfo Fixtures.hostSrc
       Fixtures.globalDst Fixtures.echoBody)
  = ICMP.Write_frame
      (ICMP.ICMP6Handler_sendPacket Fixtures.byteSum Fixtures.hostSrc
         Fixtures.globalDst Fixtures.echoBody).
Proof.
  apply (C8_send_packet_differences Fixtures.byteSum Fixtures.nicInfo Fixtures.hostSrc
           Fixtures.globalDst Fixtures.echoBody); reflexivity.
Defined.

(** C10 (instance): capturing the router MAC when its entry is already
    captured returns nil and changes nothing. *)
Lemma C10_capture_results_witness :
  Packet.Capture Fixtures.capturedRouterSession Fixtures.routerMAC
  = (Fixtures.capturedRouterSession, None).
Proof.
  apply (proj1 (C10_capture_results Fixtures.capturedRouterSession Fixtures.routerMAC)
           (Packet.mkMACEntry Fixtures.routerMAC true true true [] [] []));
    reflexivity.
Defined.

(** C7 (instance): the default deadlines meet the constraints of the
    specification and pass the checks. *)
Lemma C7_new_session_deadline_checks_witness :
  ~ Packet.invalidDeadlines Fixtures.defaultConfig.
Proof.
  apply (C7_new_session_deadline_checks 0 0 Fixtures.defaultConfig).
  unfold Spec.deadlinesValid, Fixtures.defaultConfig, Packet.DefaultProbeDeadline,
    Packet.DefaultOfflineDeadline, Packet.DefaultPurgeDeadline, Packet.Hour, Packet.Minute,
    Packet.Second.
  cbn [Packet.Config_ProbeDeadline Packet.Config_OfflineDeadline Packet.Config_PurgeDeadline].
  lia.
Defined.

(** C1 (instance): the Selecting request of scenario S1, with
    ServerIdentifier 192.168.0.129, RequestedIP 192.168.0.50, a zero
    CIAddr and a zero sender, matches the Selecting row. *)
Lemma C1_operation_classification_witness :
  DHCP4.operationOf (Fixtures.requestFrom Fixtures.mac1 [0; 0; 0; 0]) Fixtures.selectOptions
                    [0; 0; 0; 0] = DHCP4.selecting.
Proof.
  apply (C1_operation_classification (Fixtures.requestFrom Fixtures.mac1 [0; 0; 0; 0])
           Fixtures.selectOptions [0; 0; 0; 0]).
  unfold Spec.tableRow, Spec.isSet, Spec.isZero. repeat split; vm_compute; reflexivity.
Defined.

(** ** More on [handleRequest]: what a reply implies *)
Section RequestOutcomes.
Import Net DHCP4 Outcomes.

Variable findOrCreate : Handler -> bytes -> HardwareAddr -> bytes -> Lease * Handler.
Variable SelectOrderOrAll : Options -> list Z -> list (Z * list Z).
Variable zeroStage : Packet.HuntStage.

Lemma successfulRequest_committed (h : Handler) (now : Z) (p : DHCP4) (options : Options)
      (name : bytes) (lease : Lease) :
  let o := successfulRequest SelectOrderOrAll h now p options name lease in
  exists r, out_reply o = Some r /\ Reply_mt r = ACK /\ Reply_req r = p /\ committed now o r.
Proof.
  unfold successfulRequest, committed.
  destruct (options !! OptionHostName) as [tmp |];
    destruct (State_eqb (Lease_State (setLeaseName name lease)) StateDiscover);
    cbn; eexists; repeat split; eexists; repeat split.
Qed.

(** X1: every reply of [handleRequest] answers the frame with an ACK or
    a NAK. An ACK comes with the lease Allocated, expiring one lease
    duration after now, with its counter reset and the table saved; a
    NAK has no address, no duration and no options and nothing is
    saved. Without a reply nothing is started or saved. *)
Theorem handleRequest_reply_shape (h : Handler) (now : Z) (host : option Packet.Host)
        (p : DHCP4) (options : Options) (senderIP : IP) :
  let o := handleRequest findOrCreate SelectOrderOrAll zeroStage h now host p options senderIP in
  match out_reply o with
  | Some r =>
      Reply_req r = p
      /\ ((Reply_mt r = ACK /\ committed now o r) \/ (Reply_mt r = NAK /\ refused o r))
  | None => out_effects o = []
  end.
Proof.
  intros o. subst o. unfold handleRequest.
  destruct (requestOperation _ _ _ _) as [op reqIP].
  destruct (Equal reqIP IPv4zero); [reflexivity |].
  destruct (findOrCreate _ _ _ _) as [lease h'].
  assert (Hok : forall name,
             match out_reply (successfulRequest SelectOrderOrAll h' now p options name lease) with
             | Some r =>
                 Reply_req r = p
                 /\ ((Reply_mt r = ACK
                      /\ committed now
                           (successfulRequest SelectOrderOrAll h' now p options name lease) r)
                     \/ (Reply_mt r = NAK
                         /\ refused
                              (successfulRequest SelectOrderOrAll h' now p options name lease) r))
             | None =>
                 out_effects (successfulRequest SelectOrderOrAll h' now p options name lease) = []
             end).
  { intros name.
    destruct (successfulRequest_committed h' now p options name lease) as (r & -> & Hmt & Hp & Hc).
    split; [exact Hp | left; split; assumption]. }
  assert (Hnak : forall (res : Result) (l : Lease) (sid : IP) (eff : list Effect),
             (forall fname, ~ In (SaveConfig fname) eff) ->
             let o := mkOutcome h' (Some l) res (Some (ReplyPacket p NAK sid IPv4zero 0 [])) eff in
             match out_reply o with
             | Some r =>
                 Reply_req r = p
                 /\ ((Reply_mt r = ACK /\ committed now o r) \/ (Reply_mt r = NAK /\ refused o r))
             | None => out_effects o = []
             end).
  { intros res l sid eff Heff. cbn. split; [reflexivity |]. right.
    split; [reflexivity |]. repeat split. exact Heff. }
  assert (Hnone : forall fname, ~ In (SaveConfig fname) (@nil Effect)) by (intros fname []).
  assert (Hone : forall fname a b c d e,
             ~ In (SaveConfig fname) [GoForceDecline a b c d e]).
  { intros fname a b c d e [H | []]. discriminate H. }
  destruct op.
  - (* rebinding *)
    destruct (State_eqb (Lease_State lease) StateFree && _); [apply Hnak; intros fname; apply Hone |].
    destruct (negb _ || _ || _ || _); [| apply Hok].
    apply Hnak. destruct (attacks h' _); intros fname; [apply Hone | apply Hnone].
  - (* selecting *)
    destruct (negb (Equal _ _)).
    + destruct (attacks h' _); [apply Hnak; intros fname; apply Hnone | reflexivity].
    + destruct (negb _ || _ || _); [apply Hnak; intros fname; apply Hnone | apply Hok].
  - (* renewing *)
    destruct (negb _ || _ || _ || _); [apply Hnak; intros fname; apply Hnone | apply Hok].
  - (* rebooting *)
    destruct (State_eqb (Lease_State lease) StateFree && _); [apply Hnak; intros fname; apply Hone |].
    destruct (negb _ || _ || _ || _); [| apply Hok].
    apply Hnak. destruct (attacks h' _); intros fname; [apply Hone | apply Hnone].
Qed.

(** X2: the only thing [handleRequest] starts besides saving the table
    is one forged DECLINE, always towards the home gateway and for the
    request IP of the frame; it does so only for a Rebooting or
    Rebinding REQUEST, only when the mode attacks the client, and only
    together with a NAK. *)
Theorem handleRequest_effects (h : Handler) (now : Z) (host : option Packet.Host)
        (p : DHCP4) (options : Options) (senderIP : IP) :
  let o := handleRequest findOrCreate SelectOrderOrAll zeroStage h now host p options senderIP in
  let h' := out_handler o in
  out_effects o = []
  \/ out_effects o = [SaveConfig (filename h')]
  \/ (out_effects o =
        [GoForceDecline (getClientID p options) (DefaultGW (net1 h')) (CHAddr p)
                        (requestIPOf p options senderIP) (XId p)]
      /\ (operationOf p options senderIP = rebooting
          \/ operationOf p options senderIP = rebinding)
      /\ attacks h' (Packet.IsCaptured (session h) (CHAddr p)) = true
      /\ exists r, out_reply o = Some r /\ Reply_mt r = NAK).
Proof.
  intros o h'. subst o h'. unfold handleRequest, operationOf, requestIPOf.
  destruct (requestOperation _ _ _ _) as [op reqIP]. cbn [fst snd].
  destruct (Equal reqIP IPv4zero); [left; reflexivity |].
  destruct (findOrCreate _ _ _ _) as [lease h'].
  assert (Hok : forall name,
             out_effects (successfulRequest SelectOrderOrAll h' now p options name lease)
             = [SaveConfig
                  (filename
                     (out_handler
                        (successfulRequest SelectOrderOrAll h' now p options name lease)))])
    by reflexivity.
  destruct op.
  - destruct (State_eqb (Lease_State lease) StateFree) eqn:Hst;
      destruct (attacks h' _) eqn:Hatt; cbn [andb].
    + right; right. cbn. repeat split; eauto.
    + destruct (negb _ || _ || _ || _); [left; reflexivity | right; left; apply Hok].
    + destruct (negb _ || _ || _ || _); [| right; left; apply Hok].
      right; right. cbn. repeat split; eauto.
    + destruct (negb _ || _ || _ || _); [left; reflexivity | right; left; apply Hok].
  - destruct (negb (Equal _ _)).
    + destruct (attacks h' _); left; reflexivity.
    + destruct (negb _ || _ || _); [left; reflexivity | right; left; apply Hok].
  - destruct (negb _ || _ || _ || _); [left; reflexivity | right; left; apply Hok].
  - destruct (State_eqb (Lease_State lease) StateFree) eqn:Hst;
      destruct (attacks h' _) eqn:Hatt; cbn [andb].
    + right; right. cbn. repeat split; eauto.
    + destruct (negb _ || _ || _ || _); [left; reflexivity | right; left; apply Hok].
    + destruct (negb _ || _ || _ || _); [| right; left; apply Hok].
      right; right. cbn. repeat split; eauto.
    + destruct (negb _ || _ || _ || _); [left; reflexivity | right; left; apply Hok].
Qed.

(** The address that the successful tail acknowledges: the offer of a
    lease in state Discover, the address of the lease otherwise. *)
Lemma successfulRequest_reply (h : Handler) (now : Z) (p : DHCP4) (options : Options)
      (name : bytes) (lease : Lease) :
  exists r,
    out_reply (successfulRequest SelectOrderOrAll h now p options name lease) = Some r
    /\ Reply_mt r = ACK
    /\ Reply_yiAddr r = (if State_eqb (Lease_State lease) StateDiscover
                         then IPOffer lease else Packet.Addr_IP (Lease_Addr lease)).
Proof.
  unfold successfulRequest. cbn [setLeaseName Lease_State].
  destruct (State_eqb (Lease_State lease) StateDiscover);
    destruct (options !! OptionHostName); cbn; eexists; repeat split.
Qed.

(** X3: a Renewing REQUEST is acknowledged exactly when the lease is
    Allocated, holds the address in ciaddr, belongs to the MAC of the
    frame and has not expired; otherwise the answer is a NAK from the
    DHCP server of the client's subnet, the lease is left as it was and
    no forged DECLINE is started, whatever the mode. *)
Theorem handleRequest_renewing (h : Handler) (now : Z) (host : option Packet.Host)
        (p : DHCP4) (options : Options) (senderIP : IP) (lease : Lease) (h' : Handler) :
  operationOf p options senderIP = renewing ->
  Equal (requestIPOf p options senderIP) IPv4zero = false ->
  findOrCreate h (getClientID p options) (CHAddr p) (default [] (options !! OptionHostName))
    = (lease, h') ->
  let o := handleRequest findOrCreate SelectOrderOrAll zeroStage h now host p options senderIP in
  let subnet := if Packet.IsCaptured (session h) (CHAddr p) then net2 h else net1 h in
  requestIPOf p options senderIP = CIAddr p
  /\ if State_eqb (Lease_State lease) StateAllocated
        && Equal (Packet.Addr_IP (Lease_Addr lease)) (CIAddr p)
        && bytesEqual (Packet.Addr_MAC (Lease_Addr lease)) (CHAddr p)
        && (now <=? DHCPExpiry lease)
     then exists r, out_reply o = Some r /\ Reply_mt r = ACK
                    /\ Reply_yiAddr r = Packet.Addr_IP (Lease_Addr lease)
     else o = mkOutcome h' (Some lease) (zeroResult zeroStage)
                (Some (ReplyPacket p NAK (DHCPServer subnet) IPv4zero 0 [])) [].
Proof.
  intros Hop Hip Hf o subnet. subst o subnet.
  assert (Hreq : requestIPOf p options senderIP = CIAddr p).
  { revert Hop. unfold operationOf, requestIPOf, requestOperation.
    repeat match goal with |- context [if ?c then _ else _] => destruct c end;
      cbn; intros; congruence. }
  split; [exact Hreq |].
  revert Hop Hip. rewrite <- Hreq. unfold operationOf, requestIPOf, handleRequest.
  destruct (requestOperation _ _ _ _) as [op reqIP]. cbn [fst snd].
  intros -> Hip. rewrite Hip, Hf.
  replace (DHCPExpiry lease <? now) with (negb (now <=? DHCPExpiry lease))
    by (destruct (Z.leb_spec now (DHCPExpiry lease)), (Z.ltb_spec (DHCPExpiry lease) now);
        cbn; lia || reflexivity).
  destruct (State_eqb (Lease_State lease) StateAllocated) eqn:Hst;
    destruct (Equal (Packet.Addr_IP (Lease_Addr lease)) reqIP);
    destruct (bytesEqual (Packet.Addr_MAC (Lease_Addr lease)) (CHAddr p));
    destruct (now <=? DHCPExpiry lease); cbn [negb orb andb]; try reflexivity.
  destruct (successfulRequest_reply h' now p options (default [] (options !! OptionHostName)) lease)
    as (r & Hr & Hmt & Hyi).
  exists r. repeat split; [exact Hr | exact Hmt |].
  rewrite Hyi. destruct (Lease_State lease); [discriminate Hst | discriminate Hst | reflexivity].
Qed.

(** X4: a Rebooting or Rebinding REQUEST that is not answered by the
    forged DECLINE of a Free lease is acknowledged exactly when the lease
    is Allocated, holds the request IP, belongs to the MAC of the frame
    and lies in the LAN of the client's subnet. The expiry of the lease
    is not tested: an expired lease is acknowledged and renewed. *)
Theorem handleRequest_reboot_rebind (h : Handler) (now : Z) (host : option Packet.Host)
        (p : DHCP4) (options : Options) (senderIP : IP) (lease : Lease) (h' : Handler) :
  operationOf p options senderIP = rebooting
  \/ operationOf p options senderIP = rebinding ->
  Equal (requestIPOf p options senderIP) IPv4zero = false ->
  findOrCreate h (getClientID p options) (CHAddr p) (default [] (options !! OptionHostName))
    = (lease, h') ->
  State_eqb (Lease_State lease) StateFree
    && attacks h' (Packet.IsCaptured (session h) (CHAddr p)) = false ->
  let o := handleRequest findOrCreate SelectOrderOrAll zeroStage h now host p options senderIP in
  let subnet := if Packet.IsCaptured (session h) (CHAddr p) then net2 h else net1 h in
  if State_eqb (Lease_State lease) StateAllocated
     && Equal (Packet.Addr_IP (Lease_Addr lease)) (requestIPOf p options senderIP)
     && bytesEqual (Packet.Addr_MAC (Lease_Addr lease)) (CHAddr p)
     && Contains (LAN subnet) (Packet.Addr_IP (Lease_Addr lease))
  then exists r l, out_reply o = Some r /\ Reply_mt r = ACK
                   /\ Reply_yiAddr r = Packet.Addr_IP (Lease_Addr lease)
                   /\ out_lease o = Some l
                   /\ DHCPExpiry l = now + Duration (deref h' (Lease_subnet lease))
  else out_reply o = Some (ReplyPacket p NAK (DHCPServer subnet) IPv4zero 0 [])
       /\ out_lease o = Some lease.
Proof.
  unfold operationOf, requestIPOf, handleRequest.
  destruct (requestOperation _ _ _ _) as [op reqIP]. cbn [fst snd].
  intros Hop Hip Hf Hfree. rewrite Hip, Hf.
  assert (Hok : State_eqb (Lease_State lease) StateAllocated = true ->
                exists r l,
                  out_reply (successfulRequest SelectOrderOrAll h' now p options
                               (default [] (options !! OptionHostName)) lease) = Some r
                  /\ Reply_mt r = ACK
                  /\ Reply_yiAddr r = Packet.Addr_IP (Lease_Addr lease)
                  /\ out_lease (successfulRequest SelectOrderOrAll h' now p options
                                  (default [] (options !! OptionHostName)) lease) = Some l
                  /\ DHCPExpiry l = now + Duration (deref h' (Lease_subnet lease))).
  { intros Hst. unfold successfulRequest. cbn [setLeaseName Lease_State].
    destruct (Lease_State lease); try discriminate Hst. cbn [State_eqb].
    destruct (options !! OptionHostName); cbn; do 2 eexists; repeat split. }
  destruct Hop as [-> | ->]; rewrite Hfree;
    destruct (State_eqb (Lease_State lease) StateAllocated) eqn:Hst;
    destruct (Equal (Packet.Addr_IP (Lease_Addr lease)) reqIP);
    destruct (bytesEqual (Packet.Addr_MAC (Lease_Addr lease)) (CHAddr p));
    destruct (Contains _ _); cbn [negb orb andb]; try (split; reflexivity);
    apply Hok; reflexivity.
Qed.

(** X5: a Selecting REQUEST that names another server never allocates:
    the lease is freed (state Free, no address) unless it is in state
    Discover, in which case it is kept; the answer is a NAK when the
    mode attacks the client and nothing otherwise; nothing is saved and
    no DECLINE is forged. *)
Theorem handleRequest_selecting_other_server (h : Handler) (now : Z)
        (host : option Packet.Host) (p : DHCP4) (options : Options) (senderIP : IP)
        (lease : Lease) (h' : Handler) :
  let serverIP := optionIP options OptionServerIdentifier in
  let subnet := if Packet.IsCaptured (session h) (CHAddr p) then net2 h else net1 h in
  Equal serverIP IPv4zero = false ->
  Equal (requestIPOf p options senderIP) IPv4zero = false ->
  Equal serverIP (DHCPServer subnet) = false ->
  findOrCreate h (getClientID p options) (CHAddr p) (default [] (options !! OptionHostName))
    = (lease, h') ->
  let o := handleRequest findOrCreate SelectOrderOrAll zeroStage h now host p options senderIP in
  out_lease o = Some (if State_eqb (Lease_State lease) StateDiscover then lease
                      else setLeaseIP [] (setLeaseState StateFree lease))
  /\ out_reply o = (if attacks h' (Packet.IsCaptured (session h) (CHAddr p))
                    then Some (ReplyPacket p NAK (DHCPServer subnet) IPv4zero 0 [])
                    else None)
  /\ out_effects o = []
  /\ Packet.Addr_IP (FrameAddr (out_result o)) = optionIP options OptionRequestedIPAddress.
Proof.
  intros serverIP subnet Hs Hip Hother Hf o. subst o.
  revert Hip. unfold requestIPOf, handleRequest. rewrite requestOperation_cases.
  fold serverIP. rewrite Hs. cbn [negb fst snd]. intros Hip.
  rewrite Hip, Hf. fold subnet. rewrite Hother. cbn [negb].
  destruct (State_eqb (Lease_State lease) StateDiscover);
    destruct (attacks h' _); cbn; repeat split.
Qed.

(** X6: an ACK for a lease that was not Free carries an address equal
    to the request IP of the frame. *)
Theorem handleRequest_ack_address (h : Handler) (now : Z) (host : option Packet.Host)
        (p : DHCP4) (options : Options) (senderIP : IP) (lease : Lease) (h' : Handler)
        (r : Reply) :
  findOrCreate h (getClientID p options) (CHAddr p) (default [] (options !! OptionHostName))
    = (lease, h') ->
  Lease_State lease <> StateFree ->
  out_reply (handleRequest findOrCreate SelectOrderOrAll zeroStage h now host p options senderIP)
    = Some r ->
  Reply_mt r = ACK ->
  Equal (Reply_yiAddr r) (requestIPOf p options senderIP) = true.
Proof.
  unfold requestIPOf, handleRequest.
  destruct (requestOperation _ _ _ _) as [op reqIP]. cbn [fst snd].
  intros Hf Hst.
  destruct (Equal reqIP IPv4zero); [discriminate |].
  rewrite Hf.
  destruct (successfulRequest_reply h' now p options (default [] (options !! OptionHostName)) lease)
    as (r0 & Hr0 & _ & Hyi).
  assert (Hnak : forall res l sid eff,
             out_reply (mkOutcome h' l res (Some (ReplyPacket p NAK sid IPv4zero 0 [])) eff)
             = Some r -> Reply_mt r = ACK -> Equal (Reply_yiAddr r) reqIP = true).
  { intros res l sid eff [= <-]. discriminate. }
  assert (Hsel : forall b : bool,
             b || State_eqb (Lease_State lease) StateDiscover
                  && (negb (bytesEqual (Lease_XID lease) (XId p))
                      || negb (Equal (IPOffer lease) reqIP))
               || State_eqb (Lease_State lease) StateAllocated
                  && negb (Equal (Packet.Addr_IP (Lease_Addr lease)) reqIP) = false ->
             Equal (Reply_yiAddr r0) reqIP = true).
  { intros b Hb. rewrite Hyi. apply orb_false_elim in Hb as [Hb Hal].
    apply orb_false_elim in Hb as [_ Hdi].
    destruct (Lease_State lease); [congruence | |]; cbn [State_eqb andb] in *.
    - apply orb_false_elim in Hdi as [_ Hdi]. apply negb_false_iff in Hdi. exact Hdi.
    - apply negb_false_iff in Hal. exact Hal. }
  assert (Hall : forall b c : bool,
             negb (State_eqb (Lease_State lease) StateAllocated)
               || negb (Equal (Packet.Addr_IP (Lease_Addr lease)) reqIP) || b || c = false ->
             Equal (Reply_yiAddr r0) reqIP = true).
  { intros b c Hb. rewrite Hyi. apply orb_false_elim in Hb as [Hb _].
    apply orb_false_elim in Hb as [Hb _]. apply orb_false_elim in Hb as [Hal Heq].
    apply negb_false_iff in Hal, Heq.
    destruct (Lease_State lease); try discriminate Hal. exact Heq. }
  destruct op.
  - destruct (State_eqb (Lease_State lease) StateFree && _); [apply Hnak |].
    destruct (negb _ || _ || _ || _) eqn:Hc; [apply Hnak |].
    rewrite Hr0. intros [= <-] _. exact (Hall _ _ Hc).
  - destruct (negb (Equal (optionIP options OptionServerIdentifier) _)).
    + destruct (attacks h' _); [apply Hnak | discriminate].
    + destruct (negb _ || _ || _) eqn:Hc; [apply Hnak |].
      rewrite Hr0. intros [= <-] _. exact (Hsel _ Hc).
  - destruct (negb _ || _ || _ || _) eqn:Hc; [apply Hnak |].
    rewrite Hr0. intros [= <-] _. exact (Hall _ _ Hc).
  - destruct (State_eqb (Lease_State lease) StateFree && _); [apply Hnak |].
    destruct (negb _ || _ || _ || _) eqn:Hc; [apply Hnak |].
    rewrite Hr0. intros [= <-] _. exact (Hall _ _ Hc).
Qed.

End RequestOutcomes.

(** X3 (instance): [mac1] renews 192.168.0.50 from that address at
    the time its lease expires, and gets the ACK. *)
Lemma handleRequest_renewing_witness :
  exists r,
    DHCP4.out_reply
      (DHCP4.handleRequest Fixtures.findOrCreate Fixtures.SelectOrderOrAll Packet.StageNormal
         Samples.handlerAllocated1 0 None (Fixtures.requestFrom Fixtures.mac1 Fixtures.reqIP50)
         ∅ Fixtures.reqIP50) = Some r
    /\ DHCP4.Reply_mt r = DHCP4.ACK
    /\ DHCP4.Reply_yiAddr r = Fixtures.reqIP50.
Proof.
  exact (proj2 (handleRequest_renewing Fixtures.findOrCreate Fixtures.SelectOrderOrAll
                  Packet.StageNormal Samples.handlerAllocated1 0 None
                  (Fixtures.requestFrom Fixtures.mac1 Fixtures.reqIP50) ∅ Fixtures.reqIP50
                  Samples.allocatedLease1 Samples.handlerAllocated1
                  eq_refl eq_refl eq_refl)).
Defined.

(** X4 (instance): ten hours after the expiry of its lease, [mac1]
    reboots asking for 192.168.0.50 and gets the ACK; the lease then
    expires four hours later. *)
Lemma handleRequest_reboot_rebind_witness :
  exists r l,
    let o := DHCP4.handleRequest Fixtures.findOrCreate Fixtures.SelectOrderOrAll
               Packet.StageNormal Samples.handlerAllocated1 (Packet.Hour * 10) None
               (Fixtures.requestFrom Fixtures.mac1 [0; 0; 0; 0]) Fixtures.rebootOptions
               [0; 0; 0; 0] in
    DHCP4.out_reply o = Some r /\ DHCP4.Reply_mt r = DHCP4.ACK
    /\ DHCP4.Reply_yiAddr r = Fixtures.reqIP50
    /\ DHCP4.out_lease o = Some l
    /\ DHCP4.DHCPExpiry l = Packet.Hour * 10 + Packet.Hour * 4.
Proof.
  exact (handleRequest_reboot_rebind Fixtures.findOrCreate Fixtures.SelectOrderOrAll
           Packet.StageNormal Samples.handlerAllocated1 (Packet.Hour * 10) None
           (Fixtures.requestFrom Fixtures.mac1 [0; 0; 0; 0]) Fixtures.rebootOptions
           [0; 0; 0; 0] Samples.allocatedLease1 Samples.handlerAllocated1
           (or_introl eq_refl) eq_refl eq_refl eq_refl).
Defined.

(** X5 (instance): [mac1], which holds 192.168.0.50, selects the
    offer of the home router: its lease is freed and, the MAC not being
    captured, nothing is answered. *)
Lemma handleRequest_selecting_other_server_witness :
  let o := DHCP4.handleRequest Fixtures.findOrCreate Fixtures.SelectOrderOrAll
             Packet.StageNormal Samples.handlerAllocated1 0 None
             (Fixtures.requestFrom Fixtures.mac1 [0; 0; 0; 0]) Samples.selectRouterOptions
             [0; 0; 0; 0] in
  DHCP4.out_lease o
    = Some (DHCP4.setLeaseIP [] (DHCP4.setLeaseState DHCP4.StateFree Samples.allocatedLease1))
  /\ DHCP4.out_reply o = None
  /\ DHCP4.out_effects o = []
  /\ Packet.Addr_IP (DHCP4.FrameAddr (DHCP4.out_result o)) = Fixtures.reqIP50.
Proof.
  exact (handleRequest_selecting_other_server Fixtures.findOrCreate Fixtures.SelectOrderOrAll
           Packet.StageNormal Samples.handlerAllocated1 0 None
           (Fixtures.requestFrom Fixtures.mac1 [0; 0; 0; 0]) Samples.selectRouterOptions
           [0; 0; 0; 0] Samples.allocatedLease1 Samples.handlerAllocated1
           eq_refl eq_refl eq_refl eq_refl).
Defined.

(** X6 (instance): the ACK of the renewal of 192.168.0.50 carries
    that address. *)
Lemma handleRequest_ack_address_witness :
  Net.Equal Fixtures.reqIP50
    (DHCP4.requestIPOf (Fixtures.requestFrom Fixtures.mac1 Fixtures.reqIP50) ∅ Fixtures.reqIP50)
  = true.
Proof.
  apply (handleRequest_ack_address Fixtures.findOrCreate Fixtures.SelectOrderOrAll
           Packet.StageNormal Samples.handlerAllocated1 0 None
           (Fixtures.requestFrom Fixtures.mac1 Fixtures.reqIP50) ∅ Fixtures.reqIP50
           Samples.allocatedLease1 Samples.handlerAllocated1
           (DHCP4.ReplyPacket (Fixtures.requestFrom Fixtures.mac1 Fixtures.reqIP50) DHCP4.ACK
              Fixtures.hostIP4 Fixtures.reqIP50 (Packet.Hour * 4) [])).
  - reflexivity.
  - discriminate.
  - vm_compute. reflexivity.
  - reflexivity.
Defined.

(** ** The MAC table seen through the methods of [Session] *)
Section SessionOpsFacts.
Import Net Packet SessionOps.

Lemma findOrCreate_lookup (t : gmap (list Z) MACEntry) (mac : HardwareAddr) :
  MACTable_findOrCreate t mac
  = (match t !! mac with Some _ => t | None => <[mac := newMACEntry mac]> t end,
     default (newMACEntry mac) (t !! mac)).
Proof.
  unfold MACTable_findOrCreate, findMAC. destruct (t !! mac); reflexivity.
Qed.

Lemma findOrCreate_other (t : gmap (list Z) MACEntry) (mac mac' : HardwareAddr) :
  mac' <> mac -> fst (MACTable_findOrCreate t mac) !! mac' = t !! mac'.
Proof.
  intros Hne. rewrite findOrCreate_lookup. cbn [fst].
  destruct (t !! mac); [reflexivity |].
  apply lookup_insert_ne. congruence.
Qed.

(** X7: the offer stored by [SetDHCPv4IPOffer] is the one that
    [DHCPv4IPOffer] returns for that MAC; the offers of the other MACs,
    the capture state of every MAC and the host table are left as they
    were. *)
Theorem SetDHCPv4IPOffer_round_trip (h : Session) (mac mac' : HardwareAddr) (ip : IP)
        (name : bytes) :
  let h' := SetDHCPv4IPOffer h mac ip name in
  DHCPv4IPOffer h' mac' = (if bool_decide (mac' = mac) then ip else DHCPv4IPOffer h mac')
  /\ IsCaptured h' mac' = IsCaptured h mac'
  /\ HostTable h' = HostTable h.
Proof.
  intros h'. subst h'. unfold SetDHCPv4IPOffer, DHCPv4IPOffer, IsCaptured, findMAC.
  pose proof (findOrCreate_lookup (MACTable h) mac) as Hfc.
  pose proof (findOrCreate_other (MACTable h) mac mac') as Hother.
  destruct (MACTable_findOrCreate (MACTable h) mac) as [t entry].
  injection Hfc as Ht He. cbn [fst] in Hother.
  unfold setMACTable. cbn [MACTable HostTable].
  destruct (bool_decide (mac' = mac)) eqn:Hd.
  - apply bool_decide_eq_true in Hd. subst mac'.
    rewrite lookup_insert_eq. rewrite He.
    destruct (MACTable h !! mac); repeat split.
  - apply bool_decide_eq_false in Hd.
    rewrite lookup_insert_ne by congruence. rewrite (Hother Hd). repeat split.
Qed.

Lemma IPAddrs_loop (t : gmap (list Z) Host) (keys : list IP) (acc : list Addr) :
  fold_left (fun lst key =>
               match t !! key with
               | Some host => lst ++ [Host_Addr host]
               | None => lst
               end) keys acc
  = acc ++ omap (fun key => Host_Addr <$> t !! key) keys.
Proof.
  revert acc. induction keys as [| key rest IH]; intros acc; cbn [fold_left].
  - cbn. rewrite app_nil_r. reflexivity.
  - rewrite IH. change (omap ?f (key :: rest))
      with (match f key with Some y => y :: omap f rest | None => omap f rest end).
    cbv beta. destruct (t !! key) as [host |]; cbn [fmap option_fmap option_map].
    + rewrite <- app_assoc. reflexivity.
    + reflexivity.
Qed.

(** X8: for a known MAC whose hosts are all in the host table,
    [IPAddrs] returns twice as many addresses as the MAC has hosts:
    first one zero address per host, then the addresses of the hosts. *)
Theorem IPAddrs_doubled (h : Session) (mac : HardwareAddr) (e : MACEntry) :
  MACTable h !! mac = Some e ->
  Forall (fun key => is_Some (HostTable h !! key)) (MACEntry_HostList e) ->
  let n := length (MACEntry_HostList e) in
  length (IPAddrs h mac) = (2 * n)%nat
  /\ take n (IPAddrs h mac) = repeat zeroAddr n
  /\ Forall2 (fun key a => Host_Addr <$> HostTable h !! key = Some a)
             (MACEntry_HostList e) (drop n (IPAddrs h mac)).
Proof.
  intros He Hall n. subst n. unfold IPAddrs, findMAC. rewrite He, IPAddrs_loop.
  set (keys := MACEntry_HostList e) in *.
  assert (Hlen : length (repeat zeroAddr (length keys)) = length keys)
    by apply repeat_length.
  assert (Hres : Forall2 (fun key a => Host_Addr <$> HostTable h !! key = Some a) keys
                         (omap (fun key => Host_Addr <$> HostTable h !! key) keys)).
  { clear Hlen. clearbody keys. induction Hall as [| key rest [host Hk] _ IH].
    - constructor.
    - change (omap ?f (key :: rest))
        with (match f key with Some y => y :: omap f rest | None => omap f rest end).
      cbv beta. rewrite Hk. cbn [fmap option_fmap option_map].
      constructor; [rewrite Hk; reflexivity | exact IH]. }
  repeat split.
  - rewrite length_app, Hlen, <- (Forall2_length _ _ _ Hres). lia.
  - rewrite take_app_length'; [reflexivity | symmetry; exact Hlen].
  - rewrite drop_app_length'; [exact Hres | symmetry; exact Hlen].
Qed.

Variable UpdateDHCP4Name : Session -> IP -> bytes -> Session.
Variable onlineTransition : Session -> IP -> Session.

(** [DHCPUpdate] returns ErrInvalidIP exactly for a nil or
    unspecified IP, and then leaves the session untouched; for every
    other IP it returns nil, the host being found or created. *)
Theorem DHCPUpdate_results (seen : Z) (h : Session) (mac : HardwareAddr) (ip : IP)
        (name : bytes) :
  let r := DHCPUpdate UpdateDHCP4Name onlineTransition seen h mac ip name in
  snd r = UpdateReturns (if isNil ip || IsUnspecified ip then Some ErrInvalidIP else None)
  /\ (snd r = UpdateReturns (Some ErrInvalidIP) -> fst r = h).
Proof.
  intros r. subst r. unfold DHCPUpdate. destruct (isNil ip) eqn:Hnil; [split; reflexivity |].
  destruct (IsUnspecified ip) eqn:Hun; [split; reflexivity |]. cbn [orb].
  unfold findOrCreateHostWithLock. cbn [Addr_IP Addr_MAC]. rewrite Hun.
  destruct (match HostTable h !! ip with Some _ => _ | None => _ end);
    [split; [reflexivity | discriminate] |].
  destruct (MACTable_findOrCreate (MACTable h) mac); split; [reflexivity | discriminate].
Qed.

Lemma Release_IsCaptured (h : Session) (mac mac' : HardwareAddr) :
  IsCaptured (fst (Release h mac)) mac'
  = (if bool_decide (mac' = mac) then false else IsCaptured h mac').
Proof.
  unfold Release, IsCaptured, findMAC.
  destruct (MACTable h !! mac) as [e |] eqn:He; cbn [fst].
  - unfold setMACTable. cbn [MACTable].
    destruct (bool_decide (mac' = mac)) eqn:Hd.
    + apply bool_decide_eq_true in Hd. subst mac'. rewrite lookup_insert_eq. reflexivity.
    + apply bool_decide_eq_false in Hd. rewrite lookup_insert_ne by congruence. reflexivity.
  - destruct (bool_decide (mac' = mac)) eqn:Hd; [| reflexivity].
    apply bool_decide_eq_true in Hd. subst mac'. rewrite He. reflexivity.
Qed.

(** [Release] clears the capture flag of the MAC and of no other
    and never fails; a MAC that is not in the table is not added; the
    host table is left as it was. *)
Theorem Release_clears_one (h : Session) (mac mac' : HardwareAddr) :
  let h' := fst (Release h mac) in
  IsCaptured h' mac' = (if bool_decide (mac' = mac) then false else IsCaptured h mac')
  /\ (MACTable h !! mac = None -> h' = h)
  /\ HostTable h' = HostTable h
  /\ snd (Release h mac) = None.
Proof.
  intros h'. subst h'. split; [apply Release_IsCaptured |].
  unfold Release, findMAC.
  destruct (MACTable h !! mac) as [e |]; cbn [fst snd]; repeat split. discriminate.
Qed.

(** X9: [Capture] changes the capture flag of no other MAC and leaves
    the host table as it was, and it is idempotent: a second call
    returns the same error and changes nothing more. *)
Theorem Capture_touches_one (h : Session) (mac mac' : HardwareAddr) :
  let h' := fst (Capture h mac) in
  (mac' <> mac -> IsCaptured h' mac' = IsCaptured h mac')
  /\ HostTable h' = HostTable h
  /\ Capture h' mac = (h', snd (Capture h mac)).
Proof.
  intros h'. subst h'. unfold Capture.
  pose proof (findOrCreate_other (MACTable h) mac mac') as Hother.
  rewrite findOrCreate_lookup in *. cbn [fst] in Hother.
  set (t := match MACTable h !! mac with
            | Some _ => MACTable h
            | None => <[mac := newMACEntry mac]> (MACTable h)
            end) in *.
  set (entry := default (newMACEntry mac) (MACTable h !! mac)).
  assert (Ht : t !! mac = Some entry).
  { subst t entry. destruct (MACTable h !! mac) eqn:He; cbn [default];
      [exact He | apply lookup_insert_eq]. }
  destruct (MACEntry_Captured entry) eqn:Hc; [| destruct (MACEntry_IsRouter entry) eqn:Hr];
    cbn [fst snd]; (split; [| split; [reflexivity |]]).
  - intros Hne. unfold IsCaptured, findMAC. cbn [MACTable setMACTable].
    rewrite (Hother Hne). reflexivity.
  - rewrite findOrCreate_lookup. cbn [MACTable setMACTable]. rewrite Ht. cbn [default from_option]. unfold id.
    rewrite Hc. reflexivity.
  - intros Hne. unfold IsCaptured, findMAC. cbn [MACTable setMACTable].
    rewrite (Hother Hne). reflexivity.
  - rewrite findOrCreate_lookup. cbn [MACTable setMACTable]. rewrite Ht. cbn [default from_option]. unfold id.
    rewrite Hc, Hr. reflexivity.
  - intros Hne. unfold IsCaptured, findMAC. cbn [MACTable setMACTable].
    rewrite lookup_insert_ne by congruence. rewrite (Hother Hne). reflexivity.
  - rewrite findOrCreate_lookup. cbn [MACTable setMACTable]. rewrite lookup_insert_eq.
    cbn [default from_option]. unfold id. cbn [setCaptured MACEntry_Captured]. f_equal.
Qed.

End SessionOpsFacts.

(** X8 (instance): [mac1] has two hosts in the table, and four
    addresses are returned, the first two empty. *)
Lemma IPAddrs_doubled_witness :
  length (SessionOps.IPAddrs Fixtures.staleSession Fixtures.mac1) = 4%nat
  /\ take 2 (SessionOps.IPAddrs Fixtures.staleSession Fixtures.mac1)
     = [SessionOps.zeroAddr; SessionOps.zeroAddr]
  /\ Forall2 (fun key a => Packet.Host_Addr <$> Fixtures.staleHosts !! key = Some a)
             [Fixtures.ip6LLA2; Fixtures.ip6GUA1]
             (drop 2 (SessionOps.IPAddrs Fixtures.staleSession Fixtures.mac1)).
Proof.
  apply (IPAddrs_doubled Fixtures.staleSession Fixtures.mac1
           (Packet.mkMACEntry Fixtures.mac1 false false true [] []
              [Fixtures.ip6LLA2; Fixtures.ip6GUA1])).
  - vm_compute. reflexivity.
  - repeat constructor; vm_compute; eexists; reflexivity.
Defined.

(** ** The lists of the minute pass *)
Section ScanFacts.
Import Net Packet.

Variable IPv6SolicitedNode : IP -> Addr.

Lemma purgeScan_purge_list (pc oc dc : Z) (table : list Host) (ip : IP) :
  In ip (scan_purge (purgeScan pc oc dc table))
  <-> exists e, In e table /\ Addr_IP (Host_Addr e) = ip
                /\ Host_Online e = false /\ Host_LastSeen e < dc.
Proof.
  induction table as [| x rest IH]; cbn [purgeScan].
  - cbn. split; [intros [] | intros (e & [] & _)].
  - destruct (Host_Online x) eqn:Hon; cbn [negb andb scan_purge].
    + rewrite IH. split; intros (e & Hin & Hrest).
      * exists e. split; [right; exact Hin | exact Hrest].
      * destruct Hin as [<- | Hin]; [| exists e; auto].
        destruct Hrest as (_ & Hoff & _). congruence.
    + destruct (Z.ltb_spec (Host_LastSeen x) dc) as [Hlt | Hge]; cbn [scan_purge In].
      * rewrite IH. split.
        -- intros [<- | (e & Hin & Hrest)]; [exists x; auto | exists e; auto].
        -- intros (e & [<- | Hin] & Hrest); [left; apply Hrest | right; exists e; auto].
      * rewrite IH. split; intros (e & Hin & Hrest).
        -- exists e. split; [right; exact Hin | exact Hrest].
        -- destruct Hin as [<- | Hin]; [| exists e; auto].
           destruct Hrest as (_ & _ & Hlt). lia.
Qed.

Lemma purgeScan_probe_list (pc oc dc : Z) (table : list Host) (a : Addr) :
  In a (scan_probe (purgeScan pc oc dc table))
  <-> exists e, In e table /\ Host_Addr e = a
                /\ Host_Online e = true /\ Host_LastSeen e < pc.
Proof.
  induction table as [| x rest IH]; cbn [purgeScan].
  - cbn. split; [intros [] | intros (e & [] & _)].
  - destruct (Host_Online x) eqn:Hon; cbn [negb andb scan_probe].
    + destruct (Z.ltb_spec (Host_LastSeen x) pc) as [Hlt | Hge]; cbn [In].
      * rewrite IH. split.
        -- intros [<- | (e & Hin & Hrest)]; [exists x; auto | exists e; auto].
        -- intros (e & [<- | Hin] & Hrest); [left; apply Hrest | right; exists e; auto].
      * rewrite IH. split; intros (e & Hin & Hrest).
        -- exists e. split; [right; exact Hin | exact Hrest].
        -- destruct Hin as [<- | Hin]; [| exists e; auto].
           destruct Hrest as (_ & _ & Hlt). lia.
    + assert (Hsame : scan_probe
                        (if Host_LastSeen x <? dc
                         then mkScan (Addr_IP (Host_Addr x) :: scan_purge (purgeScan pc oc dc rest))
                                     (scan_probe (purgeScan pc oc dc rest))
                                     (scan_offline (purgeScan pc oc dc rest))
                         else mkScan (scan_purge (purgeScan pc oc dc rest))
                                     (scan_probe (purgeScan pc oc dc rest))
                                     (scan_offline (purgeScan pc oc dc rest)))
                      = scan_probe (purgeScan pc oc dc rest))
        by (destruct (Host_LastSeen x <? dc); reflexivity).
      rewrite Hsame, IH. split; intros (e & Hin & Hrest).
      * exists e. split; [right; exact Hin | exact Hrest].
      * destruct Hin as [<- | Hin]; [| exists e; auto].
        destruct Hrest as (_ & Hoff & _). congruence.
Qed.

Lemma purgeScan_offline_list (pc oc dc : Z) (table : list Host) (ip : IP) :
  In ip (scan_offline (purgeScan pc oc dc table))
  <-> exists e, In e table /\ Addr_IP (Host_Addr e) = ip
                /\ Host_Online e = true /\ Host_LastSeen e < oc.
Proof.
  induction table as [| x rest IH]; cbn [purgeScan].
  - cbn. split; [intros [] | intros (e & [] & _)].
  - destruct (Host_Online x) eqn:Hon; cbn [negb andb scan_offline].
    + destruct (Z.ltb_spec (Host_LastSeen x) oc) as [Hlt | Hge]; cbn [In].
      * rewrite IH. split.
        -- intros [<- | (e & Hin & Hrest)]; [exists x; auto | exists e; auto].
        -- intros (e & [<- | Hin] & Hrest); [left; apply Hrest | right; exists e; auto].
      * rewrite IH. split; intros (e & Hin & Hrest).
        -- exists e. split; [right; exact Hin | exact Hrest].
        -- destruct Hin as [<- | Hin]; [| exists e; auto].
           destruct Hrest as (_ & _ & Hlt). lia.
    + assert (Hsame : scan_offline
                        (if Host_LastSeen x <? dc
                         then mkScan (Addr_IP (Host_Addr x) :: scan_purge (purgeScan pc oc dc rest))
                                     (scan_probe (purgeScan pc oc dc rest))
                                     (scan_offline (purgeScan pc oc dc rest))
                         else mkScan (scan_purge (purgeScan pc oc dc rest))
                                     (scan_probe (purgeScan pc oc dc rest))
                                     (scan_offline (purgeScan pc oc dc rest)))
                      = scan_offline (purgeScan pc oc dc rest))
        by (destruct (Host_LastSeen x <? dc); reflexivity).
      rewrite Hsame, IH. split; intros (e & Hin & Hrest).
      * exists e. split; [right; exact Hin | exact Hrest].
      * destruct Hin as [<- | Hin]; [| exists e; auto].
        destruct Hrest as (_ & Hoff & _). congruence.
Qed.

(** X10: the three lists of the minute pass are exactly the hosts of
    the table that meet their test: deleted are the hosts that are
    offline and were last seen before the purge cutoff, probed and
    reported offline are hosts that are online and were last seen before
    the probe and the offline cutoff. An online host is never deleted,
    an offline host is never probed or reported again. *)
Theorem purgeScan_lists (pc oc dc : Z) (table : list Host) :
  let r := purgeScan pc oc dc table in
  (forall ip, In ip (scan_purge r)
              <-> exists e, In e table /\ Addr_IP (Host_Addr e) = ip
                            /\ Host_Online e = false /\ Host_LastSeen e < dc)
  /\ (forall a, In a (scan_probe r)
                <-> exists e, In e table /\ Host_Addr e = a
                              /\ Host_Online e = true /\ Host_LastSeen e < pc)
  /\ (forall ip, In ip (scan_offline r)
                 <-> exists e, In e table /\ Addr_IP (Host_Addr e) = ip
                               /\ Host_Online e = true /\ Host_LastSeen e < oc).
Proof.
  intros r. subst r. split; [| split]; intros x.
  - apply purgeScan_purge_list.
  - apply purgeScan_probe_list.
  - apply purgeScan_offline_list.
Qed.

(** X11: in a session whose offline deadline is not shorter than its
    probe deadline, as [NewSession] requires, every host that a pass
    reports offline is also in the list of addresses probed by the same
    pass. *)
Theorem purge_offline_hosts_are_probed (h : Session) (now : Z) (table : list Host) (ip : IP) :
  ProbeDeadline h <= OfflineDeadline h ->
  let r := purgeScan (now + ProbeDeadline h * -1) (now + OfflineDeadline h * -1)
                     (now + PurgeDeadline h * -1) table in
  In ip (scan_offline r) ->
  exists a, In a (scan_probe r) /\ Addr_IP a = ip.
Proof.
  intros Hdl r Hin. subst r.
  apply purgeScan_offline_list in Hin as (e & Hin & Hip & Hon & Hseen).
  exists (Host_Addr e). split; [| exact Hip].
  apply purgeScan_probe_list. exists e. repeat split; [exact Hin | exact Hon | lia].
Qed.

(** X12: the probe goroutine writes at most one packet per listed
    address and only for listed addresses: an ARP request for an IPv4
    address, and an ICMPv6 packet only for an address that is not IPv4
    and only on a NIC without an IPv6 link-local address, so that its
    source IP is nil. *)
Theorem probeLoop_sends (nic : NICInfo) (now : Z) (probe : list Addr) :
  let sends := probeLoop IPv6SolicitedNode nic now probe in
  (length sends <= length probe)%nat
  /\ Forall (fun s =>
               match s with
               | ARPRequest ip => In ip (map Addr_IP probe) /\ To4 ip <> []
               | ICMP6SendNeighbourSolicitation src dst target =>
                   In target (map Addr_IP probe) /\ To4 target = []
                   /\ IsLinkLocalUnicast target = true
                   /\ dst = IPv6SolicitedNode target /\ Addr_IP src = []
               | ICMP6SendEchoRequest src dst _ _ =>
                   In dst probe /\ To4 (Addr_IP dst) = []
                   /\ IsLinkLocalUnicast (Addr_IP dst) = false /\ Addr_IP src = []
               end) sends.
Proof.
  cbv zeta. induction probe as [| a rest [IHlen IHall]]; cbn [probeLoop].
  - split; [cbn; lia | constructor].
  - assert (Hweak : Forall (fun s =>
               match s with
               | ARPRequest ip => In ip (map Addr_IP (a :: rest)) /\ To4 ip <> []
               | ICMP6SendNeighbourSolicitation src dst target =>
                   In target (map Addr_IP (a :: rest)) /\ To4 target = []
                   /\ IsLinkLocalUnicast target = true
                   /\ dst = IPv6SolicitedNode target /\ Addr_IP src = []
               | ICMP6SendEchoRequest src dst _ _ =>
                   In dst (a :: rest) /\ To4 (Addr_IP dst) = []
                   /\ IsLinkLocalUnicast (Addr_IP dst) = false /\ Addr_IP src = []
               end) (probeLoop IPv6SolicitedNode nic now rest)).
    { eapply Forall_impl; [exact IHall |]. intros [ip | src dst target | src dst i s];
        cbn [map In]; intuition auto. }
    destruct (To4 (Addr_IP a)) as [| b0 b4] eqn:H4; cbn [isNil negb].
    + destruct (net_IP (HostLLA nic)) as [| l0 lla] eqn:Hlla; cbn [isNil negb].
      * destruct (IsLinkLocalUnicast (Addr_IP a)) eqn:Hll.
        -- split; [cbn; lia |]. constructor; [| constructor].
           cbn [map In Addr_IP]. repeat split; auto.
        -- split; [cbn [length]; lia |]. constructor; [| exact Hweak].
           cbn [map In Addr_IP]. repeat split; auto.
      * split; [cbn [length]; lia | exact Hweak].
    + split; [cbn [length]; lia |]. constructor; [| exact Hweak].
      cbn [map In]. split; [left; reflexivity | rewrite H4; discriminate].
Qed.

End ScanFacts.

(** X11 (instance): with the default deadlines, the three hosts last
    seen six minutes before the pass are reported offline, and probed. *)
Lemma purge_offline_hosts_are_probed_witness :
  exists a,
    In a (Packet.scan_probe
            (Packet.purgeScan (Packet.Minute * 6 + Packet.DefaultProbeDeadline * -1)
               (Packet.Minute * 6 + Packet.DefaultOfflineDeadline * -1)
               (Packet.Minute * 6 + Packet.DefaultPurgeDeadline * -1)
               [Fixtures.hostLLA2; Fixtures.host200; Fixtures.hostGUA1]))
    /\ Packet.Addr_IP a = [192; 168; 0; 200].
Proof.
  apply (purge_offline_hosts_are_probed Fixtures.staleSession (Packet.Minute * 6)
           [Fixtures.hostLLA2; Fixtures.host200; Fixtures.hostGUA1] [192; 168; 0; 200]).
  - vm_compute. discriminate.
  - vm_compute. right. left. reflexivity.
Defined.

(** ** The engine of the older [Handler]: capture, release, hunt *)
Section EngineFacts.
Import Net Packet Engine.

Variable icmp4HuntStage : Addr -> HuntStage.
Variables arpStartHunt icmp4StartHunt dhcp4StartHunt icmp6StartHunt : IP -> option error.
Variables dhcp4StopHunt icmp4StopHunt arpStopHunt icmp6StopHunt : IP -> option error.

Lemma HuntStage_eqb_eq (a b : HuntStage) : HuntStage_eqb a b = true <-> a = b.
Proof. destruct a, b; cbn; split; congruence. Qed.

(** X13: when [lockAndStartHunt] returns nil, either the address is an
    IPv4 address that ICMP4 reports as redirected, and then nothing was
    changed or started, or the host is marked as hunted and every plugin
    of its family was started: ARP, ICMP4 and DHCP4, in this order, for
    IPv4, and ICMP6 alone for IPv6. *)
Theorem lockAndStartHunt_success (h : Handler) (addr : Addr) :
  let r := lockAndStartHunt icmp4HuntStage arpStartHunt icmp4StartHunt dhcp4StartHunt
             icmp6StartHunt h addr in
  let ip := Addr_IP addr in
  hunt_err r = None ->
  (To4 ip <> [] /\ icmp4HuntStage addr = StageRedirected
   /\ hunt_handler r = h /\ hunt_calls r = [ICMP4_HuntStage addr])
  \/ (exists host,
        FindIPNoLock h ip = Some host
        /\ hunt_handler r
           = setHandlerLANHosts (<[ip := setHuntStage StageHunt host]> (Handler_LANHosts h)) h
        /\ hunt_calls r
           = (if isNil (To4 ip) then [ICMP6_StartHunt ip]
              else [ICMP4_HuntStage addr; ARP_StartHunt ip; ICMP4_StartHunt ip;
                    DHCP4_StartHunt ip])).
Proof.
  cbv zeta. unfold lockAndStartHunt.
  destruct (To4 (Addr_IP addr)) as [| b0 b4] eqn:H4; cbn [isNil negb andb].
  - destruct (FindIPNoLock h (Addr_IP addr)) as [host |]; [| discriminate].
    cbn [untilError]. destruct (icmp6StartHunt (Addr_IP addr)); [discriminate |].
    intros _. right. exists host. repeat split.
  - destruct (HuntStage_eqb (icmp4HuntStage addr) StageRedirected) eqn:Hred.
    + intros _. left. apply HuntStage_eqb_eq in Hred. repeat split; [discriminate | exact Hred].
    + destruct (FindIPNoLock h (Addr_IP addr)) as [host |]; [| discriminate].
      cbn [untilError].
      destruct (arpStartHunt (Addr_IP addr)); [discriminate |].
      destruct (icmp4StartHunt (Addr_IP addr)); [discriminate |].
      destruct (dhcp4StartHunt (Addr_IP addr)); [discriminate |].
      intros _. right. exists host. repeat split.
Qed.

(** X14: when [lockAndStartHunt] fails for a host that is in the
    table, the error is the one of a plugin, the plugins after it were
    not started, and the host is nevertheless left marked as hunted. For
    an address that is not in the table (and not a redirected IPv4
    address) the error is ErrInvalidIP and no plugin is started. *)
Theorem lockAndStartHunt_failure (h : Handler) (addr : Addr) (err : error) :
  let r := lockAndStartHunt icmp4HuntStage arpStartHunt icmp4StartHunt dhcp4StartHunt
             icmp6StartHunt h addr in
  let ip := Addr_IP addr in
  hunt_err r = Some err ->
  match FindIPNoLock h ip with
  | None =>
      err = ErrInvalidIP /\ hunt_handler r = h
      /\ hunt_calls r = (if isNil (To4 ip) then [] else [ICMP4_HuntStage addr])
  | Some host =>
      Handler_LANHosts (hunt_handler r) !! ip = Some (setHuntStage StageHunt host)
      /\ (if isNil (To4 ip)
          then icmp6StartHunt ip = Some err /\ hunt_calls r = [ICMP6_StartHunt ip]
          else (arpStartHunt ip = Some err
                /\ hunt_calls r = [ICMP4_HuntStage addr; ARP_StartHunt ip])
               \/ (arpStartHunt ip = None /\ icmp4StartHunt ip = Some err
                   /\ hunt_calls r
                      = [ICMP4_HuntStage addr; ARP_StartHunt ip; ICMP4_StartHunt ip])
               \/ (arpStartHunt ip = None /\ icmp4StartHunt ip = None
                   /\ dhcp4StartHunt ip = Some err
                   /\ hunt_calls r
                      = [ICMP4_HuntStage addr; ARP_StartHunt ip; ICMP4_StartHunt ip;
                         DHCP4_StartHunt ip]))
  end.
Proof.
  cbv zeta. unfold lockAndStartHunt.
  destruct (To4 (Addr_IP addr)) as [| b0 b4] eqn:H4; cbn [isNil negb andb].
  - destruct (FindIPNoLock h (Addr_IP addr)) as [host |].
    + cbn [untilError]. destruct (icmp6StartHunt (Addr_IP addr)) as [e |] eqn:H6;
        cbn [hunt_err hunt_handler hunt_calls Handler_LANHosts setHandlerLANHosts];
        [| discriminate].
      intros [= ->]. rewrite lookup_insert_eq. repeat split.
    + cbn. intros [= <-]. repeat split.
  - destruct (HuntStage_eqb (icmp4HuntStage addr) StageRedirected); [discriminate |].
    destruct (FindIPNoLock h (Addr_IP addr)) as [host |].
    + cbn [untilError].
      destruct (arpStartHunt (Addr_IP addr)) as [e1 |] eqn:H1;
        [| destruct (icmp4StartHunt (Addr_IP addr)) as [e2 |] eqn:H2;
           [| destruct (dhcp4StartHunt (Addr_IP addr)) as [e3 |] eqn:H3]];
        cbn [hunt_err hunt_handler hunt_calls Handler_LANHosts setHandlerLANHosts app];
        try discriminate; intros [= ->]; rewrite lookup_insert_eq;
        (split; [reflexivity |]).
      * left. split; reflexivity.
      * right; left. repeat split.
      * right; right. repeat split.
    + cbn. intros [= <-]. repeat split.
Qed.

Lemma lockAndStopHunt_MACTable (h : Handler) (ip : IP) :
  Handler_MACTable
    (hunt_handler (lockAndStopHunt dhcp4StopHunt icmp4StopHunt arpStopHunt icmp6StopHunt h ip))
  = Handler_MACTable h.
Proof.
  unfold lockAndStopHunt. destruct (FindIPNoLock h ip); [| reflexivity].
  destruct (if negb (isNil (To4 ip)) then _ else _). reflexivity.
Qed.

Lemma stopHunts_MACTable (lst : list IP) (h : Handler) :
  Handler_MACTable
    (hunt_handler (stopHunts dhcp4StopHunt icmp4StopHunt arpStopHunt icmp6StopHunt h lst))
  = Handler_MACTable h.
Proof.
  revert h. induction lst as [| ip rest IH]; intros h; cbn [stopHunts]; [reflexivity |].
  destruct (hunt_err (lockAndStopHunt _ _ _ _ h ip)) eqn:He.
  - apply lockAndStopHunt_MACTable.
  - cbn [hunt_handler]. rewrite IH. apply lockAndStopHunt_MACTable.
Qed.

(** The stage of a host after [lockAndStopHunt] without error. *)
Lemma lockAndStopHunt_stage (h : Handler) (ip key : IP) :
  let r := lockAndStopHunt dhcp4StopHunt icmp4StopHunt arpStopHunt icmp6StopHunt h ip in
  hunt_err r = None ->
  (exists host, Handler_LANHosts (hunt_handler r) !! ip = Some host
                /\ Host_HuntStage host = StageNormal)
  /\ ((exists host, Handler_LANHosts h !! key = Some host
                    /\ Host_HuntStage host = StageNormal) ->
      exists host, Handler_LANHosts (hunt_handler r) !! key = Some host
                   /\ Host_HuntStage host = StageNormal).
Proof.
  cbv zeta. unfold lockAndStopHunt, FindIPNoLock.
  destruct (Handler_LANHosts h !! ip) as [host |] eqn:Hip; [| discriminate].
  destruct (if negb (isNil (To4 ip)) then _ else _) as [made e].
  cbn [hunt_err hunt_handler Handler_LANHosts setHandlerLANHosts]. intros _. split.
  - rewrite lookup_insert_eq. eexists. split; reflexivity.
  - intros (host' & Hk & Hst). destruct (decide (key = ip)) as [-> | Hne].
    + rewrite lookup_insert_eq. eexists. split; reflexivity.
    + rewrite lookup_insert_ne by congruence. exists host'. split; assumption.
Qed.

Lemma stopHunts_stage (lst : list IP) (h : Handler) :
  let r := stopHunts dhcp4StopHunt icmp4StopHunt arpStopHunt icmp6StopHunt h lst in
  hunt_err r = None ->
  forall key,
    In key lst
    \/ (exists host, Handler_LANHosts h !! key = Some host
                     /\ Host_HuntStage host = StageNormal) ->
    exists host, Handler_LANHosts (hunt_handler r) !! key = Some host
                 /\ Host_HuntStage host = StageNormal.
Proof.
  cbv zeta. revert h. induction lst as [| ip rest IH]; intros h; cbn [stopHunts].
  - intros _ key [[] | Hk]. exact Hk.
  - destruct (hunt_err (lockAndStopHunt _ _ _ _ h ip)) eqn:He; [rewrite He; discriminate |].
    cbn [hunt_err hunt_handler]. intros Hrest key Hkey.
    apply (IH _ Hrest).
    destruct (lockAndStopHunt_stage h ip key He) as [Hip Hkeep].
    destruct Hkey as [[<- | Hin] | Hk]; [right; exact Hip | left; exact Hin | right; auto].
Qed.

(** X15: after [Release] the MAC is not captured, also when stopping
    the hunt failed; no MAC is added to the table; and when [Release]
    returns nil every host of the MAC is back in stage Normal. *)
Theorem Release_outcome (h : Handler) (mac : HardwareAddr) :
  let r := Release dhcp4StopHunt icmp4StopHunt arpStopHunt icmp6StopHunt h mac in
  IsCaptured (hunt_handler r) mac = false
  /\ (Handler_findMAC h mac = None -> r = mkHunt h [] None)
  /\ (hunt_err r = None ->
      forall macEntry v,
        Handler_findMAC h mac = Some macEntry ->
        In v (hostsOf h macEntry) ->
        exists host, Handler_LANHosts (hunt_handler r) !! Addr_IP (Host_Addr v) = Some host
                     /\ Host_HuntStage host = StageNormal).
Proof.
  cbv zeta. unfold Release, IsCaptured, Handler_findMAC.
  destruct (Handler_MACTable h !! mac) as [e |] eqn:He.
  - split; [| split; [discriminate |]].
    + rewrite stopHunts_MACTable. cbn [Handler_MACTable setHandlerMACTable].
      rewrite lookup_insert_eq. reflexivity.
    + intros Herr macEntry v [= <-] Hv.
      apply (stopHunts_stage _ _ Herr). left.
      apply in_map_iff. exists v. split; [reflexivity | exact Hv].
  - cbn [hunt_handler]. rewrite He. repeat split. intros _ macEntry v [=].
Qed.

(** This [Capture] never fails and never adds a MAC: a MAC that is
    in the table is captured, a router included, and the goroutine gets
    one address per host of the MAC; for a MAC that is not in the table
    nothing is changed and no goroutine is started. *)
Theorem Capture_known_mac_only (h : Handler) (mac : HardwareAddr) :
  let c := Capture h mac in
  cap_err c = None
  /\ Handler_LANHosts (cap_handler c) = Handler_LANHosts h
  /\ match Handler_findMAC h mac with
     | Some macEntry =>
         IsCaptured (cap_handler c) mac = true
         /\ (exists lst, cap_go c = Some lst
                         /\ map Addr_IP lst
                            = map (fun v => Addr_IP (Host_Addr v)) (hostsOf h macEntry))
     | None => c = mkCaptured h None None /\ IsCaptured (cap_handler c) mac = false
     end.
Proof.
  cbv zeta. unfold Capture, IsCaptured, Handler_findMAC.
  destruct (Handler_MACTable h !! mac) as [e |] eqn:He.
  - cbn [cap_err cap_handler cap_go Handler_LANHosts Handler_MACTable setHandlerMACTable].
    rewrite lookup_insert_eq. repeat split.
    eexists. split; [reflexivity |]. rewrite map_map. reflexivity.
  - cbn [cap_err cap_handler]. rewrite He. repeat split.
Qed.

End EngineFacts.

(** X13 (instance): the hunt of 192.168.0.200 starts the three IPv4
    plugins when none of them fails. *)
Lemma lockAndStartHunt_success_witness :
  let r := Engine.lockAndStartHunt Samples.stageNormal Samples.huntOk Samples.huntOk
             Samples.huntOk Samples.huntOk Samples.engine
             (Packet.Host_Addr Fixtures.host200) in
  (Net.To4 [192; 168; 0; 200] <> [] /\ Samples.stageNormal (Packet.Host_Addr Fixtures.host200)
                                       = Packet.StageRedirected
   /\ Engine.hunt_handler r = Samples.engine
   /\ Engine.hunt_calls r = [Engine.ICMP4_HuntStage (Packet.Host_Addr Fixtures.host200)])
  \/ (exists host,
        Engine.FindIPNoLock Samples.engine [192; 168; 0; 200] = Some host
        /\ Engine.hunt_handler r
           = Engine.setHandlerLANHosts
               (<[[192; 168; 0; 200] := Engine.setHuntStage Packet.StageHunt host]>
                  (Engine.Handler_LANHosts Samples.engine)) Samples.engine
        /\ Engine.hunt_calls r
           = [Engine.ICMP4_HuntStage (Packet.Host_Addr Fixtures.host200);
              Engine.ARP_StartHunt [192; 168; 0; 200];
              Engine.ICMP4_StartHunt [192; 168; 0; 200];
              Engine.DHCP4_StartHunt [192; 168; 0; 200]]).
Proof.
  apply (lockAndStartHunt_success Samples.stageNormal Samples.huntOk Samples.huntOk
           Samples.huntOk Samples.huntOk Samples.engine (Packet.Host_Addr Fixtures.host200)).
  vm_compute. reflexivity.
Defined.

(** X14 (instance): when ICMP4 fails to start the hunt of
    192.168.0.200, DHCP4 is not started and the host stays marked as
    hunted. *)
Lemma lockAndStartHunt_failure_witness :
  let r := Engine.lockAndStartHunt Samples.stageNormal Samples.huntOk Samples.huntFails
             Samples.huntOk Samples.huntOk Samples.engine
             (Packet.Host_Addr Fixtures.host200) in
  Engine.Handler_LANHosts (Engine.hunt_handler r) !! [192; 168; 0; 200]
    = Some (Engine.setHuntStage Packet.StageHunt Fixtures.host200)
  /\ Engine.hunt_calls r
     = [Engine.ICMP4_HuntStage (Packet.Host_Addr Fixtures.host200);
        Engine.ARP_StartHunt [192; 168; 0; 200];
        Engine.ICMP4_StartHunt [192; 168; 0; 200]].
Proof.
  pose proof (lockAndStartHunt_failure Samples.stageNormal Samples.huntOk Samples.huntFails
                Samples.huntOk Samples.huntOk Samples.engine
                (Packet.Host_Addr Fixtures.host200) Packet.ErrNotFound eq_refl) as H.
  vm_compute in H. destruct H as [Hstage [[H _] | [(_ & _ & Hcalls) | (_ & H & _)]]];
    try discriminate H.
  split; [vm_compute; exact Hstage | vm_compute; exact Hcalls].
Defined.

(** ** The construction of the DHCP handler *)
Section ConfigFacts.
Import Net DHCP4 DHCP4Config.

(** X16: [New] keeps the stored leases exactly when the file could be
    loaded and the stored subnets have the LAN address, gateway, DNS
    server and DHCP server of the two configurations it builds. The
    lease duration, the address range, the netmask and the stage of the
    stored subnets are not compared, because the configurations built by
    [New] leave the duration zero and the range nil. *)
Theorem New_resets_compares_addresses (nic : NICInfo) (netfilterIP : IPNet) (dnsServer : IP)
        (net1 net2 : dhcpSubnet) (table : gmap (list Z) Lease) :
  let home := homeSubnet nic dnsServer in
  let netfilter := netfilterSubnet nic netfilterIP in
  New_resets home netfilter false (Some net1) (Some net2) (Some table)
  = negb (Equal (net_IP (HomeLAN4 nic)) (net_IP (LAN net1))
          && Equal (DefaultGW home) (DefaultGW net1)
          && Equal (DNSServer home) (DNSServer net1)
          && Equal (DHCPServer home) (DHCPServer net1)
          && Equal (Mask (net_IP netfilterIP) (net_Mask netfilterIP)) (net_IP (LAN net2))
          && Equal (To4 (net_IP netfilterIP)) (DefaultGW net2)
          && Equal CloudFlareFamilyDNS1 (DNSServer net2)
          && Equal (net_IP (HostIP4 nic)) (DHCPServer net2)).
Proof.
  cbv zeta. unfold New_resets, configChanged.
  cbn [homeSubnet netfilterSubnet LAN DefaultGW DNSServer DHCPServer Duration FirstIP LastIP
       net_IP Packet.isNil negb andb Z.eqb].
  rewrite !orb_false_r.
  repeat match goal with |- context [Equal ?a ?b] => destruct (Equal a b) end; reflexivity.
Qed.

(** The two comparisons of [Contains] for 4-byte addresses and masks. *)
Lemma Contains_4 (ip m x : list Z) :
  length ip = 4%nat -> length m = 4%nat -> length x = 4%nat ->
  Contains (mkIPNet ip m) x = sameMasked ip m x.
Proof.
  intros Hip Hm Hx.
  destruct ip as [| i0 [| i1 [| i2 [| i3 [| ? ?]]]]]; try discriminate Hip.
  destruct m as [| m0 [| m1 [| m2 [| m3 [| ? ?]]]]]; try discriminate Hm.
  destruct x as [| x0 [| x1 [| x2 [| x3 [| ? ?]]]]]; try discriminate Hx.
  reflexivity.
Qed.

Lemma land_narrower (a b k km : Z) :
  Z.land k km = k -> Z.land a km = Z.land b km -> Z.land b k = Z.land a k.
Proof.
  intros Hk Hab. rewrite <- Hk. rewrite (Z.land_comm k km), !Z.land_assoc. congruence.
Qed.

Lemma sameMasked_narrower (home mh nf mn : list Z) :
  Forall2 (fun k km => Z.land k km = k) mn mh ->
  length home = length mh -> length nf = length mh ->
  sameMasked home mh nf = true -> sameMasked nf mn home = true.
Proof.
  intros Hsub. revert home nf.
  induction Hsub as [| k km mn' mh' Hk _ IH]; intros home nf Hh Hn.
  - destruct nf; reflexivity.
  - destruct home as [| a home']; [discriminate Hh |].
    destruct nf as [| b nf']; [discriminate Hn |].
    cbn [sameMasked]. intros Hsame. apply andb_prop in Hsame as [Hab Hrest].
    apply Z.eqb_eq in Hab. apply andb_true_intro. split.
    + apply Z.eqb_eq. apply (land_narrower a b k km Hk Hab).
    + apply IH; [cbn in Hh; lia | cbn in Hn; lia | exact Hrest].
Qed.

(** X17: [New] returns ErrInvalidIP for every netfilter network whose
    mask has no bit outside the mask of the home LAN, in particular
    when the two masks are the same: the netfilter address must lie in
    the home LAN, and then such a netfilter network contains the
    address of the home LAN. *)
Theorem New_rejects_wide_netfilter (nic : NICInfo) (netfilterIP : IPNet) (dnsServer : IP) :
  length (net_IP (HomeLAN4 nic)) = 4%nat ->
  length (net_Mask (HomeLAN4 nic)) = 4%nat ->
  length (net_IP netfilterIP) = 4%nat ->
  Forall2 (fun k km => Z.land k km = k) (net_Mask netfilterIP) (net_Mask (HomeLAN4 nic)) ->
  New_segment nic netfilterIP dnsServer = Invalid Packet.ErrInvalidIP.
Proof.
  intros Hhome Hmh Hnf Hsub.
  assert (Hmn : length (net_Mask netfilterIP) = 4%nat)
    by (rewrite (Forall2_length _ _ _ Hsub); exact Hmh).
  unfold New_segment, invalidNetworks.
  destruct (HomeLAN4 nic) as [home mh], netfilterIP as [nf mn]. cbn [net_IP net_Mask] in *.
  rewrite !Contains_4 by assumption.
  destruct (sameMasked home mh nf) eqn:Hin; cbn [negb orb]; [| reflexivity].
  rewrite (sameMasked_narrower home mh nf mn Hsub) by (congruence || assumption).
  reflexivity.
Qed.

End ConfigFacts.

(** X17 (instance): the home LAN 192.168.0.0/24 with the netfilter
    network 192.168.1.129/24 is refused. *)
Lemma New_rejects_wide_netfilter_witness :
  DHCP4Config.New_segment Samples.nic24 (Net.mkIPNet [192; 168; 1; 129] [255; 255; 255; 0]) []
  = DHCP4Config.Invalid Packet.ErrInvalidIP.
Proof.
  apply (New_rejects_wide_netfilter Samples.nic24
           (Net.mkIPNet [192; 168; 1; 129] [255; 255; 255; 0]) []);
    try reflexivity.
  repeat constructor.
Defined.

(** ** [ProcessPacket]: what is sent, and what is kept on failure *)
Section DispatchFacts.
Import Net DHCP4.

Variables St Resp HostRef : Type.
Variable handleDiscover : St -> DHCP4 -> Options -> St * Result * option Resp.
Variable handleRequest3 :
  St -> option HostRef -> DHCP4 -> Options -> IP -> St * option HostRef * Result * option Resp.
Variable handleDecline : St -> DHCP4 -> Options -> St * option Resp.
Variable handleRelease : St -> DHCP4 -> Options -> St * option Resp.
Variable processClientPacket : St -> option HostRef -> DHCP4 -> St * option Packet.error.
Variable sendDHCP4Packet : Packet.Addr -> Packet.Addr -> Resp -> option Packet.error.
Variable zeroResult3 : Result.
Variable HostMAC : HardwareAddr.
Variable HostIP4 : IPNet.

Lemma MessageType_of_Z_range (t : Z) (mt : MessageType) :
  MessageType_of_Z t = Some mt -> 1 <= t <= 8.
Proof.
  unfold MessageType_of_Z.
  repeat match goal with
         | |- context [?a =? ?b] => destruct (Z.eqb_spec a b); [intros _; lia |]
         end.
  discriminate.
Qed.

Lemma MessageType_of_Z_inv (t : Z) (mt : MessageType) :
  MessageType_of_Z t = Some mt ->
  match mt with
  | Discover => t = 1 | Offer => t = 2 | Request => t = 3 | Decline => t = 4
  | ACK => t = 5 | NAK => t = 6 | Release => t = 7 | Inform => t = 8
  end.
Proof.
  unfold MessageType_of_Z.
  repeat match goal with
         | |- context [?a =? ?b] => destruct (Z.eqb_spec a b); [intros [= <-]; assumption |]
         end.
  discriminate.
Qed.

(** X18: [ProcessPacket] writes at most one frame, and writes none
    unless the frame is a valid DHCP frame of at least 240 bytes that is
    not addressed to the client port and whose message type is DISCOVER,
    REQUEST, DECLINE or RELEASE. *)
Theorem ProcessPacket_sends_at_most_once (h : St) (host : option HostRef) (f : Frame) :
  let r := ProcessPacket St Resp HostRef handleDiscover handleRequest3 handleDecline
             handleRelease processClientPacket sendDHCP4Packet zeroResult3 HostMAC HostIP4
             h host f in
  (length (pp_sent _ _ _ r) <= 1)%nat
  /\ (pp_sent _ _ _ r <> [] ->
      ip4_IsValid f = true /\ udp_IsValid f = true /\ 240 <= udp_PayloadLen f
      /\ dhcp_IsValid f = true /\ udp_DstPort f <> DHCP4ClientPort
      /\ exists t, dhcp_ParseOptions f !! OptionDHCPMessageType = Some [t]
                   /\ (t = 1 \/ t = 3 \/ t = 4 \/ t = 7)).
Proof.
  cbv zeta. unfold ProcessPacket. cbv zeta.
  destruct (ip4_IsValid f); cbn [negb]; [| split; [cbn; lia | intros []; reflexivity]].
  destruct (udp_IsValid f); cbn [negb orb]; [| split; [cbn; lia | intros []; reflexivity]].
  destruct (Z.ltb_spec (udp_PayloadLen f) 240) as [Hlen | Hlen];
    [split; [cbn; lia | intros []; reflexivity] |].
  destruct (dhcp_IsValid f); cbn [negb]; [| split; [cbn; lia | intros []; reflexivity]].
  destruct (Z.eqb_spec (udp_DstPort f) DHCP4ClientPort) as [Hport | Hport].
  { destruct (processClientPacket h host (dhcpFrame f)).
    split; [cbn; lia | intros []; reflexivity]. }
  destruct (dhcp_ParseOptions f !! OptionDHCPMessageType) as [[| t [| ? ?]] |] eqn:Hopt;
    cbn [default from_option]; unfold id;
    try (split; [cbn; lia | intros []; reflexivity]).
  destruct (MessageType_of_Z t) as [reqType |] eqn:Hmt;
    [| split; [cbn; lia | intros []; reflexivity]].
  apply MessageType_of_Z_inv in Hmt.
  destruct reqType;
    repeat match goal with
      | |- context [handleDiscover ?a ?b ?c] =>
          destruct (handleDiscover a b c) as [[? ?] ?]
      | |- context [handleRequest3 ?a ?b ?c ?d ?e] =>
          destruct (handleRequest3 a b c d e) as [[[? ?] ?] ?]
      | |- context [handleDecline ?a ?b ?c] => destruct (handleDecline a b c) as [? ?]
      | |- context [handleRelease ?a ?b ?c] => destruct (handleRelease a b c) as [? ?]
      end;
    try (split; [cbn; lia | intros []; reflexivity]);
    match goal with
    | o : option Resp |- _ => destruct o as [resp |]
    end;
    try (split; [cbn; lia | intros []; reflexivity]);
    destruct (sendDHCP4Packet _ _ resp); cbn [pp_sent length];
    (split; [lia | intros _; repeat split; try assumption; exists t; split; [reflexivity | tauto]]).
Qed.

(** X19: a frame that fails the validation is dropped with an error
    before any handler sees it: the state and the host are the ones
    given, the result is empty and nothing is written. This holds for an
    invalid IPv4, UDP or DHCP frame, for a UDP payload shorter than 240
    bytes and, on the server port, for a message type option that is
    missing, not one byte long or outside 1..8. *)
Theorem ProcessPacket_rejects_malformed (h : St) (host : option HostRef) (f : Frame) :
  ip4_IsValid f = false \/ udp_IsValid f = false \/ udp_PayloadLen f < 240
  \/ dhcp_IsValid f = false
  \/ (udp_DstPort f <> DHCP4ClientPort
      /\ forall t, dhcp_ParseOptions f !! OptionDHCPMessageType = Some [t] -> ~ 1 <= t <= 8) ->
  let r := ProcessPacket St Resp HostRef handleDiscover handleRequest3 handleDecline
             handleRelease processClientPacket sendDHCP4Packet zeroResult3 HostMAC HostIP4
             h host f in
  pp_state _ _ _ r = h /\ pp_host _ _ _ r = host /\ pp_result _ _ _ r = zeroResult3
  /\ pp_sent _ _ _ r = []
  /\ (pp_err _ _ _ r = Some Packet.ErrInvalidIP \/ pp_err _ _ _ r = Some Packet.ErrParseMessage).
Proof.
  intros Hbad. cbv zeta. unfold ProcessPacket. cbv zeta.
  destruct (ip4_IsValid f) eqn:Hip; cbn [negb]; [| repeat split; left; reflexivity].
  destruct (udp_IsValid f) eqn:Hudp; cbn [negb orb]; [| repeat split; left; reflexivity].
  destruct (Z.ltb_spec (udp_PayloadLen f) 240) as [Hlen | Hlen];
    [repeat split; left; reflexivity |].
  destruct (dhcp_IsValid f) eqn:Hdhcp; cbn [negb]; [| repeat split; right; reflexivity].
  destruct Hbad as [H | [H | [H | [H | [Hport Htype]]]]]; try discriminate H; try lia.
  destruct (Z.eqb_spec (udp_DstPort f) DHCP4ClientPort) as [Hp | _]; [contradiction |].
  destruct (dhcp_ParseOptions f !! OptionDHCPMessageType) as [[| t [| ? ?]] |] eqn:Hopt;
    cbn [default from_option]; unfold id;
    try (repeat split; right; reflexivity).
  destruct (MessageType_of_Z t) as [reqType |] eqn:Hmt;
    [| repeat split; right; reflexivity].
  exfalso. apply (Htype t eq_refl). eapply MessageType_of_Z_range. exact Hmt.
Qed.

(** X20: when the write of the reply to a REQUEST fails, the error of
    the write is returned with an empty result, but the state that the
    REQUEST handler produced is kept. *)
Theorem ProcessPacket_send_failure (h h' : St) (host host' : option HostRef) (f : Frame)
        (result : Result) (response : Resp) (err : Packet.error) :
  ip4_IsValid f = true -> udp_IsValid f = true -> 240 <= udp_PayloadLen f ->
  dhcp_IsValid f = true -> udp_DstPort f <> DHCP4ClientPort ->
  dhcp_ParseOptions f !! OptionDHCPMessageType = Some [3] ->
  handleRequest3 h host (dhcpFrame f) (dhcp_ParseOptions f) (ip4_Src f)
    = (h', host', result, Some response) ->
  (forall src dst, sendDHCP4Packet src dst response = Some err) ->
  let r := ProcessPacket St Resp HostRef handleDiscover handleRequest3 handleDecline
             handleRelease processClientPacket sendDHCP4Packet zeroResult3 HostMAC HostIP4
             h host f in
  pp_state _ _ _ r = h' /\ pp_host _ _ _ r = host'
  /\ pp_result _ _ _ r = zeroResult3 /\ pp_err _ _ _ r = Some err
  /\ length (pp_sent _ _ _ r) = 1%nat.
Proof.
  intros Hip Hudp Hlen Hdhcp Hport Hopt Hreq Hsend.
  cbv zeta. unfold ProcessPacket. cbv zeta.
  rewrite Hip, Hudp, Hdhcp. cbn [negb orb].
  destruct (Z.ltb_spec (udp_PayloadLen f) 240) as [Hlt | _]; [lia |].
  destruct (Z.eqb_spec (udp_DstPort f) DHCP4ClientPort) as [Hp | _]; [contradiction |].
  rewrite Hopt. cbn [default from_option]. unfold id.
  change (MessageType_of_Z 3) with (Some Request). cbv iota beta.
  rewrite Hreq, Hsend. repeat split.
Qed.

End DispatchFacts.

(** X19 (instance): a frame with an invalid UDP header is dropped. *)
Lemma ProcessPacket_rejects_malformed_witness :
  let r := DHCP4.ProcessPacket unit DHCP4.Reply unit Fixtures.quietDiscover Fixtures.nakRequest
             Fixtures.quietHandler Fixtures.quietHandler Fixtures.quietClient Fixtures.sendOk
             Fixtures.noResult Fixtures.hostMAC (Net.mkIPNet Fixtures.hostIP4 [255; 255; 255; 0])
             tt None Samples.badUDPFrame in
  DHCP4.pp_state _ _ _ r = tt /\ DHCP4.pp_host _ _ _ r = None
  /\ DHCP4.pp_result _ _ _ r = Fixtures.noResult
  /\ DHCP4.pp_sent _ _ _ r = []
  /\ (DHCP4.pp_err _ _ _ r = Some Packet.ErrInvalidIP
      \/ DHCP4.pp_err _ _ _ r = Some Packet.ErrParseMessage).
Proof.
  apply (ProcessPacket_rejects_malformed unit DHCP4.Reply unit Fixtures.quietDiscover
           Fixtures.nakRequest Fixtures.quietHandler Fixtures.quietHandler Fixtures.quietClient
           Fixtures.sendOk Fixtures.noResult Fixtures.hostMAC
           (Net.mkIPNet Fixtures.hostIP4 [255; 255; 255; 0]) tt None Samples.badUDPFrame).
  right. left. reflexivity.
Defined.

(** X20 (instance): the NAK of a REQUEST cannot be written. *)
Lemma ProcessPacket_send_failure_witness :
  let r := DHCP4.ProcessPacket unit DHCP4.Reply unit Fixtures.quietDiscover Fixtures.nakRequest
             Fixtures.quietHandler Fixtures.quietHandler Fixtures.quietClient Samples.sendFails
             Fixtures.noResult Fixtures.hostMAC (Net.mkIPNet Fixtures.hostIP4 [255; 255; 255; 0])
             tt None Fixtures.requestFrame in
  DHCP4.pp_state _ _ _ r = tt /\ DHCP4.pp_host _ _ _ r = None
  /\ DHCP4.pp_result _ _ _ r = Fixtures.noResult
  /\ DHCP4.pp_err _ _ _ r = Some Packet.ErrNotFound
  /\ length (DHCP4.pp_sent _ _ _ r) = 1%nat.
Proof.
  apply (ProcessPacket_send_failure unit DHCP4.Reply unit Fixtures.quietDiscover
           Fixtures.nakRequest Fixtures.quietHandler Fixtures.quietHandler Fixtures.quietClient
           Samples.sendFails Fixtures.noResult Fixtures.hostMAC
           (Net.mkIPNet Fixtures.hostIP4 [255; 255; 255; 0]) tt tt None None
           Fixtures.requestFrame Fixtures.noResult
           (Fixtures.nakReply (Fixtures.requestFrom Fixtures.mac1 [0; 0; 0; 0]))
           Packet.ErrNotFound);
    try reflexivity.
  - vm_compute. discriminate.
  - vm_compute. discriminate.
Defined.

(** ** The ARP frame *)
Section ARPFacts.
Import Net ARP.

Lemma Uint16_PutUint16 (v : Z) : Uint16 (PutUint16 v) = v mod 65536.
Proof.
  unfold Uint16, PutUint16, byteAt. cbn [nth].
  assert (Hv : 0 <= v mod 65536 < 65536) by (apply Z.mod_pos_bound; lia).
  set (w := v mod 65536) in *.
  apply Z.bits_inj'. intros n Hn.
  rewrite Z.lor_spec. change 255 with (Z.ones 8).
  rewrite Z.land_ones by lia.
  destruct (Z.lt_ge_cases n 8) as [Hlt | Hge].
  - rewrite Z.mod_pow2_bits_low by lia.
    rewrite Z.shiftl_spec_low by lia. apply orb_false_r.
  - rewrite Z.mod_pow2_bits_high by lia.
    rewrite Z.shiftl_spec by lia. rewrite Z.shiftr_spec by lia.
    cbn [orb]. f_equal. lia.
Qed.

Tactic Notation "explode" ident(l) integer(n) :=
  do n (destruct l as [| ? l]; [cbn in *; lia |]).

(** With a buffer of 28 bytes or more, or none, and addresses that
    are long enough, the frame is [wireFrame], whatever the buffer
    held. *)
Lemma MarshalBinary_frame (b : option bytes) (operation : Z) (srcAddr dstAddr : Packet.Addr) :
  match b with Some b' => (arpLen <= length b')%nat | None => True end ->
  (6 <= length (Packet.Addr_MAC srcAddr))%nat ->
  (4 <= length (Packet.Addr_IP srcAddr))%nat ->
  (6 <= length (Packet.Addr_MAC dstAddr))%nat ->
  (4 <= length (Packet.Addr_IP dstAddr))%nat ->
  MarshalBinary b operation srcAddr dstAddr = Frame (wireFrame operation srcAddr dstAddr).
Proof.
  destruct srcAddr as [smac sip sport], dstAddr as [dmac dip dport].
  cbn [Packet.Addr_MAC Packet.Addr_IP].
  intros Hb Hsm Hsi Hdm Hdi.
  unfold MarshalBinary, wireFrame, PutUint16. cbn [Packet.Addr_MAC Packet.Addr_IP].
  remember (Z.shiftr (operation mod 65536) 8) as o1.
  remember (Z.land (operation mod 65536) 255) as o2.
  explode smac 6. explode sip 4. explode dmac 6. explode dip 4.
  destruct b as [b' |].
  - unfold arpLen in Hb. explode b' 28. vm_compute. reflexivity.
  - vm_compute. reflexivity.
Qed.


Lemma slice_length (b : bytes) (lo hi : nat) :
  (lo <= hi)%nat -> (hi <= length b)%nat ->
  exists s, slice b lo hi = Some s /\ length s = (hi - lo)%nat.
Proof.
  intros Hlo Hhi. unfold slice.
  destruct (Nat.leb_spec hi (length b)) as [_ | Hlt]; [| lia].
  eexists. split; [reflexivity |]. rewrite length_take, length_drop. lia.
Qed.

(** The fields read back from [wireFrame]. *)
Lemma wireFrame_fields (operation : Z) (srcAddr dstAddr : Packet.Addr) :
  (6 <= length (Packet.Addr_MAC srcAddr))%nat ->
  (4 <= length (Packet.Addr_IP srcAddr))%nat ->
  (6 <= length (Packet.Addr_MAC dstAddr))%nat ->
  (4 <= length (Packet.Addr_IP dstAddr))%nat ->
  let arp := wireFrame operation srcAddr dstAddr in
  length arp = arpLen
  /\ IsValid arp = true
  /\ Operation arp = Some (operation mod 65536)
  /\ SrcMAC arp = Some (take 6 (Packet.Addr_MAC srcAddr))
  /\ SrcIP arp = Some (take 4 (Packet.Addr_IP srcAddr))
  /\ DstMAC arp = Some (take 6 (Packet.Addr_MAC dstAddr))
  /\ DstIP arp = Some (take 4 (Packet.Addr_IP dstAddr)).
Proof.
  destruct srcAddr as [smac sip sport], dstAddr as [dmac dip dport].
  cbn [Packet.Addr_MAC Packet.Addr_IP].
  intros Hsm Hsi Hdm Hdi.
  assert (Hop : Operation (wireFrame operation (Packet.mkAddr smac sip sport)
                             (Packet.mkAddr dmac dip dport))
                = Some (Uint16 (PutUint16 operation))) by reflexivity.
  rewrite Uint16_PutUint16 in Hop.
  split; [| split; [| split; [exact Hop |]]]; clear Hop;
    unfold wireFrame, PutUint16; cbn [Packet.Addr_MAC Packet.Addr_IP];
    remember (Z.shiftr (operation mod 65536) 8) as o1;
    remember (Z.land (operation mod 65536) 255) as o2;
    explode smac 6; explode sip 4; explode dmac 6; explode dip 4;
    vm_compute; repeat split.
Qed.

(** X21: for addresses with at least six MAC bytes and four IP bytes,
    and a buffer that is nil or holds at least 28 bytes, [MarshalBinary]
    returns a frame of 28 bytes that [IsValid] accepts and whose
    accessors give back the operation, the first six bytes of each MAC
    and the first four bytes of each IP. *)
Theorem MarshalBinary_round_trip (b : option bytes) (operation : Z)
        (srcAddr dstAddr : Packet.Addr) :
  match b with Some b' => (arpLen <= length b')%nat | None => True end ->
  (6 <= length (Packet.Addr_MAC srcAddr))%nat ->
  (4 <= length (Packet.Addr_IP srcAddr))%nat ->
  (6 <= length (Packet.Addr_MAC dstAddr))%nat ->
  (4 <= length (Packet.Addr_IP dstAddr))%nat ->
  exists arp,
    MarshalBinary b operation srcAddr dstAddr = Frame arp
    /\ length arp = arpLen
    /\ IsValid arp = true
    /\ Operation arp = Some (operation mod 65536)
    /\ SrcMAC arp = Some (take 6 (Packet.Addr_MAC srcAddr))
    /\ SrcIP arp = Some (take 4 (Packet.Addr_IP srcAddr))
    /\ DstMAC arp = Some (take 6 (Packet.Addr_MAC dstAddr))
    /\ DstIP arp = Some (take 4 (Packet.Addr_IP dstAddr)).
Proof.
  intros Hb Hsm Hsi Hdm Hdi. exists (wireFrame operation srcAddr dstAddr).
  split; [apply MarshalBinary_frame; assumption |].
  apply wireFrame_fields; assumption.
Qed.

(** X22: [MarshalBinary] copies the FIRST four bytes of the IP slices:
    for a sender address in the 16-byte form that [net.IPv4] builds,
    the sender IP of the frame is 0.0.0.0, whatever the address. *)
Theorem MarshalBinary_sixteen_byte_sender (b : option bytes) (operation : Z)
        (mac : HardwareAddr) (a1 a2 a3 a4 port : Z) (dstAddr : Packet.Addr) :
  match b with Some b' => (arpLen <= length b')%nat | None => True end ->
  (6 <= length mac)%nat ->
  (6 <= length (Packet.Addr_MAC dstAddr))%nat ->
  (4 <= length (Packet.Addr_IP dstAddr))%nat ->
  exists arp,
    MarshalBinary b operation (Packet.mkAddr mac (IPv4 a1 a2 a3 a4) port) dstAddr = Frame arp
    /\ SrcIP arp = Some [0; 0; 0; 0]
    /\ To4 (IPv4 a1 a2 a3 a4) = [a1; a2; a3; a4].
Proof.
  intros Hb Hm Hdm Hdi.
  assert (Hsi : (4 <= length (Packet.Addr_IP (Packet.mkAddr mac (IPv4 a1 a2 a3 a4) port)))%nat)
    by (cbn; lia).
  exists (wireFrame operation (Packet.mkAddr mac (IPv4 a1 a2 a3 a4) port) dstAddr).
  split; [apply MarshalBinary_frame; assumption |].
  split; [| reflexivity].
  destruct (wireFrame_fields operation (Packet.mkAddr mac (IPv4 a1 a2 a3 a4) port) dstAddr
              Hm Hsi Hdm Hdi) as (_ & _ & _ & _ & Hsrc & _).
  rewrite Hsrc. reflexivity.
Qed.


(** X24: a frame that [IsValid] accepts holds all the fields: every
    accessor is within the slice, the MACs have six bytes and the IPs
    four. The operation is not looked at: a frame with an operation
    other than request or reply is accepted. *)
Theorem IsValid_guards_accessors (b : bytes) :
  IsValid b = true ->
  HType b = Some 1 /\ Proto b = Some ETH_P_IP /\ HLen b = Some 6 /\ PLen b = Some 4
  /\ (exists op, Operation b = Some op)
  /\ (exists mac, SrcMAC b = Some mac /\ length mac = 6%nat)
  /\ (exists ip, SrcIP b = Some ip /\ length ip = 4%nat)
  /\ (exists mac, DstMAC b = Some mac /\ length mac = 6%nat)
  /\ (exists ip, DstIP b = Some ip /\ length ip = 4%nat).
Proof.
  unfold IsValid.
  destruct (Nat.ltb_spec (length b) arpLen) as [| Hlen]; [discriminate |].
  unfold arpLen in Hlen.
  destruct (bool_decide (HType b = Some 1)) eqn:H1; [| discriminate].
  destruct (bool_decide (Proto b = Some ETH_P_IP)) eqn:H2; [| discriminate].
  destruct (bool_decide (HLen b = Some 6)) eqn:H3; [| discriminate].
  destruct (bool_decide (PLen b = Some 4)) eqn:H4; [| discriminate].
  intros _. apply bool_decide_eq_true in H1, H2, H3, H4.
  repeat split; try assumption.
  - destruct (slice_length b 6 8) as (s & Hs & _); [lia | lia |].
    exists (Uint16 s). unfold Operation. rewrite Hs. reflexivity.
  - destruct (slice_length b 8 14) as (s & Hs & Hl); [lia | lia |]. exists s. auto.
  - destruct (slice_length b 14 18) as (s & Hs & Hl); [lia | lia |]. exists s. auto.
  - destruct (slice_length b 18 24) as (s & Hs & Hl); [lia | lia |]. exists s. auto.
  - destruct (slice_length b 24 28) as (s & Hs & Hl); [lia | lia |]. exists s. auto.
Qed.

End ARPFacts.

(** ** The configuration of the ARP handler, and the announcement *)
Section ARPConfigFacts.
Import Net ARP.

Lemma To4_length (ip : IP) : To4 ip = [] \/ length (To4 ip) = 4%nat.
Proof.
  unfold To4.
  destruct (Nat.eqb_spec (length ip) IPv4len) as [H4 | _]; [right; exact H4 |].
  destruct (Nat.eqb_spec (length ip) IPv6len) as [H16 | _]; cbn [andb]; [| left; reflexivity].
  destruct (isZeros (take 10 ip) && (byteAt ip 10 =? 255) && (byteAt ip 11 =? 255));
    [| left; reflexivity].
  right. rewrite length_drop, H16. reflexivity.
Qed.

Lemma To4_idempotent (ip : IP) : To4 (To4 ip) = To4 ip.
Proof.
  destruct (To4_length ip) as [-> | Hlen]; [reflexivity |].
  unfold To4 at 1. rewrite Hlen. reflexivity.
Qed.

(** X25: whatever the configuration, the handler that [newHandler]
    returns scans at an interval in (0, 12 h], probes at an interval in
    (0, 10 min], and has an offline deadline longer than the probe
    interval. Its purge deadline is longer than the offline deadline
    unless the offline deadline is 61 minutes or more, in which case it
    may be set to 61 minutes, below the offline deadline. A
    configuration that [newHandler] returned is returned unchanged. *)
Theorem newHandler_intervals (config : Config) :
  let c := newHandler config in
  0 < FullNetworkScanInterval c <= Packet.Hour * 12
  /\ 0 < ProbeInterval c <= Packet.Minute * 10
  /\ ProbeInterval c < OfflineDeadline c
  /\ (OfflineDeadline c < PurgeDeadline c
      \/ (PurgeDeadline c = Packet.Minute * 61 /\ Packet.Minute * 61 <= OfflineDeadline c))
  /\ newHandler c = c.
Proof.
  cbv zeta. unfold newHandler.
  cbn [FullNetworkScanInterval ProbeInterval OfflineDeadline PurgeDeadline
       NIC HostMAC HostIP RouterIP HomeLAN].
  rewrite !To4_idempotent.
  destruct config as [nic hmac hip rip lan scan probe offline purge].
  cbn [FullNetworkScanInterval ProbeInterval OfflineDeadline PurgeDeadline
       NIC HostMAC HostIP RouterIP HomeLAN].
  remember (if (scan <=? 0) || (Packet.Hour * 12 <? scan) then Packet.Minute * 60 else scan)
    as scan' eqn:Hscan.
  remember (if (probe <=? 0) || (Packet.Minute * 10 <? probe) then Packet.Minute * 2 else probe)
    as probe' eqn:Hprobe.
  remember (if offline <=? probe' then probe' * 2 else offline) as offline' eqn:Hoffline.
  remember (if purge <=? offline' then Packet.Minute * 61 else purge) as purge' eqn:Hpurge.
  assert (Hs : 0 < scan' <= Packet.Hour * 12).
  { subst scan'. unfold Packet.Hour, Packet.Minute, Packet.Second.
    destruct (Z.leb_spec scan 0); cbn [orb]; [lia |].
    destruct (Z.ltb_spec (60 * (60 * 1000000000) * 12) scan); lia. }
  assert (Hp : 0 < probe' <= Packet.Minute * 10).
  { subst probe'. unfold Packet.Minute, Packet.Second.
    destruct (Z.leb_spec probe 0); cbn [orb]; [lia |].
    destruct (Z.ltb_spec (60 * 1000000000 * 10) probe); lia. }
  assert (Ho : probe' < offline').
  { subst offline'. destruct (Z.leb_spec offline probe'); lia. }
  assert (Hu : offline' < purge'
               \/ (purge' = Packet.Minute * 61 /\ Packet.Minute * 61 <= offline')).
  { subst purge'. destruct (Z.leb_spec purge offline'); [| left; lia].
    destruct (Z.lt_ge_cases offline' (Packet.Minute * 61)); [left; lia | right; lia]. }
  repeat split; try lia.
  assert (E1 : (scan' <=? 0) || (Packet.Hour * 12 <? scan') = false).
  { destruct (Z.leb_spec scan' 0); [lia |].
    destruct (Z.ltb_spec (Packet.Hour * 12) scan'); [lia | reflexivity]. }
  assert (E2 : (probe' <=? 0) || (Packet.Minute * 10 <? probe') = false).
  { destruct (Z.leb_spec probe' 0); [lia |].
    destruct (Z.ltb_spec (Packet.Minute * 10) probe'); [lia | reflexivity]. }
  assert (E3 : (offline' <=? probe') = false) by (apply Z.leb_gt; lia).
  rewrite E1, E2, E3. f_equal.
  destruct (Z.leb_spec purge' offline'); [| reflexivity].
  destruct Hu as [Hu | [Hu _]]; [lia | symmetry; exact Hu].
Qed.

(** X26: on a handler made by [newHandler], [Begin] always starts the
    scan loop and the scan of the home LAN besides the probe and purge
    loops: an interval of zero in the configuration does not switch the
    scan off, it is replaced by 60 minutes. *)
Theorem Begin_always_scans (config : Config) :
  let c := newHandler config in
  Begin c None
  = (None, [GoScanLoop (FullNetworkScanInterval c);
            GoProbeOnlineLoop (ProbeInterval c);
            GoPurgeLoop (OfflineDeadline c) (PurgeDeadline c);
            GoScanNetwork (HomeLAN config)])
  /\ (FullNetworkScanInterval config = 0 -> FullNetworkScanInterval c = Packet.Minute * 60).
Proof.
  cbv zeta. split.
  - unfold Begin.
    assert (Hscan : (FullNetworkScanInterval (newHandler config) =? 0) = false).
    { apply Z.eqb_neq. unfold newHandler. cbn [FullNetworkScanInterval].
      unfold Packet.Hour, Packet.Minute, Packet.Second.
      destruct (Z.leb_spec (FullNetworkScanInterval config) 0); cbn [orb]; [lia |].
      destruct (Z.ltb_spec (60 * (60 * 1000000000) * 12) (FullNetworkScanInterval config)); lia. }
    rewrite Hscan. reflexivity.
  - intros Hzero. unfold newHandler. cbn [FullNetworkScanInterval]. rewrite Hzero. reflexivity.
Qed.

Lemma announceLoop_repeat (fuel : nat) (i repeats : Z) (call : RequestCall) :
  (Z.to_nat (repeats - i) <= fuel)%nat ->
  announceLoop fuel i repeats call = repeat call (Z.to_nat (repeats - i)).
Proof.
  revert i. induction fuel as [| fuel IH]; intros i Hfuel; cbn [announceLoop].
  - replace (Z.to_nat (repeats - i)) with 0%nat by lia. reflexivity.
  - destruct (Z.ltb_spec i repeats) as [Hlt | Hge].
    + rewrite IH by lia.
      replace (Z.to_nat (repeats - i)) with (S (Z.to_nat (repeats - (i + 1)))) by lia.
      reflexivity.
    + replace (Z.to_nat (repeats - i)) with 0%nat by lia. reflexivity.
Qed.

(** X27: [announce] makes the same call [max(1, repeats)] times in
    all, one before it returns and the others from its goroutine: with
    [repeats] zero or negative one announcement is still sent. The
    sender and the target IP of the call are both the announced IP, and
    only the error of the first call is returned. *)
Theorem announce_calls (requestErr : RequestCall -> option Packet.error)
        (dstEther mac : HardwareAddr) (ip : IP) (targetMac : HardwareAddr) (repeats : Z) :
  let '(err, first, later) := announce requestErr dstEther mac ip targetMac repeats in
  first = mkRequestCall dstEther mac ip targetMac ip
  /\ err = requestErr first
  /\ later = repeat first (Z.to_nat (repeats - 1))
  /\ Z.of_nat (length (first :: later)) = Z.max 1 repeats.
Proof.
  unfold announce. rewrite announceLoop_repeat by lia.
  repeat split. cbn [length]. rewrite repeat_length. lia.
Qed.

End ARPConfigFacts.

(** ** The routers learnt from router advertisements *)
Section RouterFacts.
Import Net NDP.

(** X28: after [findOrCreateRouter] the router returned is the one
    stored under the IP; [found] tells whether the IP was in the map,
    and then the map is unchanged and the router keeps the MAC it was
    created with, whatever MAC is given; the other entries are never
    touched, and a second call for the IP finds the same router. *)
Theorem findOrCreateRouter_result (t : gmap (list Z) Router) (mac mac' : HardwareAddr)
        (ip : IP) :
  let '(t', r, found) := findOrCreateRouter t mac ip in
  t' !! ip = Some r
  /\ found = bool_decide (is_Some (t !! ip))
  /\ (forall k, k <> ip -> t' !! k = t !! k)
  /\ (if found then t' = t /\ t !! ip = Some r else r = newRouter mac ip)
  /\ findOrCreateRouter t' mac' ip = (t', r, true).
Proof.
  unfold findOrCreateRouter. destruct (t !! ip) as [r |] eqn:Hip.
  - rewrite Hip. repeat split; auto.
  - rewrite lookup_insert_eq. repeat split; auto.
    intros k Hk. apply lookup_insert_ne. congruence.
Qed.

(** [startRADVS] never fails and always leaves, under the
    link-local IP of the host (the empty key when the host has none), a
    router with the service enabled, the flags given, a reachable time
    of 600000 ms, within the limit of one hour, and a retransmit timer
    of 120000 ms. A router already stored under that IP keeps its
    address, MAC included; the other routers are not touched. *)
Theorem startRADVS_installs (nic : Packet.NICInfo) (mtu : Z) (t : gmap (list Z) Router)
        (managed other : bool) (prefixes : list PrefixInformation)
        (rdnss : option RecursiveDNSServer) :
  let '(t', r, _) := startRADVS nic mtu t managed other prefixes rdnss in
  let ip := net_IP (Packet.HostLLA nic) in
  t' !! ip = Some r
  /\ enableRADVS r = true /\ ManagedFlag r = managed /\ OtherCondigFlag r = other
  /\ ReacheableTime r = 600000 /\ ReacheableTime r <= 3600000 /\ RetransTimer r = 120000
  /\ CurHopLimit r = 1 /\ DefaultLifetime r = Packet.Minute * 30
  /\ Router_Addr r = match t !! ip with
                     | Some old => Router_Addr old
                     | None => Packet.mkAddr (Packet.HostMAC nic) ip 0
                     end
  /\ (forall k, k <> ip -> t' !! k = t !! k).
Proof.
  unfold startRADVS, findOrCreateRouter.
  assert (Hreach : Packet.Minute * 10 / 1000000 = 600000) by reflexivity.
  assert (Hretr : Packet.Minute * 2 / 1000000 = 120000) by reflexivity.
  destruct (t !! net_IP (Packet.HostLLA nic)) as [old |] eqn:Hip; cbv zeta;
    rewrite lookup_insert_eq;
    cbn [enableRADVS ManagedFlag OtherCondigFlag ReacheableTime RetransTimer CurHopLimit
         DefaultLifetime Router_Addr newRouter];
    rewrite ?Hreach, ?Hretr.
  - repeat split; [lia |].
    intros k Hk. rewrite lookup_insert_ne by congruence. reflexivity.
  - repeat split; [lia |].
    intros k Hk. rewrite !lookup_insert_ne by congruence. reflexivity.
Qed.

End RouterFacts.

Section AdvertisementFacts.
Import Net NDP Handler6.

Variable ethAddrLen : nat.
Variable nic : Packet.NICInfo.

Lemma incr_small (c : Z) :
  -1 <= c < 9223372036854775807 -> incr c = c + 1.
Proof.
  intros Hc. unfold incr.
  rewrite Z.mod_small by lia. lia.
Qed.

Lemma rem4_mod4 (c : Z) : 0 <= c -> (Z.rem c 4 =? 0) = (c mod 4 =? 0).
Proof. intros Hc. rewrite Z.rem_mod_nonneg by lia. reflexivity. Qed.

(** One advertisement: the counter goes up by one, and the sender is
    recorded exactly when the new value of the counter is a multiple
    of four. *)
Lemma ProcessPacket_advertisement (h : State) (p : Packet6) (k : IP) :
  isAdvertisement p ->
  -1 <= repeat_ h < 9223372036854775807 ->
  let h' := pp_state (ProcessPacket ethAddrLen nic h false p) in
  repeat_ h' = repeat_ h + 1
  /\ (is_Some (LANRouters h' !! k)
      <-> is_Some (LANRouters h !! k) \/ (ip6_Src p = k /\ (repeat_ h + 1) mod 4 = 0)).
Proof.
  intros [Hvalid Hmsg] Hc. cbv zeta. unfold ProcessPacket. rewrite Hvalid. cbn [negb].
  destruct (icmp_msg p) as [| | valid options managed other pref hop life reach retr
                            | | | | | | | | |]; try contradiction.
  destruct valid; [| contradiction]. destruct options as [err | options]; [contradiction |].
  cbn [negb repeat_ LANRouters huntListLen]. rewrite (incr_small _ Hc).
  rewrite rem4_mod4 by lia.
  destruct (Z.eqb_spec ((repeat_ h + 1) mod 4) 0) as [Hz | Hnz]; cbn [negb].
  - unfold findOrCreateRouter.
    destruct (LANRouters h !! ip6_Src p) as [r |] eqn:Hsrc;
      cbn [pp_state repeat_ LANRouters]; (split; [reflexivity |]).
    + destruct (decide (k = ip6_Src p)) as [-> | Hne].
      * rewrite lookup_insert_eq. split; [intros _; left; eauto | intros _; eauto].
      * rewrite lookup_insert_ne by congruence.
        split; [intros H; left; exact H | intros [H | [Hk _]]; [exact H | congruence]].
    + destruct (decide (k = ip6_Src p)) as [-> | Hne].
      * rewrite lookup_insert_eq. split; [intros _; right; auto | intros _; eauto].
      * rewrite !lookup_insert_ne by congruence.
        split; [intros H; left; exact H | intros [H | [Hk _]]; [exact H | congruence]].
  - cbn [pp_state repeat_ LANRouters]. split; [reflexivity |].
    split; [intros H; left; exact H | intros [H | [_ Hz]]; [exact H | contradiction]].
Qed.

Lemma processAll_advertisements (frames : list Packet6) (h : State) (k : IP) :
  Forall isAdvertisement frames ->
  -1 <= repeat_ h ->
  repeat_ h + Z.of_nat (length frames) < 9223372036854775807 ->
  is_Some (LANRouters (processAll ethAddrLen nic h frames) !! k)
  <-> is_Some (LANRouters h !! k)
      \/ exists i p, frames !! i = Some p /\ ip6_Src p = k
                     /\ (repeat_ h + 1 + Z.of_nat i) mod 4 = 0.
Proof.
  intros Hall. revert h. induction Hall as [| p rest Hp _ IH]; intros h Hlo Hhi.
  - cbn [processAll]. split; [intros H; left; exact H |].
    intros [H | (i & p & Hi & _)]; [exact H | discriminate Hi].
  - cbn [processAll]. cbn [length] in Hhi.
    destruct (ProcessPacket_advertisement h p k Hp) as [Hrep Hone]; [lia |].
    rewrite IH by (rewrite ?Hrep; lia). rewrite Hone, Hrep. split.
    + intros [[H | [Hsrc Hz]] | (i & q & Hi & Hsrc & Hz)].
      * left. exact H.
      * right. exists 0%nat, p. repeat split; [exact Hsrc |].
        rewrite Z.add_0_r. exact Hz.
      * right. exists (S i), q. repeat split; [exact Hi | exact Hsrc |].
        replace (repeat_ h + 1 + Z.of_nat (S i)) with (repeat_ h + 1 + 1 + Z.of_nat i) by lia.
        exact Hz.
    + intros [H | (i & q & Hi & Hsrc & Hz)]; [left; left; exact H |].
      destruct i as [| i].
      * injection Hi as <-. left. right. split; [exact Hsrc |].
        rewrite Z.add_0_r in Hz. exact Hz.
      * right. exists i, q. repeat split; [exact Hi | exact Hsrc |].
        replace (repeat_ h + 1 + 1 + Z.of_nat i) with (repeat_ h + 1 + Z.of_nat (S i)) by lia.
        exact Hz.
Qed.

(** X29: of the valid router advertisements received since the start
    of the program, only the first, the fifth, the ninth and so on are
    looked at, whoever sent them: after a run of advertisements the
    routers known are exactly the senders of the advertisements at the
    positions 0, 4, 8, ... of the run. A router whose advertisements
    always arrive at other positions is never learnt. *)
Theorem advertisements_every_fourth (frames : list Packet6) (hunted : nat) (k : IP) :
  Forall isAdvertisement frames ->
  Z.of_nat (length frames) < 4611686018427387904 ->
  is_Some (LANRouters (processAll ethAddrLen nic (mkState ∅ hunted (-1)) frames) !! k)
  <-> exists i p, frames !! i = Some p /\ ip6_Src p = k /\ (i mod 4 = 0)%nat.
Proof.
  intros Hall Hlen.
  rewrite (processAll_advertisements frames (mkState ∅ hunted (-1)) k Hall)
    by (cbn [repeat_]; lia).
  cbn [repeat_ LANRouters]. rewrite lookup_empty. split.
  - intros [[x Hx] | (i & p & Hi & Hsrc & Hz)]; [discriminate Hx |].
    exists i, p. repeat split; [exact Hi | exact Hsrc |].
    replace (-1 + 1 + Z.of_nat i) with (Z.of_nat i) in Hz by lia.
    apply Nat2Z.inj. rewrite Nat2Z.inj_mod. exact Hz.
  - intros (i & p & Hi & Hsrc & Hz). right. exists i, p. repeat split; [exact Hi | exact Hsrc |].
    replace (-1 + 1 + Z.of_nat i) with (Z.of_nat i) by lia.
    apply (f_equal Z.of_nat) in Hz. rewrite Nat2Z.inj_mod in Hz. exact Hz.
Qed.

(** X30: [ProcessPacket] changes the state only for a valid router
    advertisement, and sends a neighbour solicitation only for a valid
    neighbour solicitation from a specified source whose target is a
    global unicast address; the solicitation sent comes from the host's
    link-local address, goes to the destination of the frame received
    and asks for the same target. *)
Theorem ProcessPacket_quiet (h : State) (hostNil : bool) (p : Packet6) :
  let r := ProcessPacket ethAddrLen nic h hostNil p in
  (pp_state r = h
   \/ (icmp_IsValid p = true
       /\ exists options managed other pref hop life reach retr,
            icmp_msg p = RouterAdvertisement true options managed other pref hop life
                                             reach retr))
  /\ (forall src dst target,
        In (SendNeighbourSolicitation src dst target) (pp_events r) ->
        icmp_msg p = NeighborSolicitation true target
        /\ IsUnspecified (ip6_Src p) = false /\ IsGlobalUnicast target = true
        /\ src = Packet.mkAddr (Packet.HostMAC nic) (net_IP (Packet.HostLLA nic)) 0
        /\ dst = Packet.mkAddr (ether_Dst p) (ip6_Dst p) 0).
Proof.
  cbv zeta. unfold ProcessPacket.
  destruct (icmp_IsValid p); cbn [negb]; [| split; [left; reflexivity | intros ? ? ? []]].
  destruct (icmp_msg p) as [valid override solicited lla target | valid target
                            | valid options managed other pref hop life reach retr
                            | invalid | valid id | | | | | valid | | t].
  - destruct valid; cbn [negb]; [| split; [left; reflexivity | intros ? ? ? []]].
    destruct (override && negb solicited); [destruct (Packet.isNil lla) |];
      (split; [left; reflexivity | intros ? ? ? []]).
  - destruct valid; cbn [negb]; [| split; [left; reflexivity | intros ? ? ? []]].
    destruct (IsUnspecified (ip6_Src p)) eqn:Hun;
      [split; [left; reflexivity | intros ? ? ? []] |].
    destruct (IsGlobalUnicast target) eqn:Hgu;
      [| split; [left; reflexivity | intros ? ? ? []]].
    split; [left; reflexivity |].
    intros src dst target' [[= <- <- <-] | []]. repeat split; assumption.
  - destruct valid; cbn [negb]; [| split; [left; reflexivity | intros ? ? ? []]].
    split; [right; split; [reflexivity | do 8 eexists; reflexivity] |].
    intros src dst target.
    destruct (negb (Z.rem _ 4 =? 0)); [| destruct hostNil; [| destruct options as [e | o]]];
      try (destruct (findOrCreateRouter _ _ _) as [[? ?] ?]);
      cbn [pp_events]; destruct (0 <? huntListLen h)%nat;
      intros Hin; cbn [In] in Hin; intuition discriminate.
  - destruct invalid; (split; [left; reflexivity | intros ? ? ? []]).
  - destruct valid; cbn [negb]; (split; [left; reflexivity |]);
      [intros ? ? ? [H | []]; discriminate H | intros ? ? ? []].
  - split; [left; reflexivity | intros ? ? ? []].
  - split; [left; reflexivity | intros ? ? ? []].
  - split; [left; reflexivity | intros ? ? ? []].
  - split; [left; reflexivity | intros ? ? ? []].
  - destruct valid; cbn [negb]; (split; [left; reflexivity | intros ? ? ? []]).
  - split; [left; reflexivity | intros ? ? ? []].
  - split; [left; reflexivity | intros ? ? ? []].
Qed.

End AdvertisementFacts.

(** X21 (instance): the ARP request of the host for 192.168.0.200,
    written into a fresh buffer. *)
Lemma MarshalBinary_round_trip_witness :
  exists arp,
    ARP.MarshalBinary None ARP.OperationRequest Samples.arpSrc Samples.arpDst = ARP.Frame arp
    /\ length arp = ARP.arpLen
    /\ ARP.IsValid arp = true
    /\ ARP.Operation arp = Some (ARP.OperationRequest mod 65536)
    /\ ARP.SrcMAC arp = Some (take 6 Fixtures.hostMAC)
    /\ ARP.SrcIP arp = Some (take 4 Fixtures.hostIP4)
    /\ ARP.DstMAC arp = Some (take 6 Packet.EthBroadcast)
    /\ ARP.DstIP arp = Some (take 4 [192; 168; 0; 200]).
Proof.
  apply (MarshalBinary_round_trip None ARP.OperationRequest Samples.arpSrc Samples.arpDst);
    [exact I | cbn; lia ..].
Defined.

(** X22 (instance): the host announced with [net.IPv4(192, 168, 0, 129)]
    appears as 0.0.0.0 in the frame. *)
Lemma MarshalBinary_sixteen_byte_sender_witness :
  exists arp,
    ARP.MarshalBinary None ARP.OperationRequest
      (Packet.mkAddr Fixtures.hostMAC (Net.IPv4 192 168 0 129) 0) Samples.arpDst
    = ARP.Frame arp
    /\ ARP.SrcIP arp = Some [0; 0; 0; 0]
    /\ Net.To4 (Net.IPv4 192 168 0 129) = [192; 168; 0; 129].
Proof.
  apply (MarshalBinary_sixteen_byte_sender None ARP.OperationRequest Fixtures.hostMAC
           192 168 0 129 0 Samples.arpDst);
    [exact I | cbn; lia ..].
Defined.

(** X24 (instance): the fields of the request for 192.168.0.200. *)
Lemma IsValid_guards_accessors_witness :
  ARP.HType Samples.arpRequest = Some 1
  /\ ARP.Proto Samples.arpRequest = Some ARP.ETH_P_IP
  /\ ARP.HLen Samples.arpRequest = Some 6 /\ ARP.PLen Samples.arpRequest = Some 4
  /\ (exists op, ARP.Operation Samples.arpRequest = Some op)
  /\ (exists mac, ARP.SrcMAC Samples.arpRequest = Some mac /\ length mac = 6%nat)
  /\ (exists ip, ARP.SrcIP Samples.arpRequest = Some ip /\ length ip = 4%nat)
  /\ (exists mac, ARP.DstMAC Samples.arpRequest = Some mac /\ length mac = 6%nat)
  /\ (exists ip, ARP.DstIP Samples.arpRequest = Some ip /\ length ip = 4%nat).
Proof.
  apply (IsValid_guards_accessors Samples.arpRequest). vm_compute. reflexivity.
Defined.

(** X29 (instance): two routers advertise in turn; the second one,
    fe80::1010, is learnt exactly if one of its advertisements is at a
    position that is a multiple of four, which is not the case. *)
Lemma advertisements_every_fourth_witness :
  is_Some (Handler6.LANRouters
             (Handler6.processAll 6 Fixtures.nicInfo (Handler6.mkState ∅ 0 (-1))
                [Samples.raA; Samples.raB; Samples.raA; Samples.raB])
           !! Fixtures.ip6LLAHost)
  <-> exists i p, [Samples.raA; Samples.raB; Samples.raA; Samples.raB] !! i = Some p
                  /\ Handler6.ip6_Src p = Fixtures.ip6LLAHost /\ (i mod 4 = 0)%nat.
Proof.
  apply (advertisements_every_fourth 6%nat Fixtures.nicInfo
           [Samples.raA; Samples.raB; Samples.raA; Samples.raB] 0%nat Fixtures.ip6LLAHost).
  - repeat constructor.
  - vm_compute. reflexivity.
Defined.
